(** * cv_strategy: the backtest engine of [backtest.py]

    A shallow embedding of [BacktestEngine] and of the helpers it calls, and
    the properties of the engine that the specification states.

    Conventions of the embedding.
    - Python and numpy floating-point numbers are modelled by exact rationals
      ([Q]); rounding is not modelled.  Where numpy yields [inf] or [nan]
      instead of raising (a division by a zero [numpy.float64]) the value is an
      [npfloat].
    - A Python exception is a value [Raise e] of the [result] type.
    - A [dict] whose iteration order is unobservable ([signals], [price_data])
      is a [gmap]; the [positions] dict, whose insertion order decides the order
      of the trades of a day, is an association list.
    - Dates are calendar days (year, month, day); the time of day that a
      [datetime] carries is always midnight in this program.  The pandas
      operations on dates ([pd.to_datetime], the lookups in a date index) are
      taken as total: the dates lie in the range a pandas timestamp covers.
    - Strings are byte strings; date strings are ASCII. *)

From Stdlib Require Import QArith Qround Qminmax Lqa Lia ZArith String Ascii.
From stdpp Require Import gmap strings list fin_maps sorting.

Local Open Scope string_scope.
Local Open Scope list_scope.
Local Open Scope Z_scope.

(** ** Exceptions and fallible computations *)

(** The built-in exceptions the engine can raise; [Other] names any other
    exception class. *)
Inductive exn : Type :=
| IndexError
| ValueError
| OverflowError
| ZeroDivisionError
| Other (class_name : string).

Inductive result (A : Type) : Type :=
| Ok (a : A)
| Raise (e : exn).
Arguments Ok {A} a.
Arguments Raise {A} e.

#[global] Instance result_bind : MBind result := λ A B k r,
  match r with
  | Ok a => k a
  | Raise e => Raise e
  end.

#[global] Instance result_ret : MRet result := λ A a, Ok a.

(** A [for] loop whose body may raise. *)
Fixpoint foldM {A S} (body : S → A → result S) (st : S) (l : list A) : result S :=
  match l with
  | [] => Ok st
  | x :: l' => st' ← body st x; foldM body st' l'
  end.

(** ** Calendar dates ([datetime.datetime] at midnight) *)

Record date : Type := mkDate { year : Z; month : Z; day : Z }.

#[global] Instance date_eq_dec : EqDecision date.
Proof. solve_decision. Defined.

#[global] Instance date_countable : Countable date.
Proof.
  refine (inj_countable' (λ d, (year d, month d, day d))
                         (λ t, mkDate t.1.1 t.1.2 t.2) _).
  by intros [].
Defined.

(** [datetime] values compare field by field. *)
Definition date_leb (a b : date) : bool :=
  if decide (year a = year b)
  then if decide (month a = month b) then bool_decide (day a ≤ day b)
       else bool_decide (month a < month b)
  else bool_decide (year a < year b).

Definition date_le (a b : date) : Prop := date_leb a b = true.

#[global] Instance date_le_dec : RelDecision date_le.
Proof. intros a b. unfold date_le. apply _. Defined.

(** [datetime._is_leap], [_days_before_year], [_days_in_month],
    [_days_before_month] and [_ymd2ord] of the standard library. *)
Definition _is_leap (y : Z) : bool :=
  (y mod 4 =? 0) && (negb (y mod 100 =? 0) || (y mod 400 =? 0)).

Definition _days_before_year (y : Z) : Z :=
  let y1 := y - 1 in y1 * 365 + y1 / 4 - y1 / 100 + y1 / 400.

Definition _DAYS_IN_MONTH (m : Z) : Z :=
  match m with
  | 1 => 31 | 2 => 28 | 3 => 31 | 4 => 30 | 5 => 31 | 6 => 30
  | 7 => 31 | 8 => 31 | 9 => 30 | 10 => 31 | 11 => 30 | 12 => 31
  | _ => -1
  end.

Definition _DAYS_BEFORE_MONTH (m : Z) : Z :=
  match m with
  | 1 => 0 | 2 => 31 | 3 => 59 | 4 => 90 | 5 => 120 | 6 => 151
  | 7 => 181 | 8 => 212 | 9 => 243 | 10 => 273 | 11 => 304 | 12 => 334
  | _ => -1
  end.

Definition _days_in_month (y m : Z) : Z :=
  if (m =? 2) && _is_leap y then 29 else _DAYS_IN_MONTH m.

Definition _days_before_month (y m : Z) : Z :=
  _DAYS_BEFORE_MONTH m + (if (2 <? m) && _is_leap y then 1 else 0).

Definition _ymd2ord (y m d : Z) : Z :=
  _days_before_year y + _days_before_month y m + d.

Definition toordinal (d : date) : Z := _ymd2ord (year d) (month d) (day d).

(** [date.weekday()]: Monday is 0, Sunday is 6. *)
Definition weekday (d : date) : Z := (toordinal d + 6) mod 7.

(** [(a - b).days] *)
Definition days_between (a b : date) : Z := toordinal a - toordinal b.

(** *** [datetime.strptime(s, '%Y-%m-%d')] on ASCII strings

    The format compiles to the regular expression
    [(\d\d\d\d)-(1[0-2]|0[1-9]|[1-9])-(3[01]|[12]\d|0[1-9]|[1-9]| [1-9])],
    which must match the whole string; the fields must then form a date the
    [datetime] constructor accepts.  Every failure is a [ValueError]. *)

Definition digit_of (c : ascii) : option Z :=
  let n := Z.of_nat (nat_of_ascii c) in
  if (48 <=? n) && (n <=? 57) then Some (n - 48) else None.

Definition in_range (lo hi : Z) (c : ascii) : option Z :=
  match digit_of c with
  | Some n => if (lo <=? n) && (n <=? hi) then Some n else None
  | None => None
  end.

(** The month field followed by the dash: the alternatives in order. *)
Definition parse_month (s : string) : option (Z * string) :=
  match s with
  | String a (String b (String "-" rest)) =>
      match in_range 1 1 a, in_range 0 2 b with
      | Some _, Some n => Some (10 + n, rest)
      | _, _ =>
          match in_range 0 0 a, in_range 1 9 b with
          | Some _, Some n => Some (n, rest)
          | _, _ => None
          end
      end
  | String a (String "-" rest) =>
      match in_range 1 9 a with
      | Some n => Some (n, rest)
      | None => None
      end
  | _ => None
  end.

(** The day field, which ends the string. *)
Definition parse_day (s : string) : option Z :=
  match s with
  | String a (String b EmptyString) =>
      match in_range 3 3 a, in_range 0 1 b with
      | Some _, Some n => Some (30 + n)
      | _, _ =>
          match in_range 1 2 a, in_range 0 9 b with
          | Some m, Some n => Some (10 * m + n)
          | _, _ =>
              match in_range 0 0 a, in_range 1 9 b with
              | Some _, Some n => Some n
              | _, _ =>
                  if Ascii.eqb a " " then in_range 1 9 b else None
              end
          end
      end
  | String a EmptyString => in_range 1 9 a
  | _ => None
  end.

Definition valid_ymd (y m d : Z) : bool :=
  (1 <=? y) && (y <=? 9999) && (1 <=? m) && (m <=? 12)
  && (1 <=? d) && (d <=? _days_in_month y m).

Definition strptime (s : string) : result date :=
  match s with
  | String y1 (String y2 (String y3 (String y4 (String "-" rest)))) =>
      match digit_of y1, digit_of y2, digit_of y3, digit_of y4 with
      | Some a, Some b, Some c, Some d =>
          let y := 1000 * a + 100 * b + 10 * c + d in
          match parse_month rest with
          | Some (m, rest') =>
              match parse_day rest' with
              | Some dd =>
                  if valid_ymd y m dd then Ok (mkDate y m dd)
                  else Raise ValueError
              | None => Raise ValueError
              end
          | None => Raise ValueError
          end
      | _, _, _, _ => Raise ValueError
      end
  | _ => Raise ValueError
  end.

Arguments strptime : simpl never.

(** *** [d.strftime('%Y-%m-%d')]: zero-padded year, month and day (the C
    library pads the year only from the year 1000 on; the dates of this
    program are later). *)

Definition digit_char (n : Z) : ascii := ascii_of_nat (Z.to_nat (48 + n mod 10)).

Definition pad2 (n : Z) : string :=
  String (digit_char (n / 10)) (String (digit_char n) EmptyString).

Definition pad4 (n : Z) : string :=
  String (digit_char (n / 1000)) (String (digit_char (n / 100)) (pad2 n)).

Definition strftime (d : date) : string :=
  pad4 (year d) +:+ "-" +:+ pad2 (month d) +:+ "-" +:+ pad2 (day d).

(** ** Numbers *)

Definition Qlt_bool (x y : Q) : bool := negb (Qle_bool y x).

(** Python's [min(a, b)]. *)
Definition py_min (a b : Q) : Q := if Qlt_bool b a then b else a.

(** A [numpy.float64] result: a finite value, an infinity or [nan]. *)
Inductive npfloat : Type :=
| Fin (q : Q)
| PInf
| NInf
| NaN.

(** [a / b] on [numpy.float64] operands; a zero divisor raises nothing. *)
Definition np_div (a b : Q) : npfloat :=
  if Qeq_bool b 0 then
    if Qlt_bool 0 a then PInf else if Qlt_bool a 0 then NInf else NaN
  else Fin (a / b).

(** [x >= y] and [x > y] for a finite [y]; every comparison with [nan] is
    false. *)
Definition np_ge (x : npfloat) (y : Q) : bool :=
  match x with
  | Fin q => Qle_bool y q
  | PInf => true
  | NInf | NaN => false
  end.

Definition np_gt (x : npfloat) (y : Q) : bool :=
  match x with
  | Fin q => Qlt_bool y q
  | PInf => true
  | NInf | NaN => false
  end.

(** [int(a // b)] where [b] is a [numpy.float64]: the floor division by zero
    gives an infinity or [nan], which [int] refuses.  The operands are
    rationals: a close that is [nan], and a quotient beyond the range of a
    float, which [int] refuses in the same way, have no counterpart here. *)
Definition int_floordiv (a b : Q) : result Z :=
  if Qeq_bool b 0 then
    if Qeq_bool a 0 then Raise ValueError else Raise OverflowError
  else Ok (Qfloor (a / b)).

(** ** Data model *)

(** One element of a signal list: [{'code': ..., 'name': ...}]; the name is
    optional. *)
Record signal : Type := mkSignal { code : string; name : option string }.

(** A price [DataFrame], as far as the engine reads it: its date index and,
    for each date of the index, the [close] column. *)
Abbreviation DataFrame := (gmap date Q).

(** [price_data]: code to [DataFrame], or to [None]. *)
Abbreviation PriceData := (gmap string (option DataFrame)).

(** [signals]: date string to the signals of that day. *)
Abbreviation Signals := (gmap string (list signal)).

(** A value of the [positions] dict. *)
Record position : Type := mkPosition {
  shares : Z;
  avg_price : Q;
  max_price : Q;
  buy_date : date;
  pos_name : string
}.

(** The [positions] dict in insertion order. *)
Abbreviation Positions := (list (string * position)).

Inductive side : Type := BUY | SELL.

#[global] Instance side_eq_dec : EqDecision side.
Proof. solve_decision. Defined.

(** The [reason] text of a trade: the stop-loss text embeds the drawdown. *)
Inductive trade_reason : Type :=
| StopLoss (drawdown : npfloat)
| SelectionSignal
| WeeklyRebalance.

Record trade : Type := mkTrade {
  t_date : string;
  t_code : string;
  t_name : option string;
  action : side;
  reason : trade_reason;
  price : Q;
  t_shares : Z;
  amount : Q;
  commission : Q;
  pnl : Q;
  pnl_pct : Q;
  holding_days : Z
}.

(** One row of [portfolio_history]. *)
Record daily_record : Type := mkDaily {
  r_date : string;
  cash : Q;
  positions_count : nat;
  portfolio_value : Q;
  return_pct : npfloat
}.

(** The [results] dict built by [_calculate_results]. *)
Record Results : Type := mkResults {
  res_initial_capital : Q;
  final_value : Q;
  total_return_pct : npfloat;
  annual_return_pct : npfloat;
  max_drawdown_pct : npfloat;
  sharpe_ratio : npfloat;
  total_trades : nat;
  win_rate_pct : Q;
  avg_win_pct : Q;
  avg_loss_pct : Q;
  avg_holding_days : Q;
  res_portfolio_history : list daily_record;
  res_trade_history : list trade
}.

(** The attributes of a [BacktestEngine]; [results = None] is the empty
    dict. *)
Record BacktestEngine : Type := mkEngine {
  initial_capital : Q;
  stop_loss_pct : Q;
  commission_rate : Q;
  rebalance_weekly : bool;
  rebalance_day : Z;
  results : option Results;
  portfolio_history : list daily_record;
  trade_history : list trade
}.

(** [BacktestEngine.__init__]: the arguments are stored as given. *)
Definition __init__ (initial_capital stop_loss_pct commission_rate : Q)
    (rebalance_weekly : bool) (rebalance_day : Z) : result BacktestEngine :=
  Ok {| initial_capital := initial_capital;
        stop_loss_pct := stop_loss_pct;
        commission_rate := commission_rate;
        rebalance_weekly := rebalance_weekly;
        rebalance_day := rebalance_day;
        results := None;
        portfolio_history := [];
        trade_history := [] |}.

(** ** Dictionary helpers *)

(** [code in price_data and price_data[code] is not None], then
    [current_date in df.index], then [df.loc[current_date, 'close']]. *)
Definition close_on (price_data : PriceData) (c : string) (d : date) : option Q :=
  match price_data !! c with
  | Some (Some df) => df !! d
  | _ => None
  end.

(** [df.empty] *)
Definition df_empty (df : DataFrame) : bool := bool_decide (dom df = ∅).

(** [code in positions] *)
Definition held (positions : Positions) (c : string) : bool :=
  bool_decide (c ∈ positions.*1).

(** [del positions[code]] *)
Definition del_position (positions : Positions) (c : string) : Positions :=
  filter (λ e, e.1 ≠ c) positions.

(** ** Trading dates *)

(** The [if start_date:] and [if end_date:] filters: [None] and the empty
    string are falsy; a bound that does not parse raises. *)
Definition bound_filter (keep : date → date → bool) (bound : option string)
    (all_dates : list date) : result (list date) :=
  match bound with
  | None | Some "" => Ok all_dates
  | Some s => dt ← strptime s; Ok (filter (λ d, keep d dt = true) all_dates)
  end.

(** The set built by the two loops of [_get_all_trading_dates]. *)
Definition signal_dates (signals : Signals) : gset date :=
  list_to_set (omap (λ kv : string * list signal,
                           match strptime kv.1 with
                           | Ok d => Some d
                           | Raise _ => None
                           end) (map_to_list signals)).

Definition price_dates (price_data : PriceData) : gset date :=
  ⋃ (omap (λ kv : string * option DataFrame,
             match kv.2 with
             | Some df => if df_empty df then None else Some (dom df)
             | None => None
             end) (map_to_list price_data)).

Definition _get_all_trading_dates (signals : Signals) (price_data : PriceData)
    (start_date end_date : option string) : result (list date) :=
  let all_dates := signal_dates signals ∪ price_dates price_data in
  let all_dates := merge_sort date_le (elements all_dates) in
  all_dates ← bound_filter (λ d start_dt, date_leb start_dt d) start_date all_dates;
  all_dates ← bound_filter (λ d end_dt, date_leb d end_dt) end_date all_dates;
  Ok all_dates.

(** ** Execution rules *)

(** [_update_positions_high] *)
Definition _update_positions_high (positions : Positions) (price_data : PriceData)
    (current_date : date) : Positions :=
  map (λ e : string * position,
         let (c, pos) := e in
         match close_on price_data c current_date with
         | Some current_price =>
             if Qlt_bool (max_price pos) current_price
             then (c, {| shares := shares pos; avg_price := avg_price pos;
                         max_price := current_price; buy_date := buy_date pos;
                         pos_name := pos_name pos |})
             else (c, pos)
         | None => (c, pos)
         end) positions.

(** The liquidation of one position at [current_price], written twice in the
    source (in [_check_stop_loss] and in [_execute_weekly_rebalance]): the net
    proceeds and the SELL trade. *)
Definition sell_position (self : BacktestEngine) (current_date : date)
    (date_str : string) (c : string) (pos : position) (current_price : Q)
    (why : trade_reason) : Q * trade :=
  let sell_value := (current_price * inject_Z (shares pos))%Q in
  let commission := (sell_value * commission_rate self)%Q in
  let net_proceeds := (sell_value - commission)%Q in
  let cost := (avg_price pos * inject_Z (shares pos))%Q in
  let buy_commission := (cost * commission_rate self)%Q in
  let total_cost := (cost + buy_commission)%Q in
  let pnl := (net_proceeds - total_cost)%Q in
  let pnl_pct := if Qlt_bool 0 total_cost then (pnl / total_cost)%Q else 0%Q in
  (net_proceeds,
   {| t_date := date_str; t_code := c; t_name := None; action := SELL;
      reason := why; price := current_price; t_shares := shares pos;
      amount := sell_value; commission := commission; pnl := pnl;
      pnl_pct := pnl_pct;
      holding_days := days_between current_date (buy_date pos) |}).

(** The drawdown from the highest price, on [numpy.float64] operands. *)
Definition drawdown_of (pos : position) (current_price : Q) : npfloat :=
  np_div (max_price pos - current_price) (max_price pos).

(** One iteration of the first loop of [_check_stop_loss]. *)
Definition stop_loss_step (self : BacktestEngine) (price_data : PriceData)
    (current_date : date) (date_str : string)
    (st : Q * list trade * list string) (e : string * position)
    : Q * list trade * list string :=
  let '(capital, trades_today, codes_to_remove) := st in
  let (c, pos) := e in
  match close_on price_data c current_date with
  | Some current_price =>
      let drawdown := drawdown_of pos current_price in
      if np_ge drawdown (stop_loss_pct self) then
        let (net_proceeds, trade) :=
          sell_position self current_date date_str c pos current_price
                        (StopLoss drawdown) in
        ((capital + net_proceeds)%Q, trades_today ++ [trade],
         codes_to_remove ++ [c])
      else st
  | None => st
  end.

(** [_check_stop_loss] *)
Definition _check_stop_loss (self : BacktestEngine) (positions : Positions)
    (price_data : PriceData) (capital : Q) (current_date : date)
    (date_str : string) : Positions * Q * list trade :=
  let '(capital, trades_today, codes_to_remove) :=
    fold_left (stop_loss_step self price_data current_date date_str)
              positions (capital, [], []) in
  (fold_left del_position codes_to_remove positions, capital, trades_today).

(** [signal.get('name', '未知')] *)
Definition default_name : string := "未知".

(** One iteration of the loop of [_execute_buy_signals]; [n_signals] is
    [len(buy_signals)]. *)
Definition buy_step (self : BacktestEngine) (price_data : PriceData)
    (current_date : date) (date_str : string) (n_signals : nat)
    (st : Positions * Q * list trade) (sig : signal)
    : result (Positions * Q * list trade) :=
  let '(positions, capital, trades_today) := st in
  let nm := default default_name (name sig) in
  if held positions (code sig) then Ok st else
  match close_on price_data (code sig) current_date with
  | None => Ok st
  | Some buy_price =>
      let allocation :=
        if (0 <? n_signals)%nat then (capital / inject_Z (Z.of_nat n_signals))%Q
        else 0%Q in
      let buy_value := py_min allocation (capital * 0.2)%Q in
      lots ← int_floordiv buy_value (buy_price * 100)%Q;
      let shares := lots * 100 in
      if shares <=? 0 then Ok st else
      let cost := (buy_price * inject_Z shares)%Q in
      let commission := (cost * commission_rate self)%Q in
      let total_cost := (cost + commission)%Q in
      if Qlt_bool capital total_cost then Ok st else
      Ok (positions ++ [(code sig,
                         {| shares := shares; avg_price := buy_price;
                            max_price := buy_price; buy_date := current_date;
                            pos_name := nm |})],
          (capital - total_cost)%Q,
          trades_today ++ [{| t_date := date_str; t_code := code sig;
                              t_name := Some nm; action := BUY;
                              reason := SelectionSignal; price := buy_price;
                              t_shares := shares; amount := cost;
                              commission := commission; pnl := 0; pnl_pct := 0;
                              holding_days := 0 |}])
  end.

(** [_execute_buy_signals] *)
Definition _execute_buy_signals (self : BacktestEngine) (buy_signals : list signal)
    (positions : Positions) (price_data : PriceData) (capital : Q)
    (current_date : date) (date_str : string)
    : result (Positions * Q * list trade) :=
  foldM (buy_step self price_data current_date date_str (length buy_signals))
        (positions, capital, []) buy_signals.

(** [_is_rebalance_day] *)
Definition _is_rebalance_day (self : BacktestEngine) (d : date) : bool :=
  weekday d =? rebalance_day self.

(** One iteration of the selling loop of [_execute_weekly_rebalance]. *)
Definition rebalance_sell_step (self : BacktestEngine) (price_data : PriceData)
    (current_date : date) (date_str : string)
    (st : Q * list trade) (e : string * position) : Q * list trade :=
  let (capital, trades_today) := st in
  let (c, pos) := e in
  match close_on price_data c current_date with
  | Some current_price =>
      let (net_proceeds, trade) :=
        sell_position self current_date date_str c pos current_price
                      WeeklyRebalance in
      ((capital + net_proceeds)%Q, trades_today ++ [trade])
  | None => st
  end.

(** [_execute_weekly_rebalance]: after the selling loop the ledger is replaced
    by an empty dict, whatever the loop sold. *)
Definition _execute_weekly_rebalance (self : BacktestEngine) (positions : Positions)
    (price_data : PriceData) (capital : Q) (current_date : date)
    (date_str : string) (today_signals : list signal)
    : result (Positions * Q * list trade) :=
  match positions with
  | [] => Ok (positions, capital, [])
  | _ =>
      let (capital, trades_today) :=
        fold_left (rebalance_sell_step self price_data current_date date_str)
                  positions (capital, []) in
      let positions : Positions := [] in
      match today_signals with
      | [] => Ok (positions, capital, trades_today)
      | _ =>
          '(positions, capital, new_trades) ←
            _execute_buy_signals self today_signals positions price_data
                                 capital current_date date_str;
          Ok (positions, capital, trades_today ++ new_trades)
      end
  end.

(** [_calculate_portfolio_value] *)
Definition _calculate_portfolio_value (positions : Positions)
    (price_data : PriceData) (capital : Q) (current_date : date) : Q :=
  fold_left (λ (portfolio_value : Q) (e : string * position),
               match close_on price_data e.1 current_date with
               | Some current_price =>
                   (portfolio_value + current_price * inject_Z (shares e.2))%Q
               | None => portfolio_value
               end) positions capital.

(** ** Arithmetic on [numpy.float64] results *)

Definition np_neg (x : npfloat) : npfloat :=
  match x with
  | Fin q => Fin (- q)
  | PInf => NInf
  | NInf => PInf
  | NaN => NaN
  end.

Definition np_add (x y : npfloat) : npfloat :=
  match x, y with
  | NaN, _ | _, NaN => NaN
  | Fin a, Fin b => Fin (a + b)
  | PInf, NInf | NInf, PInf => NaN
  | PInf, _ | _, PInf => PInf
  | NInf, _ | _, NInf => NInf
  end.

Definition np_sub (x y : npfloat) : npfloat := np_add x (np_neg y).

(** An infinity with the sign of [s], [nan] when [s] is zero. *)
Definition np_signed_inf (positive : bool) (s : Q) : npfloat :=
  if Qeq_bool s 0 then NaN
  else if Bool.eqb positive (Qlt_bool 0 s) then PInf else NInf.

Definition np_mul (x y : npfloat) : npfloat :=
  match x, y with
  | NaN, _ | _, NaN => NaN
  | Fin a, Fin b => Fin (a * b)
  | PInf, Fin s | Fin s, PInf => np_signed_inf true s
  | NInf, Fin s | Fin s, NInf => np_signed_inf false s
  | PInf, PInf | NInf, NInf => PInf
  | PInf, NInf | NInf, PInf => NInf
  end.

Definition np_divf (x y : npfloat) : npfloat :=
  match x, y with
  | NaN, _ | _, NaN => NaN
  | Fin a, Fin b => np_div a b
  | Fin _, (PInf | NInf) => Fin 0
  | PInf, Fin s => if Qlt_bool s 0 then NInf else PInf
  | NInf, Fin s => if Qlt_bool s 0 then PInf else NInf
  | (PInf | NInf), (PInf | NInf) => NaN
  end.

(** [x <= y] on values that are not [nan]. *)
Definition np_leb (x y : npfloat) : bool :=
  match x, y with
  | NInf, _ | _, PInf => true
  | Fin a, Fin b => Qle_bool a b
  | _, _ => false
  end.

Definition is_nan (x : npfloat) : bool :=
  match x with NaN => true | _ => false end.

(** The pandas reductions, which skip [nan] entries. *)
Definition dropna (l : list npfloat) : list npfloat :=
  filter (λ x, is_nan x = false) l.

Definition series_min (l : list npfloat) : npfloat :=
  match dropna l with
  | [] => NaN
  | x :: xs => fold_left (λ m y, if np_leb y m then y else m) xs x
  end.

Definition np_sum (l : list npfloat) : npfloat := fold_left np_add l (Fin 0).

Definition np_count (l : list npfloat) : npfloat :=
  Fin (inject_Z (Z.of_nat (length l))).

Definition series_mean (l : list npfloat) : npfloat :=
  match dropna l with
  | [] => NaN
  | xs => np_divf (np_sum xs) (np_count xs)
  end.

(** The sample variance ([ddof = 1]) under the square root of
    [Series.std]. *)
Definition series_var (l : list npfloat) : npfloat :=
  let xs := dropna l in
  if (length xs <=? 1)%nat then NaN
  else
    let avg := np_divf (np_sum xs) (np_count xs) in
    let sqr := np_sum (map (λ x, np_mul (np_sub avg x) (np_sub avg x)) xs) in
    np_divf sqr (Fin (inject_Z (Z.of_nat (length xs)) - 1)).

(** [Series.cummax] on finite values. *)
Fixpoint cummax_from (m : Q) (l : list Q) : list Q :=
  match l with
  | [] => []
  | v :: l' => let m' := if Qlt_bool m v then v else m in m' :: cummax_from m' l'
  end.

Definition cummax (l : list Q) : list Q :=
  match l with
  | [] => []
  | v :: l' => v :: cummax_from v l'
  end.

(** [Series.pct_change] on finite values: the first entry is [nan]. *)
Fixpoint pct_change_from (prev : Q) (l : list Q) : list npfloat :=
  match l with
  | [] => []
  | v :: l' => np_sub (np_div v prev) (Fin 1) :: pct_change_from v l'
  end.

Definition pct_change (l : list Q) : list npfloat :=
  match l with
  | [] => []
  | v :: l' => NaN :: pct_change_from v l'
  end.

(** The mean of a column of finite values (0 never occurs as a length
    here: every call is guarded). *)
Definition column_mean (l : list Q) : Q :=
  (fold_left Qplus l 0 / inject_Z (Z.of_nat (length l)))%Q.

(** ** Daily snapshot *)

(** [_record_daily_status].  [portfolio_value / self.initial_capital] divides
    by a Python number: a zero divisor raises when the dividend is a Python
    number too, and yields an infinity or [nan] when it is a
    [numpy.float64]; [pv_numpy] tells which. *)
Definition _record_daily_status (self : BacktestEngine) (date_str : string)
    (positions : Positions) (capital portfolio_value : Q) (pv_numpy : bool)
    (trades_today : list trade) : result BacktestEngine :=
  if negb pv_numpy && Qeq_bool (initial_capital self) 0
  then Raise ZeroDivisionError
  else
    let daily_record :=
      {| r_date := date_str; cash := capital;
         positions_count := length positions;
         portfolio_value := portfolio_value;
         return_pct :=
           np_mul (np_sub (np_div portfolio_value (initial_capital self)) (Fin 1))
                  (Fin 100) |} in
    Ok {| initial_capital := initial_capital self;
          stop_loss_pct := stop_loss_pct self;
          commission_rate := commission_rate self;
          rebalance_weekly := rebalance_weekly self;
          rebalance_day := rebalance_day self;
          results := results self;
          portfolio_history := portfolio_history self ++ [daily_record];
          trade_history := trade_history self ++ trades_today |}.

(** Steps 1 to 4 of the loop body of [run_backtest]: the ledger, the cash and
    the trades of [current_date]. *)
Definition day_trades (self : BacktestEngine) (signals : Signals)
    (price_data : PriceData) (positions : Positions) (capital : Q)
    (current_date : date) : result (Positions * Q * list trade) :=
  let date_str := strftime current_date in
  let positions := _update_positions_high positions price_data current_date in
  let '(positions, capital, trades_today) :=
    _check_stop_loss self positions price_data capital current_date date_str in
  '(positions, capital, trades_today) ←
    match signals !! date_str with
    | Some buy_signals =>
        '(positions, capital, new_trades) ←
          _execute_buy_signals self buy_signals positions price_data capital
                               current_date date_str;
        Ok (positions, capital, trades_today ++ new_trades)
    | None => Ok (positions, capital, trades_today)
    end;
  if rebalance_weekly self && _is_rebalance_day self current_date then
    '(positions, capital, rebalance_trades) ←
      _execute_weekly_rebalance self positions price_data capital current_date
                                date_str (default [] (signals !! date_str));
    Ok (positions, capital, trades_today ++ rebalance_trades)
  else Ok (positions, capital, trades_today).

(** The [for] loop of [run_backtest].  The engine is threaded through the
    loop, so that the snapshots recorded before an exception stay visible;
    [numpy] tells whether [capital] has become a [numpy.float64], which it
    does at the first settlement. *)
Fixpoint day_loop (self : BacktestEngine) (signals : Signals)
    (price_data : PriceData) (positions : Positions) (capital : Q)
    (numpy : bool) (dates : list date) : result () * BacktestEngine :=
  match dates with
  | [] => (Ok (), self)
  | current_date :: dates' =>
      match day_trades self signals price_data positions capital current_date with
      | Raise e => (Raise e, self)
      | Ok (positions, capital, trades_today) =>
          let numpy := numpy || negb (bool_decide (length trades_today = 0%nat)) in
          let portfolio_value :=
            _calculate_portfolio_value positions price_data capital current_date in
          match _record_daily_status self (strftime current_date) positions
                  capital portfolio_value numpy trades_today with
          | Raise e => (Raise e, self)
          | Ok self => day_loop self signals price_data positions capital numpy dates'
          end
      end
  end.

(** ** Metrics and the driver *)

Section Engine.

(** [numpy.float64.__pow__] and the square root of a positive number, which
    the rationals cannot compute, are left abstract. *)
Variable np_power : npfloat → Q → npfloat.
Variable sqrt_pos : Q → Q.

(** [numpy.sqrt]: exact at zero, [nan] below zero and at [nan]. *)
Definition np_sqrt (x : npfloat) : npfloat :=
  match x with
  | Fin q =>
      if Qlt_bool q 0 then NaN
      else if Qeq_bool q 0 then Fin 0
      else Fin (sqrt_pos q)
  | PInf => PInf
  | NInf | NaN => NaN
  end.

(** [_calculate_results] *)
Definition _calculate_results (self : BacktestEngine) (all_dates : list date)
    : result BacktestEngine :=
  match portfolio_history self with
  | [] => Ok self
  | first_record :: _ =>
      let values := map portfolio_value (portfolio_history self) in
      let final_value := List.last values (portfolio_value first_record) in
      let growth := np_div final_value (initial_capital self) in
      let total_return := np_mul (np_sub growth (Fin 1)) (Fin 100) in
      match last all_dates, head all_dates with
      | Some last_date, Some first_date =>
          let days := days_between last_date first_date in
          let years := (inject_Z days / 365.25)%Q in
          let annual_return :=
            if Qlt_bool 0 years
            then np_mul (np_sub (np_power growth (1 / years)%Q) (Fin 1)) (Fin 100)
            else Fin 0 in
          let drawdown :=
            map (λ vc : Q * Q, np_mul (np_div (vc.1 - vc.2) vc.2) (Fin 100))
                (zip values (cummax values)) in
          let max_drawdown := series_min drawdown in
          let daily_return := pct_change values in
          let avg_daily_return := np_mul (series_mean daily_return) (Fin 100) in
          let std_daily_return :=
            np_mul (np_sqrt (series_var daily_return)) (Fin 100) in
          let sharpe_ratio :=
            if np_gt std_daily_return 0
            then np_mul (np_divf (np_sub avg_daily_return (Fin (3 / 252)))
                                 std_daily_return)
                        (np_sqrt (Fin 252))
            else Fin 0 in
          let buy_trades := filter (λ t, action t = BUY) (trade_history self) in
          let sell_trades := filter (λ t, action t = SELL) (trade_history self) in
          let win_trades := filter (λ t, Qlt_bool 0 (pnl t) = true) sell_trades in
          let loss_trades := filter (λ t, Qle_bool (pnl t) 0 = true) sell_trades in
          let nonempty {A} (l : list A) : bool := (0 <? length l)%nat in
          let count {A} (l : list A) : Q := inject_Z (Z.of_nat (length l)) in
          let stats :=
            match trade_history self with
            | [] => (0%nat, 0%Q, 0%Q, 0%Q, 0%Q)
            | _ =>
                ((length buy_trades + length sell_trades)%nat,
                 if nonempty sell_trades
                 then (count win_trades / count sell_trades * 100)%Q else 0%Q,
                 if nonempty win_trades
                 then column_mean (map pnl_pct win_trades) else 0%Q,
                 if nonempty loss_trades
                 then column_mean (map pnl_pct loss_trades) else 0%Q,
                 if nonempty sell_trades
                 then column_mean (map (λ t, inject_Z (holding_days t)) sell_trades)
                 else 0%Q)
            end in
          let '(total_trades, win_rate, avg_win, avg_loss, avg_holding_days) :=
            stats in
          Ok {| initial_capital := initial_capital self;
                stop_loss_pct := stop_loss_pct self;
                commission_rate := commission_rate self;
                rebalance_weekly := rebalance_weekly self;
                rebalance_day := rebalance_day self;
                results :=
                  Some {| res_initial_capital := initial_capital self;
                          final_value := final_value;
                          total_return_pct := total_return;
                          annual_return_pct := annual_return;
                          max_drawdown_pct := max_drawdown;
                          sharpe_ratio := sharpe_ratio;
                          total_trades := total_trades;
                          win_rate_pct := win_rate;
                          avg_win_pct := avg_win;
                          avg_loss_pct := avg_loss;
                          avg_holding_days := avg_holding_days;
                          res_portfolio_history := portfolio_history self;
                          res_trade_history := trade_history self |};
                portfolio_history := portfolio_history self;
                trade_history := trade_history self |}
      | _, _ => Raise IndexError
      end
  end.

(** [day_names[self.rebalance_day]] in the start-up message: a list of seven
    names, which Python also indexes from the end. *)
Definition day_names_index (i : Z) : result () :=
  if (-7 <=? i) && (i <=? 6) then Ok () else Raise IndexError.

(** [run_backtest]: the returned [results] and the engine as the call
    leaves it. *)
Definition run_backtest (self : BacktestEngine) (signals : Signals)
    (price_data : PriceData) (start_date end_date : option string)
    : result (option Results) * BacktestEngine :=
  match (if rebalance_weekly self then day_names_index (rebalance_day self)
         else Ok ()) with
  | Raise e => (Raise e, self)
  | Ok _ =>
      match _get_all_trading_dates signals price_data start_date end_date with
      | Raise e => (Raise e, self)
      | Ok all_dates =>
          match all_dates with
          | [] => (Raise IndexError, self)
          | _ =>
              match day_loop self signals price_data [] (initial_capital self)
                             false all_dates with
              | (Raise e, self) => (Raise e, self)
              | (Ok _, self) =>
                  match _calculate_results self all_dates with
                  | Raise e => (Raise e, self)
                  | Ok self => (Ok (results self), self)
                  end
              end
          end
      end
  end.

End Engine.

(** ** Vocabulary of the properties *)

(** A date satisfies an optional bound. *)
Definition within (keep : date → date → bool) (bound : option string) (d : date)
    : Prop :=
  match bound with
  | None | Some "" => True
  | Some s => ∃ dt, strptime s = Ok dt ∧ keep d dt = true
  end.

Definition sum_Q (l : list Q) : Q := fold_right Qplus 0%Q l.

(** What a trade moves into the cash account: a BUY takes the gross amount
    and the commission out, a SELL brings the gross amount less the
    commission in. *)
Definition settle (t : trade) : Q :=
  match action t with
  | BUY => (- (amount t + commission t))%Q
  | SELL => (amount t - commission t)%Q
  end.

(** The market value of a position that has a price bar on [d]. *)
Definition bar_value (price_data : PriceData) (d : date) (e : string * position)
    : option Q :=
  (λ p, p * inject_Z (shares e.2))%Q <$> close_on price_data e.1 d.

(** The stop-loss condition of a position on [d]. *)
Definition triggered (self : BacktestEngine) (price_data : PriceData) (d : date)
    (e : string * position) : bool :=
  match close_on price_data e.1 d with
  | Some p => np_ge (drawdown_of e.2 p) (stop_loss_pct self)
  | None => false
  end.

(** The stop-loss condition as the specification words it, in the arithmetic
    of the rationals and without the code's drawdown: the position has a bar
    on [d] and [(max_price - close) / max_price] is at least the threshold.
    Where the highest price is zero the quotient is no number: numpy then
    gives [inf], which is at least any threshold, when [max_price - close] is
    positive, and [-inf] or [nan], which are not, otherwise. *)
Definition stop_loss_due (self : BacktestEngine) (price_data : PriceData)
    (d : date) (e : string * position) : bool :=
  match close_on price_data e.1 d with
  | Some p =>
      if Qeq_bool (max_price e.2) 0 then Qlt_bool 0 (max_price e.2 - p)
      else Qle_bool (stop_loss_pct self) ((max_price e.2 - p) / max_price e.2)
  | None => false
  end.

(** The sale the stop-loss rule makes of one position, if any: the net
    proceeds and the trade. *)
Definition stop_loss_exit (self : BacktestEngine) (price_data : PriceData)
    (d : date) (date_str : string) (e : string * position) : option (Q * trade) :=
  match close_on price_data e.1 d with
  | Some p =>
      if np_ge (drawdown_of e.2 p) (stop_loss_pct self)
      then Some (sell_position self d date_str e.1 e.2 p
                               (StopLoss (drawdown_of e.2 p)))
      else None
  | None => None
  end.

(** The sale the weekly rebalance makes of one position, if any. *)
Definition rebalance_exit (self : BacktestEngine) (price_data : PriceData)
    (d : date) (date_str : string) (e : string * position) : option (Q * trade) :=
  match close_on price_data e.1 d with
  | Some p => Some (sell_position self d date_str e.1 e.2 p WeeklyRebalance)
  | None => None
  end.

(** The share count of an entry as the specification words it: the cash
    divided by the number [n] of candidates not yet held, capped at 20% of the
    cash, rounded down to whole lots of 100. *)
Definition spec_entry_shares (cash : Q) (n : nat) (p : Q) : Z :=
  Qfloor (py_min (cash / inject_Z (Z.of_nat n)) (cash * 0.2) / (p * 100)) * 100.

(** The exceptions of Python itself, as opposed to an exception class a
    program defines. *)
Definition builtin (e : exn) : Prop :=
  match e with
  | Other _ => False
  | _ => True
  end.

(** Every close of every series is non-negative. *)
Definition prices_nonneg (price_data : PriceData) : Prop :=
  ∀ c d p, close_on price_data c d = Some p → (0 <= p)%Q.

(** Every position of the ledger holds a non-negative number of shares. *)
Definition shares_nonneg (positions : Positions) : Prop :=
  Forall (λ e : string * position, 0 ≤ shares e.2) positions.




(** ** Scenarios

    Concrete inputs on which the engine is evaluated below. *)

Module Scenario.

(** Stand-ins for the two abstract numpy functions; no property below
    depends on what they return. *)
Definition no_power (x : npfloat) (y : Q) : npfloat := NaN.
Definition no_sqrt (q : Q) : Q := 0.

(** Two consecutive Mondays. *)
Definition monday1 : date := mkDate 2024 1 1.
Definition monday2 : date := mkDate 2024 1 8.

(** The configuration of the test script: capital 1,000,000, stop loss 4%,
    commission 0.03%. *)
Definition engine (weekly : bool) : BacktestEngine :=
  {| initial_capital := 1000000; stop_loss_pct := 0.04;
     commission_rate := 0.0003; rebalance_weekly := weekly;
     rebalance_day := 0; results := None; portfolio_history := [];
     trade_history := [] |}.

Definition sigA : signal := mkSignal "A" (Some "Alpha").
Definition sigB : signal := mkSignal "B" (Some "Beta").

(** A series that closes at 10 on both Mondays, and one that has a bar on
    the second Monday only / on the first Monday only. *)
Definition flat : DataFrame := <[monday1 := 10%Q]> (<[monday2 := 10%Q]> ∅).
Definition first_only : DataFrame := <[monday1 := 10%Q]> ∅.
Definition second_only : DataFrame := <[monday2 := 10%Q]> ∅.

(** One signal on each Monday, both instruments priced on both days. *)
Definition two_mondays : Signals :=
  <["2024-01-01" := [sigA]]> (<["2024-01-08" := [sigB]]> ∅).
Definition both_priced : PriceData :=
  <["A" := Some flat]> (<["B" := Some flat]> ∅).

(** A is signalled and priced on the first Monday and has no bar on the
    second; B only gives the second Monday a bar. *)
Definition first_monday_only : Signals := <["2024-01-01" := [sigA]]> ∅.
Definition gap_prices : PriceData :=
  <["A" := Some first_only]> (<["B" := Some second_only]> ∅).


(** An engine after a single day without trades. *)
Definition single_day_engine : BacktestEngine :=
  {| initial_capital := 1000000; stop_loss_pct := 0.04;
     commission_rate := 0.0003; rebalance_weekly := false;
     rebalance_day := 0; results := None;
     portfolio_history := [mkDaily "2024-01-01" 1000000 0 1000000 (Fin 0)];
     trade_history := [] |}.

(** A feed with one date that signals nothing. *)
Definition empty_day : Signals := <["2024-01-01" := []]> ∅.

(** Six signals of which five are already held. *)
Definition held_five : Positions :=
  map (λ c, (c, mkPosition 100 10 10 monday1 "held"))
      ["H1"; "H2"; "H3"; "H4"; "H5"].
Definition six_signals : list signal :=
  map (λ c, mkSignal c None) ["H1"; "H2"; "H3"; "H4"; "H5"; "B"].

End Scenario.

(** ** Further code of the repository *)

(** [prepare_backtest_data] of [backtest.py]: the signal dictionary is filled
    from the selection history in order, a later entry for a date replacing
    an earlier one; the price dictionary is returned empty (the source leaves
    the download out).  The two date arguments are not used. *)
Definition prepare_backtest_data
    (selected_stocks_history : list (string * list signal))
    (start_date : string) (end_date : option string) : Signals * PriceData :=
  (fold_left (λ (signals : Signals) (entry : string * list signal),
                <[entry.1 := entry.2]> signals)
             selected_stocks_history ∅,
   ∅).

(** ** Vocabulary of the further properties *)

(** The commissions of a list of trades. *)
Definition commissions (trades : list trade) : Q := sum_Q (map commission trades).

(** A position as the engine makes them: a positive number of whole lots of
    100 shares, and a highest price that is at least the entry price. *)
Definition position_ok (pos : position) : Prop :=
  0 < shares pos ∧ (100 | shares pos) ∧ (avg_price pos <= max_price pos)%Q.

(** A ledger as the engine keeps it: one position per instrument, each as
    the engine makes them. *)
Definition ledger_ok (positions : Positions) : Prop :=
  NoDup positions.*1 ∧ Forall (λ e : string * position, position_ok e.2) positions.

(** A trade as the engine records them. *)
Definition trade_ok (self : BacktestEngine) (t : trade) : Prop :=
  0 < t_shares t
  ∧ (100 | t_shares t)
  ∧ amount t = (price t * inject_Z (t_shares t))%Q
  ∧ commission t = (amount t * commission_rate self)%Q
  ∧ (action t = BUY →
     reason t = SelectionSignal ∧ pnl t = 0%Q ∧ pnl_pct t = 0%Q
     ∧ holding_days t = 0).

(** Strictly earlier, for dates. *)
Definition date_lt (a b : date) : Prop := date_le a b ∧ a ≠ b.

(** The engine with the weekly rebalance switched off. *)
Definition without_rebalance (self : BacktestEngine) : BacktestEngine :=
  {| initial_capital := initial_capital self;
     stop_loss_pct := stop_loss_pct self;
     commission_rate := commission_rate self;
     rebalance_weekly := false;
     rebalance_day := rebalance_day self;
     results := results self;
     portfolio_history := portfolio_history self;
     trade_history := trade_history self |}.


(** ** Further scenarios *)

(** The configuration of the test script with the rebalance weekday -1,
    which Python reads as the last name of the list of day names. *)
Definition negative_day_engine : BacktestEngine :=
  {| initial_capital := 1000000; stop_loss_pct := 0.04;
     commission_rate := 0.0003; rebalance_weekly := true;
     rebalance_day := -1; results := None; portfolio_history := [];
     trade_history := [] |}.

(** A bound that [_get_all_trading_dates] cannot read: a non-empty string
    that is not a date. *)
Definition bound_fails (bound : option string) : bool :=
  match bound with
  | None | Some "" => false
  | Some s => match strptime s with Ok _ => false | Raise _ => true end
  end.

(** The configuration of the test script without any capital. *)
Definition penniless_engine : BacktestEngine :=
  {| initial_capital := 0; stop_loss_pct := 0.04;
     commission_rate := 0.0003; rebalance_weekly := false;
     rebalance_day := 0; results := None; portfolio_history := [];
     trade_history := [] |}.

(** The prices of the two Mondays with one more bar for A, a week after the
    second Monday. *)
Definition later_prices : PriceData :=
  <["A" := Some (<[mkDate 2024 1 15 := 99%Q]> Scenario.flat)]>
    Scenario.both_priced.

(** A trade made on the date [d] at the close of its instrument. *)
Definition at_close (price_data : PriceData) (d : date) (t : trade) : Prop :=
  t_date t = strftime d ∧ close_on price_data (t_code t) d = Some (price t).

(** A position entered on [d] from one of the signals [sigs], at the close
    of the day. *)
Definition entered_today (price_data : PriceData) (d : date)
    (sigs : list signal) (e : string * position) : Prop :=
  e.1 ∈ map code sigs
  ∧ buy_date e.2 = d
  ∧ max_price e.2 = avg_price e.2
  ∧ close_on price_data e.1 d = Some (avg_price e.2).

(** A position that is clear of its stop on [d], in the arithmetic of the
    rationals: if it has a bar, the close is at most its highest price and
    the drawdown [(max_price - close) / max_price] is below the threshold;
    a highest price of zero, at which the quotient is no number, goes with
    a close of zero. *)
Definition below_stop (self : BacktestEngine) (price_data : PriceData)
    (d : date) (e : string * position) : Prop :=
  ∀ p, close_on price_data e.1 d = Some p →
       (p <= max_price e.2)%Q
       ∧ (¬ (max_price e.2 == 0)%Q →
          ((max_price e.2 - p) / max_price e.2 < stop_loss_pct self)%Q)
       ∧ ((max_price e.2 == 0)%Q → (p == 0)%Q).
(** * Properties *)

(** ** Sanity checks of the date functions *)

Example strptime_padded : strptime "2024-01-08" = Ok (mkDate 2024 1 8).
Proof. reflexivity. Qed.

Example strptime_unpadded : strptime "2024-1-8" = Ok (mkDate 2024 1 8).
Proof. reflexivity. Qed.

Example strptime_bad_month : strptime "2024-13-01" = Raise ValueError.
Proof. reflexivity. Qed.

Example strptime_bad_day : strptime "2023-02-29" = Raise ValueError.
Proof. reflexivity. Qed.

Example strftime_ex : strftime (mkDate 2024 1 8) = "2024-01-08".
Proof. reflexivity. Qed.

Example weekday_monday : weekday (mkDate 2024 1 8) = 0.
Proof. reflexivity. Qed.


(** ** Basic facts about the fallible computations *)

Lemma bind_Ok {A B} (r : result A) (k : A → result B) (b : B) :
  r ≫= k = Ok b → ∃ a, r = Ok a ∧ k a = Ok b.
Proof. destruct r as [a|e]; simpl; [eauto | discriminate]. Qed.

Lemma Qlt_bool_iff (x y : Q) : Qlt_bool x y = true ↔ (x < y)%Q.
Proof.
  unfold Qlt_bool. destruct (Qle_bool y x) eqn:E; simpl.
  - apply Qle_bool_iff in E. split; [discriminate|].
    intros Hlt. by destruct (Qlt_not_le _ _ Hlt).
  - split; [|done]. intros _. apply Qnot_le_lt. intros Hle.
    apply Qle_bool_iff in Hle. congruence.
Qed.

Lemma Qlt_bool_false (x y : Q) : Qlt_bool x y = false ↔ (y <= x)%Q.
Proof. unfold Qlt_bool. rewrite negb_false_iff. apply Qle_bool_iff. Qed.

(** ** The trading-date universe *)

Lemma bound_filter_Ok keep bound l l' :
  bound_filter keep bound l = Ok l' →
  ∀ d, d ∈ l' ↔ d ∈ l ∧ within keep bound d.
Proof.
  intros H d. destruct bound as [[|a s]|]; simpl in *.
  - inversion H; subst. tauto.
  - destruct (strptime (String a s)) as [dt|e]; simpl in H; [|discriminate].
    inversion H; subst. rewrite list_elem_of_filter. split.
    + intros [? ?]. eauto.
    + intros [? (dt' & Hdt & ?)]. inversion Hdt; subst. auto.
  - inversion H; subst. tauto.
Qed.

Lemma elem_of_signal_dates (signals : Signals) (d : date) :
  d ∈ signal_dates signals ↔
  ∃ k sigs, signals !! k = Some sigs ∧ strptime k = Ok d.
Proof.
  unfold signal_dates. rewrite elem_of_list_to_set, list_elem_of_omap. split.
  - intros ([k sigs] & Hin & Hd). apply elem_of_map_to_list in Hin.
    exists k, sigs. split; [done|]. simpl in Hd.
    destruct (strptime k); congruence.
  - intros (k & sigs & Hk & Hd). exists (k, sigs). split.
    + by apply elem_of_map_to_list.
    + simpl. by rewrite Hd.
Qed.

Lemma elem_of_price_dates (price_data : PriceData) (d : date) :
  d ∈ price_dates price_data ↔
  ∃ c df, price_data !! c = Some (Some df) ∧ is_Some (df !! d).
Proof.
  unfold price_dates. rewrite elem_of_union_list. split.
  - intros (X & HX & Hd). apply list_elem_of_omap in HX as ([c o] & Hin & HX).
    apply elem_of_map_to_list in Hin. simpl in HX.
    destruct o as [df|]; [|discriminate].
    destruct (df_empty df); [discriminate|]. inversion HX; subst.
    exists c, df. split; [done|]. by apply elem_of_dom.
  - intros (c & df & Hc & Hd). exists (dom df). split; [|by apply elem_of_dom].
    apply list_elem_of_omap. exists (c, Some df). split.
    + by apply elem_of_map_to_list.
    + simpl. unfold df_empty. rewrite bool_decide_eq_false_2; [done|].
      intros Hempty. apply elem_of_dom in Hd. rewrite Hempty in Hd.
      by apply not_elem_of_empty in Hd.
Qed.

Lemma signal_dates_unparsed (signals : Signals) k sigs :
  (∀ d, strptime k ≠ Ok d) →
  signal_dates (<[k:=sigs]> signals) = signal_dates (delete k signals).
Proof.
  intros Hk. apply set_eq. intros d. rewrite !elem_of_signal_dates.
  split; intros (k' & v & Hl & Hd); exists k', v; (split; [|done]).
  - destruct (decide (k = k')) as [->|Hne]; [by destruct (Hk d)|].
    rewrite lookup_delete_ne by done. by rewrite lookup_insert_ne in Hl.
  - destruct (decide (k = k')) as [->|Hne]; [by destruct (Hk d)|].
    rewrite lookup_insert_ne by done. by rewrite lookup_delete_ne in Hl.
Qed.

Lemma get_all_trading_dates_elem signals price_data start_date end_date dates :
  _get_all_trading_dates signals price_data start_date end_date = Ok dates →
  ∀ d, d ∈ dates ↔
       (d ∈ signal_dates signals ∨ d ∈ price_dates price_data)
       ∧ within (λ d start_dt, date_leb start_dt d) start_date d
       ∧ within (λ d end_dt, date_leb d end_dt) end_date d.
Proof.
  unfold _get_all_trading_dates. intros H d.
  apply bind_Ok in H as (l1 & H1 & H).
  apply bind_Ok in H as (l2 & H2 & H). inversion H; subst.
  rewrite (bound_filter_Ok _ _ _ _ H2), (bound_filter_Ok _ _ _ _ H1).
  rewrite merge_sort_Permutation, elem_of_elements, elem_of_union. tauto.
Qed.

Lemma get_all_trading_dates_unbounded signals price_data :
  ∃ dates, _get_all_trading_dates signals price_data None None = Ok dates.
Proof. unfold _get_all_trading_dates. simpl. eauto. Qed.

(** C10.  While the set of trading dates is built, a key of the signal feed
    that does not parse as a date is ignored: the result with the key is the
    result without it, and with no bounds the function never raises.  Every
    date of the index of a price series is returned, whether a signal exists
    for it or not; under a start or end bound the dates returned are exactly
    the dates of the parsable signal keys and of the price series that
    satisfy the bounds. *)
Theorem trading_dates_unparsed_keys_ignored_price_dates_kept :
  ∀ (signals : Signals) (price_data : PriceData)
    (start_date end_date : option string),
    (∀ k sigs, (∀ d, strptime k ≠ Ok d) →
       _get_all_trading_dates (<[k:=sigs]> signals) price_data start_date end_date
       = _get_all_trading_dates (delete k signals) price_data start_date end_date)
    ∧ (∃ dates, _get_all_trading_dates signals price_data None None = Ok dates)
    ∧ (∀ dates c df d,
         _get_all_trading_dates signals price_data None None = Ok dates →
         price_data !! c = Some (Some df) → is_Some (df !! d) → d ∈ dates)
    ∧ (∀ dates,
         _get_all_trading_dates signals price_data start_date end_date = Ok dates →
         ∀ d, d ∈ dates ↔
              ((∃ k sigs, signals !! k = Some sigs ∧ strptime k = Ok d)
               ∨ (∃ c df, price_data !! c = Some (Some df) ∧ is_Some (df !! d)))
              ∧ within (λ d start_dt, date_leb start_dt d) start_date d
              ∧ within (λ d end_dt, date_leb d end_dt) end_date d).
Proof.
  intros signals price_data start_date end_date. split; [|split; [|split]].
  - intros k sigs Hk. unfold _get_all_trading_dates.
    by rewrite (signal_dates_unparsed signals k sigs Hk).
  - apply get_all_trading_dates_unbounded.
  - intros dates c df d H Hc Hd.
    apply (get_all_trading_dates_elem _ _ _ _ _ H d). split; [|done].
    right. apply elem_of_price_dates. eauto.
  - intros dates H d.
    rewrite (get_all_trading_dates_elem _ _ _ _ _ H d).
    by rewrite elem_of_signal_dates, elem_of_price_dates.
Qed.

Lemma trading_dates_unparsed_keys_ignored_witness :
  _get_all_trading_dates (<["next monday" := [Scenario.sigA]]> Scenario.two_mondays)
                         Scenario.gap_prices None None
  = _get_all_trading_dates (delete "next monday" Scenario.two_mondays)
                           Scenario.gap_prices None None
  ∧ (Scenario.monday2 ∈ [Scenario.monday1; Scenario.monday2] ↔
     ((∃ k sigs, Scenario.first_monday_only !! k = Some sigs
                 ∧ strptime k = Ok Scenario.monday2)
      ∨ (∃ c df, Scenario.gap_prices !! c = Some (Some df)
                 ∧ is_Some (df !! Scenario.monday2)))
     ∧ True ∧ True).
Proof.
  split.
  - apply (proj1 (trading_dates_unparsed_keys_ignored_price_dates_kept
                    Scenario.two_mondays Scenario.gap_prices None None)).
    intros d. vm_compute. discriminate.
  - apply (proj2 (proj2 (proj2
             (trading_dates_unparsed_keys_ignored_price_dates_kept
                Scenario.first_monday_only Scenario.gap_prices None None)))).
    vm_compute. reflexivity.
Defined.

(** ** The empty horizon *)

Lemma day_names_index_cases i :
  day_names_index i = Ok () ∨ day_names_index i = Raise IndexError.
Proof. unfold day_names_index. destruct (_ && _); auto. Qed.

(** C2, as the code has it.  Whenever the set of trading dates that
    [_get_all_trading_dates] returns is empty, [run_backtest] stops before
    the loop with an [IndexError] (the first date of the horizon is read for
    the start-up message), and leaves the engine untouched: no snapshot, no
    trade and no result is recorded. *)
Theorem run_backtest_empty_horizon_index_error :
  ∀ (np_power : npfloat → Q → npfloat) (sqrt_pos : Q → Q)
    (self : BacktestEngine) (signals : Signals) (price_data : PriceData)
    (start_date end_date : option string),
    _get_all_trading_dates signals price_data start_date end_date = Ok [] →
    run_backtest np_power sqrt_pos self signals price_data start_date end_date
    = (Raise IndexError, self).
Proof.
  intros np_power sqrt_pos self signals price_data start_date end_date H.
  unfold run_backtest. rewrite H.
  destruct (rebalance_weekly self); [|done].
  by destruct (day_names_index_cases (rebalance_day self)) as [-> | ->].
Qed.

Lemma run_backtest_empty_horizon_witness :
  run_backtest Scenario.no_power Scenario.no_sqrt (Scenario.engine true)
               Scenario.two_mondays Scenario.both_priced (Some "2025-01-01") None
  = (Raise IndexError, Scenario.engine true).
Proof.
  apply run_backtest_empty_horizon_index_error. vm_compute. reflexivity.
Defined.

(** C2, as the specification words it, fails: with an empty signal feed and
    an empty price store the set of trading dates is empty, and the run ends
    with an [IndexError], not with an [EmptyHorizon] error. *)
Lemma run_backtest_empty_horizon_not_typed :
  _get_all_trading_dates (∅ : Signals) (∅ : PriceData) None None = Ok []
  ∧ (run_backtest Scenario.no_power Scenario.no_sqrt (Scenario.engine false)
                  ∅ ∅ None None).1
    ≠ Raise (Other "EmptyHorizon").
Proof. split; [vm_compute; reflexivity | vm_compute; discriminate]. Qed.

(** A feed whose only date signals nothing, with an empty price store, does
    not give an empty horizon: the date of the key is a trading date, and the
    run records one snapshot without trades and returns a result. *)
Lemma run_backtest_date_without_signals :
  _get_all_trading_dates Scenario.empty_day (∅ : PriceData) None None
  = Ok [Scenario.monday1]
  ∧ ∃ r self',
      run_backtest Scenario.no_power Scenario.no_sqrt (Scenario.engine false)
                   Scenario.empty_day ∅ None None = (Ok (Some r), self')
      ∧ map (λ rec, (r_date rec, positions_count rec, Qred (portfolio_value rec)))
            (portfolio_history self')
        = [("2024-01-01", 0%nat, 1000000%Q)]
      ∧ trade_history self' = [].
Proof.
  split; [vm_compute; reflexivity|]. eexists _, _.
  split; [vm_compute; reflexivity|]. split; vm_compute; reflexivity.
Qed.

(** ** Valuation *)

Lemma sum_Q_cons (x : Q) (l : list Q) : sum_Q (x :: l) = (x + sum_Q l)%Q.
Proof. reflexivity. Qed.

Lemma portfolio_value_fold positions price_data d : ∀ capital,
  (_calculate_portfolio_value positions price_data capital d
   == capital + sum_Q (omap (bar_value price_data d) positions))%Q.
Proof.
  unfold _calculate_portfolio_value.
  induction positions as [|[c pos] positions IH]; intros capital.
  - cbn [fold_left omap list_omap sum_Q fold_right]. ring.
  - cbn [fold_left omap list_omap fst snd].
    destruct (close_on price_data c d) as [p|] eqn:E.
    + replace (bar_value price_data d (c, pos))
        with (Some (p * inject_Z (shares pos))%Q)
        by (unfold bar_value; cbn [fst snd]; by rewrite E).
      rewrite IH, sum_Q_cons. ring.
    + replace (bar_value price_data d (c, pos)) with (@None Q)
        by (unfold bar_value; cbn [fst snd]; by rewrite E).
      apply IH.
Qed.

Lemma portfolio_value_skips positions1 positions2 price_data d c pos capital :
  close_on price_data c d = None →
  _calculate_portfolio_value (positions1 ++ (c, pos) :: positions2)
                             price_data capital d
  = _calculate_portfolio_value (positions1 ++ positions2) price_data capital d.
Proof.
  intros Hnone. unfold _calculate_portfolio_value.
  rewrite !fold_left_app. simpl. by rewrite Hnone.
Qed.

(** C5, as the code has it.  The total value computed for a date is the cash
    plus the sum of shares times the close of the date over the open
    positions that have a price bar on that date; a position without a bar on
    the date adds nothing to the total, although it stays in the ledger; and
    the snapshot recorded for a date holds that total, the cash and the
    number of open positions after the trades of the date. *)
Theorem portfolio_value_counts_only_priced_positions :
  ∀ (price_data : PriceData) (d : date),
    (∀ positions capital,
       (_calculate_portfolio_value positions price_data capital d
        == capital + sum_Q (omap (bar_value price_data d) positions))%Q)
    ∧ (∀ positions1 positions2 c pos capital,
         close_on price_data c d = None →
         _calculate_portfolio_value (positions1 ++ (c, pos) :: positions2)
                                    price_data capital d
         = _calculate_portfolio_value (positions1 ++ positions2)
                                      price_data capital d)
    ∧ (∀ self signals positions capital numpy rest positions' capital' trades,
         day_trades self signals price_data positions capital d
         = Ok (positions', capital', trades) →
         (day_loop self signals price_data positions capital numpy (d :: rest)).1
         = Raise ZeroDivisionError
         ∨ ∃ self1 numpy1,
             day_loop self signals price_data positions capital numpy (d :: rest)
             = day_loop self1 signals price_data positions' capital' numpy1 rest
             ∧ ∃ rec, portfolio_history self1 = portfolio_history self ++ [rec]
                 ∧ cash rec = capital'
                 ∧ positions_count rec = length positions'
                 ∧ portfolio_value rec
                   = _calculate_portfolio_value positions' price_data capital' d).
Proof.
  intros price_data d. split; [|split].
  - intros. apply portfolio_value_fold.
  - intros. by apply portfolio_value_skips.
  - intros self signals positions capital numpy rest positions' capital' trades H.
    cbn [day_loop]. rewrite H.
    unfold _record_daily_status.
    destruct (negb _ && Qeq_bool (initial_capital self) 0); [by left|].
    right. eexists _, _. split; [reflexivity|].
    eexists. split; [reflexivity|]. done.
Qed.

Lemma portfolio_value_counts_only_priced_positions_witness :
  _calculate_portfolio_value
    ([] ++ ("A", mkPosition 20000 10 10 Scenario.monday1 "Alpha") :: [])
    Scenario.gap_prices 799940 Scenario.monday2
  = _calculate_portfolio_value ([] ++ []) Scenario.gap_prices 799940
                               Scenario.monday2.
Proof.
  apply (proj1 (proj2 (portfolio_value_counts_only_priced_positions
                         Scenario.gap_prices Scenario.monday2))).
  vm_compute. reflexivity.
Defined.

(** C5, as the specification words it, fails: A is bought on the first Monday
    at 10 and has no bar on the second Monday.  The snapshot of the second
    Monday still counts one open position, but its total value is the cash
    alone: the 20000 shares are not valued at their last close. *)
Lemma position_without_bar_valued_at_nothing :
  ∃ rec,
    last (portfolio_history
            (run_backtest Scenario.no_power Scenario.no_sqrt
               (Scenario.engine false) Scenario.first_monday_only
               Scenario.gap_prices None None).2) = Some rec
    ∧ r_date rec = "2024-01-08"
    ∧ positions_count rec = 1%nat
    ∧ (cash rec == 799940)%Q
    ∧ (portfolio_value rec == 799940)%Q
    ∧ ¬ (portfolio_value rec == cash rec + 10 * 20000)%Q.
Proof.
  eexists. split; [vm_compute; reflexivity|].
  repeat split; try reflexivity. vm_compute. discriminate.
Qed.

(** ** The ledger as a dictionary *)

Lemma filter_all {A} (P : A → Prop) `{∀ x, Decision (P x)} (l : list A) :
  (∀ x, P x) → filter P l = l.
Proof.
  intros HP. induction l as [|x l IH]; [done|].
  rewrite filter_cons_True by done. by rewrite IH.
Qed.

Lemma fold_del_position (codes : list string) : ∀ positions : Positions,
  fold_left del_position codes positions
  = filter (λ e, e.1 ∉ codes) positions.
Proof.
  induction codes as [|c codes IH]; intros positions; cbn [fold_left].
  - symmetry. apply filter_all. intros e. apply not_elem_of_nil.
  - rewrite IH. unfold del_position. rewrite list_filter_filter.
    apply list_filter_iff. intros e. rewrite not_elem_of_cons. tauto.
Qed.

Lemma filter_ext_elem {A} (P R : A → Prop) `{∀ x, Decision (P x)}
    `{∀ x, Decision (R x)} (l : list A) :
  (∀ x, x ∈ l → P x ↔ R x) → filter P l = filter R l.
Proof.
  induction l as [|x l IH]; intros HPR; [done|].
  rewrite !filter_cons.
  assert (P x ↔ R x) as Hx by (apply HPR; left).
  rewrite IH by (intros y Hy; apply HPR; by right).
  destruct (decide (P x)), (decide (R x)); tauto.
Qed.

Lemma unique_key (positions : Positions) (e e' : string * position) :
  NoDup positions.*1 → e ∈ positions → e' ∈ positions → e.1 = e'.1 → e = e'.
Proof.
  induction positions as [|x positions IH]; intros Hnd He He' Hk.
  - by apply elem_of_nil in He.
  - rewrite fmap_cons in Hnd. apply NoDup_cons in Hnd as [Hx Hnd].
    apply elem_of_cons in He as [->|He], He' as [->|He']; [done| | |by apply IH].
    + destruct Hx. rewrite Hk. by apply list_elem_of_fmap_2.
    + destruct Hx. rewrite <- Hk. by apply list_elem_of_fmap_2.
Qed.

(** Deleting the keys of the entries that satisfy [P] keeps the others. *)
Lemma del_selected (P : string * position → bool) (positions : Positions) :
  NoDup positions.*1 →
  fold_left del_position (filter (λ e, P e = true) positions).*1 positions
  = filter (λ e, P e = false) positions.
Proof.
  intros Hnd. rewrite fold_del_position. apply filter_ext_elem.
  intros e He. rewrite list_elem_of_fmap. split.
  - intros Hnot. destruct (P e) eqn:HP; [|done].
    destruct Hnot. exists e. by rewrite list_elem_of_filter.
  - intros HP (e' & Hk & He'). apply list_elem_of_filter in He' as [HP' He'].
    assert (e = e') by (by apply (unique_key positions)). subst. congruence.
Qed.

(** ** Sales *)

Lemma sell_position_fields self d date_str c pos p why net t :
  sell_position self d date_str c pos p why = (net, t) →
  net = (amount t - commission t)%Q
  ∧ t_date t = date_str ∧ t_code t = c ∧ action t = SELL ∧ reason t = why
  ∧ price t = p ∧ t_shares t = shares pos
  ∧ amount t = (p * inject_Z (shares pos))%Q
  ∧ commission t = (amount t * commission_rate self)%Q
  ∧ pnl t = ((amount t - commission t)
             - (avg_price pos * inject_Z (shares pos)
                + avg_price pos * inject_Z (shares pos) * commission_rate self))%Q.
Proof.
  unfold sell_position. intros H. inversion H; subst; clear H.
  cbn [amount commission t_date t_code action reason price t_shares pnl].
  repeat split.
Qed.

(** The cash after a run of sales. *)
Lemma fold_sales (sales : list (Q * trade)) : ∀ capital,
  Forall (λ x, x.1 = (amount x.2 - commission x.2)%Q ∧ action x.2 = SELL) sales →
  (fold_left (λ c (x : Q * trade), c + x.1) sales capital
   == capital + sum_Q (map settle sales.*2))%Q.
Proof.
  induction sales as [|[net t] sales IH]; intros capital Hs.
  - cbn [fold_left fmap list_fmap map sum_Q fold_right]. ring.
  - apply Forall_cons in Hs as [[Hnet Hsell] Hs]. cbn [fst snd] in Hnet, Hsell.
    cbn [fold_left fmap list_fmap map fst snd]. rewrite IH by done.
    rewrite sum_Q_cons. unfold settle at 2. rewrite Hsell, Hnet. ring.
Qed.

Lemma stop_loss_exit_triggered self price_data d date_str e :
  is_Some (stop_loss_exit self price_data d date_str e)
  ↔ triggered self price_data d e = true.
Proof.
  unfold stop_loss_exit, triggered.
  destruct (close_on price_data e.1 d) as [p|]; [|by split; [intros []|]].
  destruct (np_ge _ _); split; try done; by intros [].
Qed.

Lemma stop_loss_step_exit self price_data d date_str capital trades codes e :
  stop_loss_step self price_data d date_str (capital, trades, codes) e
  = match stop_loss_exit self price_data d date_str e with
    | Some (net, t) => ((capital + net)%Q, trades ++ [t], codes ++ [e.1])
    | None => (capital, trades, codes)
    end.
Proof.
  unfold stop_loss_step, stop_loss_exit. destruct e as [c pos]. cbn [fst snd].
  destruct (close_on price_data c d) as [p|]; [|done].
  destruct (np_ge (drawdown_of pos p) (stop_loss_pct self)); [|done].
  by destruct (sell_position _ _ _ _ _ _ _).
Qed.

Lemma stop_loss_fold self price_data d date_str positions :
  ∀ capital trades codes,
    fold_left (stop_loss_step self price_data d date_str) positions
              (capital, trades, codes)
    = (fold_left (λ c (x : Q * trade), c + x.1)%Q
                 (omap (stop_loss_exit self price_data d date_str) positions)
                 capital,
       trades ++ (omap (stop_loss_exit self price_data d date_str) positions).*2,
       codes ++ (filter (λ e, triggered self price_data d e = true) positions).*1).
Proof.
  induction positions as [|e positions IH]; intros capital trades codes.
  - cbn [fold_left omap list_omap fmap list_fmap].
    by rewrite filter_nil, !app_nil_r.
  - cbn [fold_left omap list_omap]. rewrite filter_cons, stop_loss_step_exit.
    destruct (stop_loss_exit self price_data d date_str e) as [[net t]|] eqn:Hex.
    + rewrite decide_True
        by (apply (stop_loss_exit_triggered self price_data d date_str);
            rewrite Hex; eauto).
      rewrite IH. cbn [fold_left fmap list_fmap fst snd].
      by rewrite <- !app_assoc.
    + rewrite decide_False; [by rewrite IH|].
      rewrite <- (stop_loss_exit_triggered self price_data d date_str), Hex.
      by intros [? ?].
Qed.

Lemma stop_loss_exit_Some self price_data d date_str e x :
  stop_loss_exit self price_data d date_str e = Some x →
  ∃ p, close_on price_data e.1 d = Some p
       ∧ np_ge (drawdown_of e.2 p) (stop_loss_pct self) = true
       ∧ sell_position self d date_str e.1 e.2 p (StopLoss (drawdown_of e.2 p))
         = x.
Proof.
  unfold stop_loss_exit. destruct (close_on price_data e.1 d) as [p|]; [|done].
  destruct (np_ge (drawdown_of e.2 p) (stop_loss_pct self)) eqn:Hge; [|done].
  intros [= <-]. by exists p.
Qed.

Lemma stop_loss_exits_spec self price_data d date_str positions :
  Forall2 (λ e (x : Q * trade), ∃ p,
             close_on price_data e.1 d = Some p
             ∧ np_ge (drawdown_of e.2 p) (stop_loss_pct self) = true
             ∧ sell_position self d date_str e.1 e.2 p
                             (StopLoss (drawdown_of e.2 p)) = x)
          (filter (λ e, triggered self price_data d e = true) positions)
          (omap (stop_loss_exit self price_data d date_str) positions).
Proof.
  induction positions as [|e positions IH]; [constructor|].
  cbn [omap list_omap]. rewrite filter_cons.
  destruct (stop_loss_exit self price_data d date_str e) as [x|] eqn:Hex.
  - rewrite decide_True
      by (apply (stop_loss_exit_triggered self price_data d date_str);
          rewrite Hex; eauto).
    constructor; [|done]. by apply stop_loss_exit_Some.
  - rewrite decide_False; [done|].
    rewrite <- (stop_loss_exit_triggered self price_data d date_str), Hex.
    by intros [? ?].
Qed.

Lemma stop_loss_exits_sell self price_data d date_str positions :
  Forall (λ x : Q * trade,
            x.1 = (amount x.2 - commission x.2)%Q ∧ action x.2 = SELL)
         (omap (stop_loss_exit self price_data d date_str) positions).
Proof.
  apply Forall_forall. intros [net t] Hin.
  apply list_elem_of_omap in Hin as (e & _ & Hex).
  apply stop_loss_exit_Some in Hex as (p & _ & _ & Hsell).
  apply sell_position_fields in Hsell. cbn [fst snd]. tauto.
Qed.

Lemma settle_sells (trades : list trade) :
  Forall (λ t, action t = SELL) trades →
  map settle trades = map (λ t, amount t - commission t)%Q trades.
Proof.
  induction 1 as [|t trades Ht _ IH]; [done|].
  cbn [map]. rewrite IH. unfold settle at 1. by rewrite Ht.
Qed.

Lemma np_ge_div_finite (a b threshold : Q) :
  ¬ (b == 0)%Q → np_ge (np_div a b) threshold = true → (threshold <= a / b)%Q.
Proof.
  intros Hb. unfold np_div.
  destruct (Qeq_bool b 0) eqn:E; [by apply Qeq_bool_iff in E|].
  cbn [np_ge]. apply Qle_bool_iff.
Qed.

(** The condition the code tests is the condition of the specification. *)
Lemma triggered_stop_loss_due self price_data d e :
  triggered self price_data d e = stop_loss_due self price_data d e.
Proof.
  unfold triggered, stop_loss_due, drawdown_of, np_div.
  destruct (close_on price_data e.1 d) as [p|]; [|done].
  destruct (Qeq_bool (max_price e.2) 0); [|done].
  destruct (Qlt_bool 0 (max_price e.2 - p)); [done|].
  by destruct (Qlt_bool (max_price e.2 - p) 0).
Qed.

Lemma filter_stop_loss_due self price_data d (b : bool)
    (positions : Positions) :
  filter (λ e, triggered self price_data d e = b) positions
  = filter (λ e, stop_loss_due self price_data d e = b) positions.
Proof.
  apply filter_ext_elem. intros e _. by rewrite triggered_stop_loss_due.
Qed.

(** The condition spelled out for a position with a bar. *)
Lemma stop_loss_due_Some self price_data d e p :
  close_on price_data e.1 d = Some p →
  (¬ (max_price e.2 == 0)%Q →
   (stop_loss_due self price_data d e = true
    ↔ (stop_loss_pct self <= (max_price e.2 - p) / max_price e.2)%Q)
   ∧ drawdown_of e.2 p = Fin ((max_price e.2 - p) / max_price e.2))
  ∧ ((max_price e.2 == 0)%Q →
     (stop_loss_due self price_data d e = true ↔ (p < 0)%Q)
     ∧ (stop_loss_due self price_data d e = true → drawdown_of e.2 p = PInf)).
Proof.
  intros Hp. unfold stop_loss_due, drawdown_of, np_div. rewrite Hp. split.
  - intros Hmax.
    assert (Qeq_bool (max_price e.2) 0 = false) as ->
      by (apply not_true_iff_false; by intros ?%Qeq_bool_iff).
    split; [apply Qle_bool_iff|done].
  - intros Hmax. rewrite (proj2 (Qeq_bool_iff _ _) Hmax). split.
    + rewrite Qlt_bool_iff. split; intros; lra.
    + by intros ->.
Qed.

(** C4.  [_check_stop_loss] sells exactly the open positions that have a
    price bar on the date and whose drawdown from the highest price,
    [(max_price - close) / max_price], is at least the stop-loss threshold:
    such a position leaves the ledger, and a position with a bar and a
    smaller drawdown, or without a bar, stays.  Each position sold is sold
    whole at the close: the gross amount is price times shares, the
    commission is the gross amount times the commission rate, the cash grows
    by the gross amount less the commission, the profit is measured against
    the cost [avg_price * shares] increased by a commission at the same rate,
    and a SELL trade is recorded with the drawdown in its reason.  Hence
    every stop-loss trade has a drawdown of at least the threshold.  (For a
    highest price of zero the drawdown is no number: the position is sold,
    with an infinite drawdown, exactly when the close is negative.) *)
Theorem check_stop_loss_sells_exactly_triggered :
  ∀ (self : BacktestEngine) (positions : Positions) (price_data : PriceData)
    (capital : Q) (d : date) (date_str : string)
    (positions' : Positions) (capital' : Q) (trades : list trade),
    NoDup positions.*1 →
    _check_stop_loss self positions price_data capital d date_str
    = (positions', capital', trades) →
    positions' = filter (λ e, stop_loss_due self price_data d e = false) positions
    ∧ (∀ e, e ∈ positions →
         match close_on price_data e.1 d with
         | Some p =>
             (¬ (max_price e.2 == 0)%Q →
              (e ∈ positions'
               ↔ ((max_price e.2 - p) / max_price e.2 < stop_loss_pct self)%Q))
             ∧ ((max_price e.2 == 0)%Q → (e ∈ positions' ↔ (0 <= p)%Q))
         | None => e ∈ positions'
         end)
    ∧ Forall2
        (λ (e : string * position) (t : trade), ∃ p,
           close_on price_data e.1 d = Some p
           ∧ (¬ (max_price e.2 == 0)%Q →
              (stop_loss_pct self <= (max_price e.2 - p) / max_price e.2)%Q
              ∧ reason t
                = StopLoss (Fin ((max_price e.2 - p) / max_price e.2)))
           ∧ ((max_price e.2 == 0)%Q →
              (p < 0)%Q ∧ reason t = StopLoss PInf)
           ∧ t_date t = date_str ∧ t_code t = e.1 ∧ action t = SELL
           ∧ price t = p ∧ t_shares t = shares e.2
           ∧ amount t = (p * inject_Z (shares e.2))%Q
           ∧ commission t = (amount t * commission_rate self)%Q
           ∧ pnl t = ((amount t - commission t)
                      - (avg_price e.2 * inject_Z (shares e.2)
                         + avg_price e.2 * inject_Z (shares e.2)
                           * commission_rate self))%Q)
        (filter (λ e, stop_loss_due self price_data d e = true) positions) trades
    ∧ (capital' == capital + sum_Q (map (λ t, amount t - commission t)%Q trades))%Q.
Proof.
  intros self positions price_data capital d date_str positions' capital' trades
         Hnd H.
  unfold _check_stop_loss in H. rewrite stop_loss_fold in H.
  inversion H; subst; clear H. cbn [app].
  rewrite (del_selected (triggered self price_data d)) by done.
  rewrite (filter_stop_loss_due self price_data d false positions).
  split; [done|]. split; [|split].
  - intros e He.
    destruct (close_on price_data e.1 d) as [p|] eqn:Hp;
      rewrite ?list_elem_of_filter.
    + destruct (stop_loss_due_Some self price_data d e p Hp) as [Hfin Hzero].
      split; intros Hmax.
      * destruct (Hfin Hmax) as [Hiff _].
        destruct (stop_loss_due self price_data d e).
        -- pose proof (proj1 Hiff eq_refl).
           split; [by intros [? _]|]. intros Hlt. lra.
        -- split; [|done]. intros _. apply Qnot_le_lt. intros Hle.
           by pose proof (proj2 Hiff Hle).
      * destruct (Hzero Hmax) as [Hiff _].
        destruct (stop_loss_due self price_data d e).
        -- pose proof (proj1 Hiff eq_refl).
           split; [by intros [? _]|]. intros Hle. lra.
        -- split; [|done]. intros _. apply Qnot_lt_le. intros Hlt.
           by pose proof (proj2 Hiff Hlt).
    + split; [|done]. unfold stop_loss_due. by rewrite Hp.
  - apply Forall2_fmap_r.
    rewrite <- (filter_stop_loss_due self price_data d true).
    eapply Forall2_impl; [apply stop_loss_exits_spec|].
    intros e [net t] (p & Hp & Hge & Hsell). cbn [snd].
    apply sell_position_fields in Hsell.
    destruct Hsell as (_ & ? & ? & ? & Hreason & ? & ? & ? & ? & ?).
    destruct (stop_loss_due_Some self price_data d e p Hp) as [Hfin Hzero].
    assert (stop_loss_due self price_data d e = true) as Hdue.
    { rewrite <- triggered_stop_loss_due. unfold triggered. by rewrite Hp. }
    exists p. split; [done|]. split; [|split].
    + intros Hmax. destruct (Hfin Hmax) as [Hiff Hdd].
      split; [by apply Hiff|]. cbn [snd]. by rewrite Hreason, Hdd.
    + intros Hmax. destruct (Hzero Hmax) as [Hiff Hdd].
      split; [by apply Hiff|]. cbn [snd]. by rewrite Hreason, (Hdd Hdue).
    + done.
  - rewrite fold_sales by apply stop_loss_exits_sell.
    rewrite settle_sells; [reflexivity|].
    apply Forall_fmap. eapply Forall_impl; [apply stop_loss_exits_sell|].
    intros x [_ ?]. done.
Qed.

Lemma check_stop_loss_sells_exactly_triggered_witness :
  ∃ positions' capital' trades,
    positions' = filter (λ e, stop_loss_due (Scenario.engine false)
                                Scenario.both_priced Scenario.monday2 e = false)
                   [("A", mkPosition 20000 10.5 10.5 Scenario.monday1 "Alpha");
                    ("B", mkPosition 100 9 10 Scenario.monday1 "Beta")]
    ∧ length trades = 1%nat
    ∧ (capital' == 1000 + sum_Q (map (λ t, amount t - commission t)%Q trades))%Q.
Proof.
  eexists _, _, _.
  pose proof (check_stop_loss_sells_exactly_triggered
                (Scenario.engine false)
                [("A", mkPosition 20000 10.5 10.5 Scenario.monday1 "Alpha");
                 ("B", mkPosition 100 9 10 Scenario.monday1 "Beta")]
                Scenario.both_priced 1000 Scenario.monday2 "2024-01-08"
                _ _ _ ltac:(apply (bool_decide_unpack _); vm_compute; exact I)
                eq_refl) as (H1 & _ & H2 & H3).
  split; [exact H1|]. split; [|exact H3].
  apply Forall2_length in H2. rewrite <- H2. vm_compute. reflexivity.
Defined.

(** ** New entries *)

Lemma foldM_app {A S} (body : S → A → result S) (l1 l2 : list A) : ∀ st,
  foldM body st (l1 ++ l2) = (st' ← foldM body st l1; foldM body st' l2).
Proof.
  induction l1 as [|x l1 IH]; intros st; [done|].
  cbn [app foldM]. destruct (body st x) as [st1|e]; [|done].
  cbn [mbind result_bind]. apply IH.
Qed.

Lemma int_floordiv_nonzero (a b : Q) :
  ¬ (b == 0)%Q → int_floordiv a b = Ok (Qfloor (a / b)).
Proof.
  intros Hb. unfold int_floordiv.
  destruct (Qeq_bool b 0) eqn:E; [by apply Qeq_bool_iff in E|done].
Qed.

Lemma buy_step_skip self price_data d date_str n positions capital trades sig :
  held positions (code sig) = true ∨ close_on price_data (code sig) d = None →
  buy_step self price_data d date_str n (positions, capital, trades) sig
  = Ok (positions, capital, trades).
Proof.
  intros [H|H]; unfold buy_step; rewrite H; [done|].
  by destruct (held positions (code sig)).
Qed.

(** The entry for a signal whose instrument is not held and has a non-zero
    close on the date. *)
Lemma buy_step_priced self price_data d date_str n positions capital trades sig
    buy_price :
  (0 < n)%nat →
  held positions (code sig) = false →
  close_on price_data (code sig) d = Some buy_price →
  ¬ (buy_price == 0)%Q →
  let allocation := (capital / inject_Z (Z.of_nat n))%Q in
  let buy_value := py_min allocation (capital * 0.2)%Q in
  let shares := Qfloor (buy_value / (buy_price * 100)) * 100 in
  let cost := (buy_price * inject_Z shares)%Q in
  let total_cost := (cost + cost * commission_rate self)%Q in
  (shares ≤ 0 ∨ (capital < total_cost)%Q →
   buy_step self price_data d date_str n (positions, capital, trades) sig
   = Ok (positions, capital, trades))
  ∧ (0 < shares → (total_cost <= capital)%Q →
     buy_step self price_data d date_str n (positions, capital, trades) sig
     = Ok (positions ++
             [(code sig,
               {| shares := shares; avg_price := buy_price;
                  max_price := buy_price; buy_date := d;
                  pos_name := default default_name (name sig) |})],
           (capital - total_cost)%Q,
           trades ++
             [{| t_date := date_str; t_code := code sig;
                 t_name := Some (default default_name (name sig));
                 action := BUY; reason := SelectionSignal;
                 price := buy_price; t_shares := shares; amount := cost;
                 commission := (cost * commission_rate self)%Q;
                 pnl := 0; pnl_pct := 0; holding_days := 0 |}])).
Proof.
  intros Hn Hheld Hclose Hp allocation buy_value shares cost total_cost.
  assert (¬ (buy_price * 100 == 0)%Q) as Hp100.
  { intros H0. apply Hp. lra. }
  assert ((0 <? n)%nat = true) as Hn' by (by apply Nat.ltb_lt).
  unfold buy_step. rewrite Hheld, Hclose, Hn'.
  rewrite int_floordiv_nonzero by done. cbn [mbind result_bind].
  fold allocation. fold buy_value. fold shares. fold cost. fold total_cost.
  split.
  - intros [Hs|Hc].
    + by rewrite (proj2 (Z.leb_le _ _) Hs).
    + destruct (shares <=? 0); [done|].
      by rewrite (proj2 (Qlt_bool_iff _ _) Hc).
  - intros Hs Hc.
    rewrite (proj2 (Z.leb_gt _ _) Hs).
    by rewrite (proj2 (Qlt_bool_false _ _) Hc).
Qed.

(** C3, as the code has it.  Within one call of [_execute_buy_signals] every
    signal of the list is handled in turn with the same divisor [n], the
    length of the whole signal list (held instruments and instruments without
    a price bar included).  A signal whose instrument is held or has no bar
    on the date changes nothing.  Otherwise, for a non-zero price, the
    allocation is the current cash divided by [n], capped at 20% of the
    current cash; the share count is the floor of the allocation over price
    times 100, times 100; when the share count is not positive, or the cost
    plus commission exceeds the current cash, cash, ledger and trades are
    unchanged; else the cash is debited, the position opened at the close and
    a BUY trade recorded. *)
Theorem buy_signals_divide_cash_by_signal_count :
  ∀ (self : BacktestEngine) (price_data : PriceData) (d : date)
    (date_str : string),
    (∀ pre sig post positions capital,
       let n := length (pre ++ sig :: post) in
       _execute_buy_signals self (pre ++ sig :: post) positions price_data
                            capital d date_str
       = (st1 ← foldM (buy_step self price_data d date_str n)
                      (positions, capital, []) pre;
          st2 ← buy_step self price_data d date_str n st1 sig;
          foldM (buy_step self price_data d date_str n) st2 post))
    ∧ (∀ n positions capital trades sig,
         held positions (code sig) = true
         ∨ close_on price_data (code sig) d = None →
         buy_step self price_data d date_str n (positions, capital, trades) sig
         = Ok (positions, capital, trades))
    ∧ (∀ n positions capital trades sig buy_price,
         (0 < n)%nat →
         held positions (code sig) = false →
         close_on price_data (code sig) d = Some buy_price →
         ¬ (buy_price == 0)%Q →
         let allocation := (capital / inject_Z (Z.of_nat n))%Q in
         let buy_value := py_min allocation (capital * 0.2)%Q in
         let shares := Qfloor (buy_value / (buy_price * 100)) * 100 in
         let cost := (buy_price * inject_Z shares)%Q in
         let total_cost := (cost + cost * commission_rate self)%Q in
         (shares ≤ 0 ∨ (capital < total_cost)%Q →
          buy_step self price_data d date_str n (positions, capital, trades) sig
          = Ok (positions, capital, trades))
         ∧ (0 < shares → (total_cost <= capital)%Q →
            buy_step self price_data d date_str n (positions, capital, trades) sig
            = Ok (positions ++
                    [(code sig,
                      {| shares := shares; avg_price := buy_price;
                         max_price := buy_price; buy_date := d;
                         pos_name := default default_name (name sig) |})],
                  (capital - total_cost)%Q,
                  trades ++
                    [{| t_date := date_str; t_code := code sig;
                        t_name := Some (default default_name (name sig));
                        action := BUY; reason := SelectionSignal;
                        price := buy_price; t_shares := shares; amount := cost;
                        commission := (cost * commission_rate self)%Q;
                        pnl := 0; pnl_pct := 0; holding_days := 0 |}]))).
Proof.
  intros self price_data d date_str. split; [|split].
  - intros pre sig post positions capital n. unfold _execute_buy_signals.
    fold n. rewrite foldM_app.
    destruct (foldM _ _ pre) as [st1|e]; [|done]. done.
  - intros. by apply buy_step_skip.
  - intros. by apply buy_step_priced.
Qed.

Lemma buy_signals_divide_cash_by_signal_count_witness :
  ∃ st,
    buy_step (Scenario.engine false) Scenario.both_priced Scenario.monday2
             "2024-01-08" 6 (Scenario.held_five, 1000000%Q, [])
             (mkSignal "B" None)
    = Ok st.
Proof.
  eexists.
  refine (proj2 (proj2 (proj2 (buy_signals_divide_cash_by_signal_count
                                 (Scenario.engine false) Scenario.both_priced
                                 Scenario.monday2 "2024-01-08"))
                   6%nat Scenario.held_five 1000000%Q [] (mkSignal "B" None)
                   10%Q _ _ _ _) _ _).
  - lia.
  - vm_compute. reflexivity.
  - vm_compute. reflexivity.
  - vm_compute. discriminate.
  - vm_compute. reflexivity.
  - vm_compute. discriminate.
Defined.

(** C3, as the specification words it, fails: of six signals five are held,
    so one candidate remains and the specification gives it 20% of the cash,
    20000 shares at a close of 10; the code divides the cash by six and buys
    16600 shares. *)
Lemma buy_signals_divisor_counts_held_signals :
  ∃ positions capital t,
    _execute_buy_signals (Scenario.engine false) Scenario.six_signals
                         Scenario.held_five Scenario.both_priced 1000000
                         Scenario.monday2 "2024-01-08"
    = Ok (positions, capital, [t])
    ∧ t_code t = "B"
    ∧ t_shares t = 16600
    ∧ spec_entry_shares 1000000 1 10 = 20000.
Proof.
  eexists _, _, _. split; [vm_compute; reflexivity|]. by vm_compute.
Qed.

(** What one iteration of the buying loop can do: nothing, or one entry. *)
Lemma buy_step_inv self price_data d date_str n positions capital trades sig
    positions' capital' trades' :
  buy_step self price_data d date_str n (positions, capital, trades) sig
  = Ok (positions', capital', trades') →
  (positions' = positions ∧ capital' = capital ∧ trades' = trades)
  ∨ ∃ p pos t,
      close_on price_data (code sig) d = Some p
      ∧ held positions (code sig) = false
      ∧ 0 < shares pos
      ∧ (amount t + commission t <= capital)%Q
      ∧ positions' = positions ++ [(code sig, pos)]
      ∧ capital' = (capital - (amount t + commission t))%Q
      ∧ trades' = trades ++ [t]
      ∧ action t = BUY ∧ t_code t = code sig.
Proof.
  unfold buy_step.
  destruct (held positions (code sig)) eqn:Hheld; [intros [= <- <- <-]; by left|].
  destruct (close_on price_data (code sig) d) as [p|] eqn:Hclose;
    [|intros [= <- <- <-]; by left].
  destruct (int_floordiv _ _) as [lots|e]; [|done]. cbn [mbind result_bind].
  destruct (lots * 100 <=? 0) eqn:Hs; [intros [= <- <- <-]; by left|].
  destruct (Qlt_bool capital _) eqn:Hc; [intros [= <- <- <-]; by left|].
  intros [= <- <- <-]. right.
  exists p, (mkPosition (lots * 100) p p d (default default_name (name sig))),
    (mkTrade date_str (code sig) (Some (default default_name (name sig))) BUY
             SelectionSignal p (lots * 100) (p * inject_Z (lots * 100))%Q
             (p * inject_Z (lots * 100) * commission_rate self)%Q 0%Q 0%Q 0).
  cbn [shares amount commission action t_code].
  repeat apply conj; try reflexivity.
  - by apply Z.leb_gt.
  - by apply Qlt_bool_false.
Qed.

Lemma sum_Q_app (l1 l2 : list Q) : (sum_Q (l1 ++ l2) == sum_Q l1 + sum_Q l2)%Q.
Proof.
  induction l1 as [|x l1 IH]; cbn [app].
  - unfold sum_Q at 2. cbn [fold_right]. ring.
  - rewrite !sum_Q_cons, IH. ring.
Qed.

Lemma held_false (positions : Positions) (c : string) :
  held positions c = false → c ∉ positions.*1.
Proof. unfold held. apply bool_decide_eq_false. Qed.

(** What a whole buying loop does: it appends entries to the ledger and BUY
    trades to the trades of the day, each for an instrument that has a price
    bar on the date, and takes what the trades settle out of the cash, which
    stays non-negative. *)
Lemma buy_loop_inv self price_data d date_str n buy_signals :
  ∀ positions capital trades positions' capital' trades',
    foldM (buy_step self price_data d date_str n) (positions, capital, trades)
          buy_signals
    = Ok (positions', capital', trades') →
    ∃ new_positions new_trades,
      positions' = positions ++ new_positions
      ∧ trades' = trades ++ new_trades
      ∧ (capital' == capital + sum_Q (map settle new_trades))%Q
      ∧ ((0 <= capital)%Q → (0 <= capital')%Q)
      ∧ Forall (λ e : string * position,
                  0 < shares e.2 ∧ is_Some (close_on price_data e.1 d))
               new_positions
      ∧ Forall (λ t, action t = BUY ∧ is_Some (close_on price_data (t_code t) d))
               new_trades
      ∧ (NoDup positions.*1 → NoDup positions'.*1).
Proof.
  induction buy_signals as [|sig buy_signals IH];
    intros positions capital trades positions' capital' trades' H.
  - cbn [foldM] in H. inversion H; subst. exists [], [].
    rewrite !app_nil_r. repeat apply conj; try done.
    unfold sum_Q. cbn [map fold_right]. ring.
  - cbn [foldM] in H. apply bind_Ok in H as ([[positions1 capital1] trades1] & H1 & H).
    apply IH in H as (new_positions & new_trades & -> & -> & Hc & H0 & Hp & Ht & Hnd).
    apply buy_step_inv in H1
      as [(-> & -> & ->)
         |(p & pos & t & Hclose & Hheld & Hs & Hle & -> & -> & -> & Hbuy & Hcode)].
    + exists new_positions, new_trades. by repeat apply conj.
    + exists ((code sig, pos) :: new_positions), (t :: new_trades).
      rewrite <- !app_assoc. repeat apply conj; try done.
      * rewrite Hc. cbn [map]. rewrite sum_Q_cons. unfold settle at 2.
        rewrite Hbuy. ring.
      * intros Hcap. apply H0. lra.
      * constructor; [|done]. cbn [fst snd]. by rewrite Hclose.
      * constructor; [|done]. by rewrite Hcode, Hclose.
      * intros Hnd0. rewrite app_assoc. apply Hnd. rewrite fmap_app.
        apply NoDup_app.
        split; [done|]. split; [|apply NoDup_singleton].
        intros c Hin Hc'. cbn in Hc'. apply list_elem_of_singleton in Hc'.
        subst. by apply held_false in Hheld.
Qed.

(** ** The weekly rebalance *)

Lemma rebalance_step_exit self price_data d date_str capital trades e :
  rebalance_sell_step self price_data d date_str (capital, trades) e
  = match rebalance_exit self price_data d date_str e with
    | Some (net, t) => ((capital + net)%Q, trades ++ [t])
    | None => (capital, trades)
    end.
Proof.
  unfold rebalance_sell_step, rebalance_exit. destruct e as [c pos].
  cbn [fst snd]. destruct (close_on price_data c d) as [p|]; [|done].
  by destruct (sell_position _ _ _ _ _ _ _).
Qed.

Lemma rebalance_fold self price_data d date_str positions :
  ∀ capital trades,
    fold_left (rebalance_sell_step self price_data d date_str) positions
              (capital, trades)
    = (fold_left (λ c (x : Q * trade), c + x.1)%Q
                 (omap (rebalance_exit self price_data d date_str) positions)
                 capital,
       trades ++ (omap (rebalance_exit self price_data d date_str) positions).*2).
Proof.
  induction positions as [|e positions IH]; intros capital trades.
  - cbn [fold_left omap list_omap fmap list_fmap]. by rewrite app_nil_r.
  - cbn [fold_left omap list_omap]. rewrite rebalance_step_exit.
    destruct (rebalance_exit self price_data d date_str e) as [[net t]|].
    + rewrite IH. cbn [fold_left fmap list_fmap fst snd].
      by rewrite <- app_assoc.
    + by rewrite IH.
Qed.

Lemma rebalance_exit_Some self price_data d date_str e x :
  rebalance_exit self price_data d date_str e = Some x →
  ∃ p, close_on price_data e.1 d = Some p
       ∧ sell_position self d date_str e.1 e.2 p WeeklyRebalance = x.
Proof.
  unfold rebalance_exit. destruct (close_on price_data e.1 d) as [p|]; [|done].
  intros [= <-]. by exists p.
Qed.

Lemma rebalance_exits_sell self price_data d date_str positions :
  Forall (λ x : Q * trade,
            x.1 = (amount x.2 - commission x.2)%Q ∧ action x.2 = SELL)
         (omap (rebalance_exit self price_data d date_str) positions).
Proof.
  apply Forall_forall. intros [net t] Hin.
  apply list_elem_of_omap in Hin as (e & _ & Hex).
  apply rebalance_exit_Some in Hex as (p & _ & Hsell).
  apply sell_position_fields in Hsell. cbn [fst snd]. tauto.
Qed.

(** The sales of a rebalance are sales of positions that have a price bar. *)
Lemma rebalance_exits_priced self price_data d date_str positions :
  Forall (λ x : Q * trade, is_Some (close_on price_data (t_code x.2) d))
         (omap (rebalance_exit self price_data d date_str) positions).
Proof.
  apply Forall_forall. intros [net t] Hin.
  apply list_elem_of_omap in Hin as (e & _ & Hex).
  apply rebalance_exit_Some in Hex as (p & Hp & Hsell).
  apply sell_position_fields in Hsell as (_ & _ & Hcode & _).
  cbn [snd]. rewrite Hcode, Hp. eauto.
Qed.

(** What a rebalance does to a ledger that is not empty: it sells the
    positions that have a price bar, forgets the whole ledger, and enters the
    signals of the day afresh. *)
Lemma weekly_rebalance_inv self positions price_data capital d date_str
    today_signals positions' capital' trades' :
  positions ≠ [] →
  _execute_weekly_rebalance self positions price_data capital d date_str
                            today_signals
  = Ok (positions', capital', trades') →
  let sales := omap (rebalance_exit self price_data d date_str) positions in
  ∃ new_trades,
    trades' = sales.*2 ++ new_trades
    ∧ (capital' == capital + sum_Q (map settle trades'))%Q
    ∧ ((0 <= fold_left (λ c (x : Q * trade), c + x.1) sales capital)%Q →
       (0 <= capital')%Q)
    ∧ Forall (λ e : string * position,
                0 < shares e.2 ∧ is_Some (close_on price_data e.1 d))
             positions'
    ∧ Forall (λ t, action t = BUY ∧ is_Some (close_on price_data (t_code t) d))
             new_trades
    ∧ NoDup positions'.*1.
Proof.
  intros Hne H sales. unfold _execute_weekly_rebalance in H.
  destruct positions as [|e positions]; [done|].
  rewrite rebalance_fold in H. cbn [app] in H. fold sales in H.
  assert (fold_left (λ c (x : Q * trade), c + x.1) sales capital
          == capital + sum_Q (map settle sales.*2))%Q as Hsales
    by (apply fold_sales, rebalance_exits_sell).
  destruct today_signals as [|sig today_signals].
  - inversion H; subst. exists []. rewrite app_nil_r.
    repeat apply conj; try done. constructor.
  - apply bind_Ok in H as ([[ps c] ts] & H & Hr). inversion Hr; subst.
    apply buy_loop_inv in H
      as (new_positions & new_trades & -> & -> & Hc & H0 & Hp & Ht & Hnd).
    exists new_trades. cbn [app]. repeat apply conj; try done.
    + rewrite Hc, Hsales, map_app, sum_Q_app. ring.
    + apply Hnd. constructor.
Qed.

(** C1, where the code departs from it.  On a rebalance date a position whose
    instrument has no price bar is not kept: [_execute_weekly_rebalance]
    returns a ledger without it and records no trade for it, so that the cash
    receives nothing for the shares that leave the books (the cash moves only
    by what the recorded trades settle). *)
Theorem weekly_rebalance_drops_unpriced_position :
  ∀ (self : BacktestEngine) (positions : Positions) (price_data : PriceData)
    (capital : Q) (d : date) (date_str : string) (today_signals : list signal)
    (c : string) (pos : position)
    (positions' : Positions) (capital' : Q) (trades' : list trade),
    (c, pos) ∈ positions →
    close_on price_data c d = None →
    _execute_weekly_rebalance self positions price_data capital d date_str
                              today_signals
    = Ok (positions', capital', trades') →
    (c ∉ positions'.*1)
    ∧ Forall (λ t, t_code t ≠ c) trades'
    ∧ (capital' == capital + sum_Q (map settle trades'))%Q.
Proof.
  intros self positions price_data capital d date_str today_signals c pos
         positions' capital' trades' Hin Hnone H.
  apply weekly_rebalance_inv in H
    as (new_trades & -> & Hc & _ & Hp & Ht & _);
    [|intros ->; by apply elem_of_nil in Hin].
  split; [|split; [|done]].
  - intros Hc'. apply list_elem_of_fmap in Hc' as ([c' pos'] & -> & Hin').
    rewrite Forall_forall in Hp. apply Hp in Hin' as [_ Hsome].
    cbn [fst] in *. rewrite Hnone in Hsome. by destruct Hsome.
  - apply Forall_app. split.
    + apply Forall_fmap.
      eapply Forall_impl; [apply rebalance_exits_priced|].
      intros [net t] Hsome Heq. cbn [snd] in *. cbn in Heq.
      rewrite Heq, Hnone in Hsome. by destruct Hsome.
    + eapply Forall_impl; [apply Ht|]. intros t [_ Hsome] Heq.
      rewrite Heq, Hnone in Hsome. by destruct Hsome.
Qed.

Lemma weekly_rebalance_drops_unpriced_position_witness :
  ("A" ∉ ([] : Positions).*1)
  ∧ Forall (λ t, t_code t ≠ "A") []
  ∧ (800820.3 == 800820.3 + sum_Q (map settle []))%Q.
Proof.
  apply (weekly_rebalance_drops_unpriced_position
           (Scenario.engine true)
           [("A", mkPosition 19900 10 10 Scenario.monday1 "Alpha")]
           Scenario.gap_prices 800820.3 Scenario.monday2 "2024-01-08" []
           "A" (mkPosition 19900 10 10 Scenario.monday1 "Alpha")).
  - apply list_elem_of_singleton. reflexivity.
  - vm_compute. reflexivity.
  - vm_compute. reflexivity.
Defined.

(** The same on a whole run: A is bought on the first Monday (and rebalanced
    at once); on the second Monday A has no bar, the ledger is emptied, no
    trade is dated that day, and the total value falls from 999820.3 to the
    cash, 800820.3. *)
Lemma run_rebalance_without_bar_loses_position :
  let self' := (run_backtest Scenario.no_power Scenario.no_sqrt
                  (Scenario.engine true) Scenario.first_monday_only
                  Scenario.gap_prices None None).2 in
  map (λ t, (t_date t, t_code t, action t, t_shares t)) (trade_history self')
  = [("2024-01-01", "A", BUY, 20000); ("2024-01-01", "A", SELL, 20000);
     ("2024-01-01", "A", BUY, 19900)]
  ∧ map (λ r, (r_date r, positions_count r, Qred (cash r),
               Qred (portfolio_value r))) (portfolio_history self')
    = [("2024-01-01", 1%nat, 800820.3%Q, 999820.3%Q);
       ("2024-01-08", 0%nat, 800820.3%Q, 800820.3%Q)].
Proof. split; vm_compute; reflexivity. Qed.

(** ** The cash account *)

Lemma sale_net_nonneg self d date_str c pos p why net t :
  sell_position self d date_str c pos p why = (net, t) →
  (commission_rate self <= 1)%Q → (0 <= p)%Q → 0 ≤ shares pos →
  (0 <= net)%Q.
Proof.
  unfold sell_position. intros [= <- _] Hrate Hp Hs.
  assert (0 <= inject_Z (shares pos))%Q as Hs'.
  { change 0%Q with (inject_Z 0). by rewrite <- Zle_Qle. }
  assert (0 <= p * inject_Z (shares pos))%Q as Hg
    by (by apply Qmult_le_0_compat).
  assert (0 <= p * inject_Z (shares pos) * (1 - commission_rate self))%Q as Hn
    by (apply Qmult_le_0_compat; [done | lra]).
  lra.
Qed.

Lemma fold_nets_nonneg (sales : list (Q * trade)) : ∀ capital,
  Forall (λ x : Q * trade, (0 <= x.1)%Q) sales → (0 <= capital)%Q →
  (0 <= fold_left (λ c (x : Q * trade), c + x.1) sales capital)%Q.
Proof.
  induction sales as [|x sales IH]; intros capital Hs Hc; [done|].
  apply Forall_cons in Hs as [Hx Hs]. cbn [fold_left]. apply IH; [done|]. lra.
Qed.

Lemma stop_loss_nets_nonneg self price_data d date_str positions :
  (commission_rate self <= 1)%Q → prices_nonneg price_data →
  shares_nonneg positions →
  Forall (λ x : Q * trade, (0 <= x.1)%Q)
         (omap (stop_loss_exit self price_data d date_str) positions).
Proof.
  intros Hrate Hprices Hshares. apply Forall_forall. intros [net t] Hin.
  apply list_elem_of_omap in Hin as (e & He & Hex).
  apply stop_loss_exit_Some in Hex as (p & Hp & _ & Hsell).
  unfold shares_nonneg in Hshares. rewrite Forall_forall in Hshares.
  eapply sale_net_nonneg; eauto.
Qed.

Lemma rebalance_nets_nonneg self price_data d date_str positions :
  (commission_rate self <= 1)%Q → prices_nonneg price_data →
  shares_nonneg positions →
  Forall (λ x : Q * trade, (0 <= x.1)%Q)
         (omap (rebalance_exit self price_data d date_str) positions).
Proof.
  intros Hrate Hprices Hshares. apply Forall_forall. intros [net t] Hin.
  apply list_elem_of_omap in Hin as (e & He & Hex).
  apply rebalance_exit_Some in Hex as (p & Hp & Hsell).
  unfold shares_nonneg in Hshares. rewrite Forall_forall in Hshares.
  eapply sale_net_nonneg; eauto.
Qed.

Lemma update_positions_high_shares positions price_data d :
  shares_nonneg positions →
  shares_nonneg (_update_positions_high positions price_data d).
Proof.
  unfold shares_nonneg, _update_positions_high. intros H.
  apply Forall_fmap. eapply Forall_impl; [exact H|].
  intros [c pos] Hs. cbn [fst snd compose] in *.
  destruct (close_on price_data c d) as [p|]; [|done].
  by destruct (Qlt_bool (max_price pos) p).
Qed.

(** What the stop-loss rule does to the cash and to the ledger. *)
Lemma check_stop_loss_inv self positions price_data capital d date_str
    positions' capital' trades :
  _check_stop_loss self positions price_data capital d date_str
  = (positions', capital', trades) →
  (capital' == capital + sum_Q (map settle trades))%Q
  ∧ (shares_nonneg positions → shares_nonneg positions')
  ∧ ((commission_rate self <= 1)%Q → prices_nonneg price_data →
     shares_nonneg positions → (0 <= capital)%Q → (0 <= capital')%Q).
Proof.
  unfold _check_stop_loss. rewrite stop_loss_fold. intros [= <- <- <-].
  cbn [app]. split; [|split].
  - apply fold_sales, stop_loss_exits_sell.
  - rewrite fold_del_position. unfold shares_nonneg. intros H.
    apply Forall_forall. intros e He. apply list_elem_of_filter in He as [_ He].
    rewrite Forall_forall in H. by apply H.
  - intros. apply fold_nets_nonneg; [|done]. by apply stop_loss_nets_nonneg.
Qed.

Lemma entries_shares_nonneg (price_data : PriceData) (d : date)
    (positions : Positions) :
  Forall (λ e : string * position,
            0 < shares e.2 ∧ is_Some (close_on price_data e.1 d)) positions →
  shares_nonneg positions.
Proof.
  unfold shares_nonneg. intros H. eapply Forall_impl; [exact H|].
  intros e [Hs _]. cbn beta. lia.
Qed.

(** What the entry rule does to the cash and to the ledger. *)
Lemma execute_buy_signals_inv self buy_signals positions price_data capital d
    date_str positions' capital' trades :
  _execute_buy_signals self buy_signals positions price_data capital d date_str
  = Ok (positions', capital', trades) →
  (capital' == capital + sum_Q (map settle trades))%Q
  ∧ (shares_nonneg positions → shares_nonneg positions')
  ∧ ((0 <= capital)%Q → (0 <= capital')%Q).
Proof.
  unfold _execute_buy_signals. intros H.
  apply buy_loop_inv in H
    as (new_positions & new_trades & -> & Ht & Hc & H0 & Hp & _ & _).
  cbn [app] in Ht. subst. split; [done|]. split; [|done].
  intros Hs. apply Forall_app. split; [done|].
  by apply (entries_shares_nonneg price_data d).
Qed.

(** What the weekly rebalance does to the cash and to the ledger. *)
Lemma weekly_rebalance_cash self positions price_data capital d date_str
    today_signals positions' capital' trades :
  _execute_weekly_rebalance self positions price_data capital d date_str
                            today_signals
  = Ok (positions', capital', trades) →
  (capital' == capital + sum_Q (map settle trades))%Q
  ∧ (shares_nonneg positions → shares_nonneg positions')
  ∧ ((commission_rate self <= 1)%Q → prices_nonneg price_data →
     shares_nonneg positions → (0 <= capital)%Q → (0 <= capital')%Q).
Proof.
  intros H. destruct (decide (positions = [])) as [->|Hne].
  - cbn in H. inversion H; subst. repeat apply conj; try done.
    unfold sum_Q. cbn [map fold_right]. ring.
  - apply weekly_rebalance_inv in H as (new_trades & -> & Hc & H0 & Hp & _ & _);
      [|done].
    split; [done|]. split.
    + intros _. by apply (entries_shares_nonneg price_data d).
    + intros. apply H0, fold_nets_nonneg; [|done].
      by apply rebalance_nets_nonneg.
Qed.

(** The trades of a day settle exactly the change of the cash; with a
    commission rate of at most 1 and non-negative prices the cash stays
    non-negative. *)
Lemma day_trades_inv self signals price_data positions capital d
    positions' capital' trades :
  day_trades self signals price_data positions capital d
  = Ok (positions', capital', trades) →
  (capital' == capital + sum_Q (map settle trades))%Q
  ∧ ((commission_rate self <= 1)%Q → prices_nonneg price_data →
     shares_nonneg positions → (0 <= capital)%Q →
     (0 <= capital')%Q ∧ shares_nonneg positions').
Proof.
  unfold day_trades. intros H.
  destruct (_check_stop_loss _ _ _ _ _ _) as [[ps1 c1] ts1] eqn:Hsl.
  apply check_stop_loss_inv in Hsl as (Hc1 & Hs1 & H01).
  apply bind_Ok in H as ([[ps2 c2] ts2] & Hbuy & H).
  assert ((c2 == c1 + sum_Q (map settle ts2) - sum_Q (map settle ts1))%Q
          ∧ (shares_nonneg ps1 → shares_nonneg ps2)
          ∧ ((0 <= c1)%Q → (0 <= c2)%Q)) as (Hc2 & Hs2 & H02).
  { destruct (signals !! strftime d) as [buy_signals|].
    - apply bind_Ok in Hbuy as ([[ps c] ts] & Hb & Hr). inversion Hr; subst.
      apply execute_buy_signals_inv in Hb as (Hc & Hs & H0).
      repeat apply conj; try done.
      rewrite Hc, map_app, sum_Q_app. ring.
    - inversion Hbuy; subst. repeat apply conj; try done. ring. }
  assert ((capital' == c2 + sum_Q (map settle trades) - sum_Q (map settle ts2))%Q
          ∧ (shares_nonneg ps2 → shares_nonneg positions')
          ∧ ((commission_rate self <= 1)%Q → prices_nonneg price_data →
             shares_nonneg ps2 → (0 <= c2)%Q → (0 <= capital')%Q))
    as (Hc3 & Hs3 & H03).
  { destruct (rebalance_weekly self && _is_rebalance_day self d).
    - apply bind_Ok in H as ([[ps c] ts] & Hb & Hr). inversion Hr; subst.
      apply weekly_rebalance_cash in Hb as (Hc & Hs & H0).
      repeat apply conj; try done.
      rewrite Hc, map_app, sum_Q_app. ring.
    - inversion H; subst. repeat apply conj; try done. ring. }
  split.
  - rewrite Hc3, Hc2, Hc1. ring.
  - intros Hrate Hprices Hshares Hcap.
    pose proof (update_positions_high_shares _ price_data d Hshares) as Hu.
    split; [|by apply Hs3, Hs2, Hs1].
    apply H03; try done; [by apply Hs2, Hs1|]. apply H02. by apply H01.
Qed.

Lemma record_daily_status_Ok self date_str positions capital pv pv_numpy
    trades self1 :
  _record_daily_status self date_str positions capital pv pv_numpy trades
  = Ok self1 →
  initial_capital self1 = initial_capital self
  ∧ stop_loss_pct self1 = stop_loss_pct self
  ∧ commission_rate self1 = commission_rate self
  ∧ rebalance_weekly self1 = rebalance_weekly self
  ∧ rebalance_day self1 = rebalance_day self
  ∧ results self1 = results self
  ∧ trade_history self1 = trade_history self ++ trades
  ∧ ∃ rec, portfolio_history self1 = portfolio_history self ++ [rec]
      ∧ r_date rec = date_str ∧ cash rec = capital
      ∧ positions_count rec = length positions
      ∧ portfolio_value rec = pv.
Proof.
  unfold _record_daily_status.
  destruct (negb pv_numpy && Qeq_bool (initial_capital self) 0); [done|].
  intros [= <-]. cbn. repeat apply conj; try done. eexists. by repeat apply conj.
Qed.

(** The snapshots and trades a run of the loop appends: every snapshot shows
    a non-negative cash, and the last cash is the cash at the start plus what
    the appended trades settle. *)
Lemma day_loop_inv signals price_data dates :
  ∀ self positions capital numpy r self',
    day_loop self signals price_data positions capital numpy dates = (r, self') →
    ∃ recs trades,
      portfolio_history self' = portfolio_history self ++ recs
      ∧ trade_history self' = trade_history self ++ trades
      ∧ (default capital (cash <$> last recs)
         == capital + sum_Q (map settle trades))%Q
      ∧ ((commission_rate self <= 1)%Q → prices_nonneg price_data →
         shares_nonneg positions → (0 <= capital)%Q →
         Forall (λ rec, (0 <= cash rec)%Q) recs).
Proof.
  assert (∀ self capital, ∃ recs trades,
            portfolio_history self = portfolio_history self ++ recs
            ∧ trade_history self = trade_history self ++ trades
            ∧ (default capital (cash <$> last recs)
               == capital + sum_Q (map settle trades))%Q
            ∧ ((commission_rate self <= 1)%Q → prices_nonneg price_data →
               (0 <= capital)%Q → Forall (λ rec, (0 <= cash rec)%Q) recs))
    as Hstop.
  { intros self capital. exists [], []. rewrite !app_nil_r.
    repeat apply conj; try done. cbn. unfold sum_Q. cbn. ring. }
  induction dates as [|d dates IH]; intros self positions capital numpy r self' H.
  - cbn [day_loop] in H. inversion H; subst.
    destruct (Hstop self' capital) as (recs & trades & ? & ? & ? & ?).
    exists recs, trades. repeat apply conj; auto.
  - cbn [day_loop] in H.
    destruct (day_trades self signals price_data positions capital d)
      as [[[ps1 c1] ts1]|e] eqn:Hd.
    2:{ inversion H; subst.
        destruct (Hstop self' capital) as (recs & trades & ? & ? & ? & ?).
        exists recs, trades. repeat apply conj; auto. }
    destruct (_record_daily_status _ _ _ _ _ _ _) as [self1|e] eqn:Hr.
    2:{ inversion H; subst.
        destruct (Hstop self' capital) as (recs & trades & ? & ? & ? & ?).
        exists recs, trades. repeat apply conj; auto. }
    apply day_trades_inv in Hd as (Hc1 & H01).
    apply record_daily_status_Ok in Hr
      as (_ & _ & Hrate & _ & _ & _ & Hth & rec & Hph & _ & Hcash & _).
    apply IH in H as (recs & trades & Hph' & Hth' & Hlast & Hnn).
    exists (rec :: recs), (ts1 ++ trades). repeat apply conj.
    + rewrite Hph', Hph. by rewrite <- app_assoc.
    + rewrite Hth', Hth. by rewrite <- app_assoc.
    + rewrite last_cons.
      assert (default capital
                (cash <$> match last recs with
                          | Some y => Some y
                          | None => Some rec
                          end)
              = default c1 (cash <$> last recs)) as ->
        by (destruct (last recs); cbn; congruence).
      rewrite Hlast, Hc1, map_app, sum_Q_app. ring.
    + intros Hr1 Hprices Hshares Hcap.
      destruct (H01 Hr1 Hprices Hshares Hcap) as [Hc1' Hs1].
      constructor; [by rewrite Hcash|]. apply Hnn; try done. by rewrite Hrate.
Qed.

Lemma calculate_results_Ok np_power sqrt_pos self all_dates self' :
  _calculate_results np_power sqrt_pos self all_dates = Ok self' →
  portfolio_history self' = portfolio_history self
  ∧ trade_history self' = trade_history self
  ∧ initial_capital self' = initial_capital self.
Proof.
  unfold _calculate_results.
  destruct (portfolio_history self) as [|rec recs] eqn:Hph;
    [intros [= <-]; by rewrite Hph|].
  destruct (last all_dates); [|done]. destruct (head all_dates); [|done].
  destruct (trade_history self) eqn:Hth; intros [= <-]; cbn; by rewrite ?Hth.
Qed.

(** The bookkeeping of a whole run. *)
Lemma run_backtest_cash np_power sqrt_pos self signals price_data start_date
    end_date r self' :
  run_backtest np_power sqrt_pos self signals price_data start_date end_date
  = (r, self') →
  ∃ recs trades,
    portfolio_history self' = portfolio_history self ++ recs
    ∧ trade_history self' = trade_history self ++ trades
    ∧ (default (initial_capital self) (cash <$> last recs)
       == initial_capital self + sum_Q (map settle trades))%Q
    ∧ ((commission_rate self <= 1)%Q → prices_nonneg price_data →
       (0 <= initial_capital self)%Q →
       Forall (λ rec, (0 <= cash rec)%Q) recs).
Proof.
  assert (∃ recs trades,
            portfolio_history self = portfolio_history self ++ recs
            ∧ trade_history self = trade_history self ++ trades
            ∧ (default (initial_capital self) (cash <$> last recs)
               == initial_capital self + sum_Q (map settle trades))%Q
            ∧ ((commission_rate self <= 1)%Q → prices_nonneg price_data →
               (0 <= initial_capital self)%Q →
               Forall (λ rec, (0 <= cash rec)%Q) recs)) as Hstop.
  { exists [], []. rewrite !app_nil_r.
    repeat apply conj; try done. cbn. unfold sum_Q. cbn. ring. }
  unfold run_backtest.
  destruct (if rebalance_weekly self then _ else _); [|by intros [= <- <-]].
  destruct (_get_all_trading_dates _ _ _ _) as [all_dates|e];
    [|by intros [= <- <-]].
  destruct all_dates as [|d dates]; [by intros [= <- <-]|].
  destruct (day_loop _ _ _ _ _ _ _) as [r1 self1] eqn:Hloop.
  apply day_loop_inv in Hloop as (recs & trades & Hph & Hth & Hlast & Hnn).
  assert (∃ recs trades,
            portfolio_history self1 = portfolio_history self ++ recs
            ∧ trade_history self1 = trade_history self ++ trades
            ∧ (default (initial_capital self) (cash <$> last recs)
               == initial_capital self + sum_Q (map settle trades))%Q
            ∧ ((commission_rate self <= 1)%Q → prices_nonneg price_data →
               (0 <= initial_capital self)%Q →
               Forall (λ rec, (0 <= cash rec)%Q) recs)) as Hloop.
  { exists recs, trades. repeat apply conj; try done.
    intros. apply Hnn; try done. constructor. }
  destruct r1 as [[]|e]; [|by intros [= <- <-]].
  destruct (_calculate_results _ _ _ _) as [self2|e] eqn:Hres;
    [|by intros [= <- <-]].
  intros [= <- <-]. apply calculate_results_Ok in Hres as (-> & -> & _).
  done.
Qed.


(** The lookups in a dictionary written out with [insert]. *)
Ltac lookup_cases H :=
  repeat match type of H with
         | context [<[?k:=_]> _ !! ?c] =>
             destruct (decide (k = c)) as [<-|];
             [rewrite lookup_insert_eq in H
             |rewrite lookup_insert_ne in H by done]
         | context [∅ !! _] => rewrite lookup_empty in H
         end.





(** ** The exceptions of a run *)

Lemma bind_Raise {A B} (r : result A) (k : A → result B) (e : exn) :
  r ≫= k = Raise e → r = Raise e ∨ ∃ a, r = Ok a ∧ k a = Raise e.
Proof. destruct r as [a|e']; cbn; [eauto | intros [= ->]; by left]. Qed.

Lemma foldM_Raise {A S} (P : exn → Prop) (body : S → A → result S) (l : list A) :
  (∀ st x e, body st x = Raise e → P e) →
  ∀ st e, foldM body st l = Raise e → P e.
Proof.
  intros Hbody. induction l as [|x l IH]; intros st e H; [done|].
  cbn [foldM] in H. apply bind_Raise in H as [H|(st' & _ & H)]; eauto.
Qed.

Lemma strptime_Raise s e : strptime s = Raise e → e = ValueError.
Proof.
  unfold strptime.
  repeat match goal with
         | |- context [match ?x with _ => _ end] => destruct x
         end; congruence.
Qed.

Lemma bound_filter_Raise keep bound l e :
  bound_filter keep bound l = Raise e → builtin e.
Proof.
  destruct bound as [[|a s]|]; cbn; try done.
  destruct (strptime (String a s)) eqn:Hs; cbn; [done|].
  intros [= <-]. by apply strptime_Raise in Hs as ->.
Qed.

Lemma get_all_trading_dates_Raise signals price_data start_date end_date e :
  _get_all_trading_dates signals price_data start_date end_date = Raise e →
  builtin e.
Proof.
  unfold _get_all_trading_dates. intros H.
  apply bind_Raise in H as [H|(l1 & _ & H)];
    [by apply bound_filter_Raise in H|].
  apply bind_Raise in H as [H|(l2 & _ & H)];
    [by apply bound_filter_Raise in H|done].
Qed.

Lemma buy_step_Raise self price_data d date_str n st sig e :
  buy_step self price_data d date_str n st sig = Raise e → builtin e.
Proof.
  destruct st as [[positions capital] trades]. unfold buy_step.
  destruct (held positions (code sig)); [done|].
  destruct (close_on price_data (code sig) d) as [p|]; [|done].
  unfold int_floordiv. destruct (Qeq_bool (p * 100) 0).
  - destruct (Qeq_bool _ 0); cbn; by intros [= <-].
  - cbn [mbind result_bind]. destruct (_ <=? 0); [done|].
    by destruct (Qlt_bool capital _).
Qed.

Lemma execute_buy_signals_Raise self buy_signals positions price_data capital d
    date_str e :
  _execute_buy_signals self buy_signals positions price_data capital d date_str
  = Raise e → builtin e.
Proof.
  unfold _execute_buy_signals. apply foldM_Raise.
  intros st x e'. apply buy_step_Raise.
Qed.

Lemma weekly_rebalance_Raise self positions price_data capital d date_str
    today_signals e :
  _execute_weekly_rebalance self positions price_data capital d date_str
                            today_signals = Raise e → builtin e.
Proof.
  unfold _execute_weekly_rebalance. destruct positions; [done|].
  destruct (fold_left _ _ _) as [c ts]. destruct today_signals; [done|].
  intros H. apply bind_Raise in H as [H|([[ps c'] ts'] & _ & H)]; [|done].
  by apply execute_buy_signals_Raise in H.
Qed.

Lemma day_trades_Raise self signals price_data positions capital d e :
  day_trades self signals price_data positions capital d = Raise e → builtin e.
Proof.
  unfold day_trades.
  destruct (_check_stop_loss _ _ _ _ _ _) as [[ps1 c1] ts1]. intros H.
  apply bind_Raise in H as [H|([[ps2 c2] ts2] & _ & H)].
  - destruct (signals !! strftime d); [|done].
    apply bind_Raise in H as [H|([[ps c] ts] & _ & H)]; [|done].
    by apply execute_buy_signals_Raise in H.
  - destruct (rebalance_weekly self && _is_rebalance_day self d); [|done].
    apply bind_Raise in H as [H|([[ps c] ts] & _ & H)]; [|done].
    by apply weekly_rebalance_Raise in H.
Qed.

Lemma day_loop_Raise signals price_data dates :
  ∀ self positions capital numpy e self',
    day_loop self signals price_data positions capital numpy dates
    = (Raise e, self') → builtin e.
Proof.
  induction dates as [|d dates IH]; intros self positions capital numpy e self' H;
    [done|].
  cbn [day_loop] in H.
  destruct (day_trades self signals price_data positions capital d)
    as [[[ps1 c1] ts1]|e1] eqn:Hd.
  2:{ inversion H; subst. by apply day_trades_Raise in Hd. }
  destruct (_record_daily_status _ _ _ _ _ _ _) as [self1|e1] eqn:Hr; [eauto|].
  inversion H; subst. unfold _record_daily_status in Hr.
  destruct (negb _ && _); [by inversion Hr|done].
Qed.

Lemma calculate_results_Raise np_power sqrt_pos self all_dates e :
  _calculate_results np_power sqrt_pos self all_dates = Raise e → builtin e.
Proof.
  unfold _calculate_results. destruct (portfolio_history self); [done|].
  destruct (last all_dates); [|by intros [= <-]].
  destruct (head all_dates); [|by intros [= <-]].
  by destruct (trade_history self).
Qed.

Lemma run_backtest_Raise np_power sqrt_pos self signals price_data start_date
    end_date e self' :
  run_backtest np_power sqrt_pos self signals price_data start_date end_date
  = (Raise e, self') → builtin e.
Proof.
  unfold run_backtest.
  destruct (if rebalance_weekly self then _ else _) as [[]|e0] eqn:Hidx.
  2:{ intros [= <- _]. destruct (rebalance_weekly self); [|done].
      by destruct (day_names_index_cases (rebalance_day self)) as [H|H];
        rewrite H in Hidx; inversion Hidx. }
  destruct (_get_all_trading_dates _ _ _ _) as [all_dates|e0] eqn:Hdates.
  2:{ intros [= <- _]. by apply get_all_trading_dates_Raise in Hdates. }
  destruct all_dates as [|d dates]; [by intros [= <- _]|].
  destruct (day_loop _ _ _ _ _ _ _) as [[[]|e0] self1] eqn:Hloop.
  2:{ intros [= <- _]. by apply day_loop_Raise in Hloop. }
  destruct (_calculate_results _ _ _ _) as [self2|e0] eqn:Hres; [done|].
  intros [= <- _]. by apply calculate_results_Raise in Hres.
Qed.

(** C7, as the code has it.  The constructor validates nothing: for every
    initial capital, stop-loss threshold, commission rate and rebalance
    weekday it returns an engine that holds these values as given, with empty
    histories and no result; and a run of that engine never raises a
    [ConfigurationError], nor any other exception class of the program's own:
    it ends normally or with a built-in exception. *)
Theorem init_accepts_every_configuration :
  ∀ (initial_capital0 stop_loss_pct0 commission_rate0 : Q)
    (rebalance_weekly0 : bool) (rebalance_day0 : Z),
  ∃ self,
    __init__ initial_capital0 stop_loss_pct0 commission_rate0 rebalance_weekly0
             rebalance_day0 = Ok self
    ∧ initial_capital self = initial_capital0
    ∧ stop_loss_pct self = stop_loss_pct0
    ∧ commission_rate self = commission_rate0
    ∧ rebalance_weekly self = rebalance_weekly0
    ∧ rebalance_day self = rebalance_day0
    ∧ results self = None
    ∧ portfolio_history self = []
    ∧ trade_history self = []
    ∧ ∀ (np_power : npfloat → Q → npfloat) (sqrt_pos : Q → Q)
        (signals : Signals) (price_data : PriceData)
        (start_date end_date : option string) (class_name : string),
        (run_backtest np_power sqrt_pos self signals price_data start_date
                      end_date).1
        ≠ Raise (Other class_name).
Proof.
  intros. eexists. split; [reflexivity|]. cbn. repeat apply conj; try done.
  intros np_power sqrt_pos signals price_data start_date end_date class_name H.
  destruct (run_backtest _ _ _ _ _ _ _) as [r self'] eqn:Hrun. cbn in H. subst.
  by apply run_backtest_Raise in Hrun.
Qed.

Lemma init_accepts_every_configuration_witness :
  ∃ self,
    __init__ (-5) 2 (-1) true (-3) = Ok self
    ∧ initial_capital self = (-5)%Q
    ∧ stop_loss_pct self = 2%Q
    ∧ commission_rate self = (-1)%Q
    ∧ rebalance_weekly self = true
    ∧ rebalance_day self = -3
    ∧ results self = None
    ∧ portfolio_history self = []
    ∧ trade_history self = []
    ∧ ∀ (np_power : npfloat → Q → npfloat) (sqrt_pos : Q → Q)
        (signals : Signals) (price_data : PriceData)
        (start_date end_date : option string) (class_name : string),
        (run_backtest np_power sqrt_pos self signals price_data start_date
                      end_date).1
        ≠ Raise (Other class_name).
Proof. exact (init_accepts_every_configuration (-5) 2 (-1) true (-3)). Defined.

(** C7, as the specification words it, fails: a negative capital, a stop-loss
    threshold of 2, a negative commission rate and a rebalance weekday of -3
    are accepted by the constructor, and the run simulates both Mondays and
    returns a result. *)
Lemma invalid_configuration_is_simulated :
  ∃ self r self',
    __init__ (-5) 2 (-1) true (-3) = Ok self
    ∧ run_backtest Scenario.no_power Scenario.no_sqrt self Scenario.two_mondays
                   Scenario.both_priced None None = (Ok (Some r), self')
    ∧ map r_date (portfolio_history self') = ["2024-01-01"; "2024-01-08"].
Proof.
  eexists _, _, _. split; [reflexivity|].
  split; [vm_compute; reflexivity|]. vm_compute. reflexivity.
Qed.

(** ** Metrics *)

Lemma filter_sells_nil (trades : list trade) :
  Forall (λ t, action t ≠ SELL) trades →
  filter (λ t, action t = SELL) trades = [].
Proof.
  induction 1 as [|t trades Ht _ IH]; [done|].
  by rewrite filter_cons_False.
Qed.

Lemma sharpe_guard_closed sqrt_pos (var : npfloat) :
  var = NaN ∨ (∃ q, var = Fin q ∧ (q == 0)%Q) →
  np_gt (np_mul (np_sqrt sqrt_pos var) (Fin 100)) 0 = false.
Proof.
  intros [->|(q & -> & Hq)]; [done|]. unfold np_sqrt.
  rewrite (proj2 (Qlt_bool_false q 0)) by lra.
  rewrite (proj2 (Qeq_bool_iff q 0) Hq). cbn [np_mul np_gt].
  apply Qlt_bool_false. lra.
Qed.

Lemma np_gt_zero_closed (x : npfloat) :
  x = NaN ∨ (∃ q, x = Fin q ∧ (q == 0)%Q) → np_gt x 0 = false.
Proof.
  intros [->|(q & -> & Hq)]; [done|]. cbn [np_gt]. apply Qlt_bool_false. lra.
Qed.

(** C8.  [_calculate_results] raises nothing when the horizon has a first and
    a last date: without snapshots it leaves the engine as it is, and
    otherwise it stores a result in which the annual return is 0 when the
    elapsed years are not positive; the Sharpe ratio is 0 when the variance
    of the daily returns is 0 or undefined, as it is on a single-day horizon;
    the win rate, the average win and loss percentages and the average holding
    days are 0 when the history holds no SELL trade; and the trade count is 0
    on an empty trade history. *)
Theorem calculate_results_total_and_zero_on_degenerate_input :
  ∀ (np_power : npfloat → Q → npfloat) (sqrt_pos : Q → Q)
    (self : BacktestEngine) (all_dates : list date)
    (first_date last_date : date),
    head all_dates = Some first_date →
    last all_dates = Some last_date →
    ∃ self',
      _calculate_results np_power sqrt_pos self all_dates = Ok self'
      ∧ (portfolio_history self = [] → self' = self)
      ∧ (portfolio_history self ≠ [] →
         ∃ r, results self' = Some r
           ∧ ((inject_Z (days_between last_date first_date) / 365.25 <= 0)%Q →
              annual_return_pct r = Fin 0)
           ∧ (let var := series_var (pct_change (map portfolio_value
                                                    (portfolio_history self))) in
              var = NaN ∨ (∃ q, var = Fin q ∧ (q == 0)%Q) →
              sharpe_ratio r = Fin 0)
           ∧ (let std :=
                np_mul (np_sqrt sqrt_pos
                          (series_var (pct_change (map portfolio_value
                                                       (portfolio_history self)))))
                       (Fin 100) in
              std = NaN ∨ (∃ q, std = Fin q ∧ (q == 0)%Q) →
              sharpe_ratio r = Fin 0)
           ∧ (length (portfolio_history self) = 1%nat → sharpe_ratio r = Fin 0)
           ∧ (Forall (λ t, action t ≠ SELL) (trade_history self) →
              win_rate_pct r = 0%Q ∧ avg_win_pct r = 0%Q
              ∧ avg_loss_pct r = 0%Q ∧ avg_holding_days r = 0%Q)
           ∧ (trade_history self = [] → total_trades r = 0%nat)).
Proof.
  intros np_power sqrt_pos self all_dates first_date last_date Hhead Hlast.
  unfold _calculate_results. rewrite Hhead, Hlast.
  destruct (portfolio_history self) as [|rec recs] eqn:Hph.
  { eexists. split; [reflexivity|]. split; [done|]. by intros []. }
  destruct (trade_history self) as [|t trades] eqn:Hth.
  - eexists. split; [reflexivity|]. split; [done|]. intros _.
    eexists. split; [reflexivity|].
    cbn [annual_return_pct sharpe_ratio win_rate_pct avg_win_pct avg_loss_pct
         avg_holding_days total_trades].
    repeat apply conj; try done.
    + intros Hy. by rewrite (proj2 (Qlt_bool_false _ _) Hy).
    + intros Hvar. by rewrite (sharpe_guard_closed sqrt_pos _ Hvar).
    + intros Hstd. by rewrite (np_gt_zero_closed _ Hstd).
    + intros Hlen. destruct recs; [|done].
      by rewrite (sharpe_guard_closed sqrt_pos
                    (series_var (pct_change (map portfolio_value [rec])))
                    (or_introl eq_refl)).
  - eexists. split; [reflexivity|]. split; [done|]. intros _.
    eexists. split; [reflexivity|].
    cbn [annual_return_pct sharpe_ratio win_rate_pct avg_win_pct avg_loss_pct
         avg_holding_days total_trades].
    repeat apply conj; try done.
    + intros Hy. by rewrite (proj2 (Qlt_bool_false _ _) Hy).
    + intros Hvar. by rewrite (sharpe_guard_closed sqrt_pos _ Hvar).
    + intros Hstd. by rewrite (np_gt_zero_closed _ Hstd).
    + intros Hlen. destruct recs; [|done].
      by rewrite (sharpe_guard_closed sqrt_pos
                    (series_var (pct_change (map portfolio_value [rec])))
                    (or_introl eq_refl)).
    + intros Hsell. by rewrite (filter_sells_nil _ Hsell).
Qed.

Lemma calculate_results_single_day_witness :
  ∃ self',
    _calculate_results Scenario.no_power Scenario.no_sqrt
                       Scenario.single_day_engine [Scenario.monday1] = Ok self'
    ∧ ∃ r, results self' = Some r
        ∧ annual_return_pct r = Fin 0
        ∧ sharpe_ratio r = Fin 0
        ∧ win_rate_pct r = 0%Q ∧ avg_win_pct r = 0%Q
        ∧ avg_loss_pct r = 0%Q ∧ avg_holding_days r = 0%Q
        ∧ total_trades r = 0%nat.
Proof.
  destruct (calculate_results_total_and_zero_on_degenerate_input
              Scenario.no_power Scenario.no_sqrt Scenario.single_day_engine
              [Scenario.monday1] Scenario.monday1 Scenario.monday1
              eq_refl eq_refl)
    as (self' & Hok & _ & Hres).
  exists self'. split; [exact Hok|].
  destruct (Hres ltac:(discriminate))
    as (r & Hr & Hannual & _ & _ & Hsharpe & Hsell & Htotal).
  exists r. split; [exact Hr|].
  split; [apply Hannual; by vm_compute|].
  split; [by apply Hsharpe|].
  destruct (Hsell ltac:(constructor)) as (? & ? & ? & ?).
  repeat split; try assumption. by apply Htotal.
Defined.

(** ** Two Mondays under the weekly rebalance *)





















(** * Further properties of the engine *)

(** ** Equity at the closes of the day *)

Lemma omap_cons {A B} (f : A → option B) (x : A) (l : list A) :
  omap f (x :: l)
  = match f x with Some y => y :: omap f l | None => omap f l end.
Proof. reflexivity. Qed.

Lemma sum_Q_nil : sum_Q [] = 0%Q.
Proof. reflexivity. Qed.

Lemma commissions_app (l1 l2 : list trade) :
  (commissions (l1 ++ l2) == commissions l1 + commissions l2)%Q.
Proof. unfold commissions. by rewrite map_app, sum_Q_app. Qed.

(** The value at the close of the positions the stop loss keeps, and the
    amounts of its sales, make up the value of the ledger. *)
Lemma stop_loss_value self price_data d date_str positions :
  (sum_Q (omap (bar_value price_data d)
               (filter (λ e, triggered self price_data d e = false) positions))
   + sum_Q (map amount (omap (stop_loss_exit self price_data d date_str)
                             positions).*2)
   == sum_Q (omap (bar_value price_data d) positions))%Q.
Proof.
  induction positions as [|e positions IH].
  - rewrite filter_nil. cbn [omap list_omap fmap list_fmap map].
    rewrite sum_Q_nil. ring.
  - rewrite filter_cons, (omap_cons (stop_loss_exit _ _ _ _)).
    destruct (stop_loss_exit self price_data d date_str e) as [[net t]|] eqn:Hex.
    + pose proof (proj1 (stop_loss_exit_triggered self price_data d date_str e)
                        ltac:(rewrite Hex; eauto)) as Htrig.
      rewrite decide_False by congruence.
      apply stop_loss_exit_Some in Hex as (p & Hp & _ & Hsell).
      apply sell_position_fields in Hsell as (_ & _ & _ & _ & _ & _ & _ & Ha & _).
      rewrite (omap_cons (bar_value _ _)).
      replace (bar_value price_data d e)
        with (Some (p * inject_Z (shares e.2))%Q)
        by (unfold bar_value; by rewrite Hp).
      cbn [fmap list_fmap map snd].
      rewrite !sum_Q_cons, Ha, <- IH. ring.
    + assert (triggered self price_data d e = false) as Htrig.
      { destruct (triggered self price_data d e) eqn:E; [|done].
        apply stop_loss_exit_triggered with (date_str := date_str) in E.
        rewrite Hex in E. by destruct E. }
      rewrite decide_True by done. rewrite !(omap_cons (bar_value _ _)).
      destruct (bar_value price_data d e); rewrite ?sum_Q_cons, <- IH; ring.
Qed.

Lemma sales_settle_sum (sales : list (Q * trade)) :
  Forall (λ x : Q * trade,
            x.1 = (amount x.2 - commission x.2)%Q ∧ action x.2 = SELL) sales →
  (sum_Q (map settle sales.*2)
   == sum_Q (map amount sales.*2) - commissions sales.*2)%Q.
Proof.
  unfold commissions.
  induction 1 as [|[net t] sales [_ Hsell] _ IH];
    cbn [fmap list_fmap map snd].
  - rewrite !sum_Q_nil. ring.
  - cbn [snd] in Hsell. rewrite !sum_Q_cons, IH. unfold settle.
    rewrite Hsell. ring.
Qed.

Lemma NoDup_filter_keys (P : string * position → Prop)
    `{∀ e, Decision (P e)} (positions : Positions) :
  NoDup positions.*1 → NoDup (filter P positions).*1.
Proof.
  induction positions as [|e positions IH]; [done|].
  rewrite fmap_cons. intros [Hnin Hnd]%NoDup_cons. rewrite filter_cons.
  destruct (decide (P e)); [|by apply IH].
  rewrite fmap_cons. apply NoDup_cons. split; [|by apply IH].
  intros (e' & Hk & [_ Hin]%list_elem_of_filter)%list_elem_of_fmap.
  apply Hnin. rewrite Hk. by apply list_elem_of_fmap_2.
Qed.

Lemma check_stop_loss_equity self positions price_data capital d date_str
    positions' capital' trades :
  NoDup positions.*1 →
  _check_stop_loss self positions price_data capital d date_str
  = (positions', capital', trades) →
  (_calculate_portfolio_value positions' price_data capital' d
   == _calculate_portfolio_value positions price_data capital d
      - commissions trades)%Q
  ∧ NoDup positions'.*1.
Proof.
  intros Hnd. unfold _check_stop_loss. rewrite stop_loss_fold.
  intros [= <- <- <-]. cbn [app].
  rewrite (del_selected (triggered self price_data d)) by done. split.
  - rewrite !portfolio_value_fold.
    rewrite fold_sales by apply stop_loss_exits_sell.
    rewrite sales_settle_sum by apply stop_loss_exits_sell.
    rewrite <- (stop_loss_value self price_data d date_str positions). ring.
  - by apply NoDup_filter_keys.
Qed.

(** What one iteration of the buying loop does, with the entry spelled out. *)
Lemma buy_step_entry self price_data d date_str n positions capital trades sig
    positions' capital' trades' :
  buy_step self price_data d date_str n (positions, capital, trades) sig
  = Ok (positions', capital', trades') →
  (positions' = positions ∧ capital' = capital ∧ trades' = trades)
  ∨ ∃ p lots,
      close_on price_data (code sig) d = Some p
      ∧ held positions (code sig) = false
      ∧ 0 < lots * 100
      ∧ (p * inject_Z (lots * 100)
         + p * inject_Z (lots * 100) * commission_rate self <= capital)%Q
      ∧ positions'
        = positions ++
            [(code sig,
              mkPosition (lots * 100) p p d (default default_name (name sig)))]
      ∧ capital'
        = (capital - (p * inject_Z (lots * 100)
                      + p * inject_Z (lots * 100) * commission_rate self))%Q
      ∧ trades'
        = trades ++
            [mkTrade date_str (code sig)
                     (Some (default default_name (name sig))) BUY
                     SelectionSignal p (lots * 100)
                     (p * inject_Z (lots * 100))%Q
                     (p * inject_Z (lots * 100) * commission_rate self)%Q
                     0%Q 0%Q 0].
Proof.
  unfold buy_step.
  destruct (held positions (code sig)) eqn:Hheld; [intros [= <- <- <-]; by left|].
  destruct (close_on price_data (code sig) d) as [p|] eqn:Hclose;
    [|intros [= <- <- <-]; by left].
  destruct (int_floordiv _ _) as [lots|e]; [|done]. cbn [mbind result_bind].
  destruct (lots * 100 <=? 0) eqn:Hs; [intros [= <- <- <-]; by left|].
  destruct (Qlt_bool capital _) eqn:Hc; [intros [= <- <- <-]; by left|].
  intros [= <- <- <-]. right. exists p, lots.
  repeat apply conj; try reflexivity.
  - by apply Z.leb_gt.
  - by apply Qlt_bool_false.
Qed.

Lemma omap_bar_value_snoc price_data d positions c pos p :
  close_on price_data c d = Some p →
  omap (bar_value price_data d) (positions ++ [(c, pos)])
  = omap (bar_value price_data d) positions ++ [(p * inject_Z (shares pos))%Q].
Proof.
  intros Hp. induction positions as [|e positions IH].
  - cbn [app]. rewrite omap_cons. unfold bar_value at 1. cbn [fst snd].
    by rewrite Hp.
  - cbn [app]. rewrite !omap_cons, IH. by destruct (bar_value price_data d e).
Qed.

(** The total value at the closes of the day plus the commissions paid so far
    does not change along the buying loop. *)
Lemma buy_loop_equity self price_data d date_str n buy_signals :
  ∀ positions capital trades positions' capital' trades',
    foldM (buy_step self price_data d date_str n) (positions, capital, trades)
          buy_signals
    = Ok (positions', capital', trades') →
    (_calculate_portfolio_value positions' price_data capital' d
     + commissions trades'
     == _calculate_portfolio_value positions price_data capital d
        + commissions trades)%Q.
Proof.
  induction buy_signals as [|sig buy_signals IH];
    intros positions capital trades positions' capital' trades' H.
  - cbn [foldM] in H. by inversion H.
  - cbn [foldM] in H.
    apply bind_Ok in H as ([[positions1 capital1] trades1] & H1 & H).
    rewrite (IH _ _ _ _ _ _ H).
    apply buy_step_entry in H1
      as [(-> & -> & ->)|(p & lots & Hp & _ & _ & _ & -> & -> & ->)];
      [reflexivity|].
    rewrite !portfolio_value_fold, (omap_bar_value_snoc _ _ _ _ _ _ Hp).
    rewrite sum_Q_app, commissions_app. unfold commissions.
    cbn [map shares commission]. rewrite !sum_Q_cons, !sum_Q_nil. ring.
Qed.

Lemma rebalance_value self price_data d date_str positions :
  (sum_Q (map amount (omap (rebalance_exit self price_data d date_str)
                           positions).*2)
   == sum_Q (omap (bar_value price_data d) positions))%Q.
Proof.
  induction positions as [|e positions IH]; [reflexivity|].
  rewrite (omap_cons (rebalance_exit _ _ _ _)), (omap_cons (bar_value _ _)).
  destruct (rebalance_exit self price_data d date_str e) as [[net t]|] eqn:Hex.
  - apply rebalance_exit_Some in Hex as (p & Hp & Hsell).
    apply sell_position_fields in Hsell as (_ & _ & _ & _ & _ & _ & _ & Ha & _).
    replace (bar_value price_data d e)
      with (Some (p * inject_Z (shares e.2))%Q)
      by (unfold bar_value; by rewrite Hp).
    cbn [fmap list_fmap map snd]. rewrite !sum_Q_cons, Ha, <- IH. ring.
  - assert (bar_value price_data d e = None) as ->; [|done].
    unfold rebalance_exit in Hex. unfold bar_value.
    by destruct (close_on price_data e.1 d).
Qed.

Lemma weekly_rebalance_equity self positions price_data capital d date_str
    today_signals positions' capital' trades :
  _execute_weekly_rebalance self positions price_data capital d date_str
                            today_signals
  = Ok (positions', capital', trades) →
  (_calculate_portfolio_value positions' price_data capital' d
   == _calculate_portfolio_value positions price_data capital d
      - commissions trades)%Q
  ∧ NoDup positions'.*1.
Proof.
  unfold _execute_weekly_rebalance.
  destruct positions as [|e positions].
  { intros [= <- <- <-]. split; [|constructor].
    unfold commissions. cbn [map]. rewrite sum_Q_nil. ring. }
  rewrite rebalance_fold. cbn [app].
  set (sales := omap (rebalance_exit self price_data d date_str) (e :: positions)).
  pose proof (fold_sales sales capital
                (rebalance_exits_sell self price_data d date_str _)) as Hc1.
  pose proof (sales_settle_sum sales
                (rebalance_exits_sell self price_data d date_str _)) as Hs.
  pose proof (rebalance_value self price_data d date_str (e :: positions)) as Hv.
  fold sales in Hv.
  assert (fold_left (λ c (x : Q * trade), c + x.1) sales capital
          == _calculate_portfolio_value (e :: positions) price_data capital d
             - commissions sales.*2)%Q as Hsold.
  { rewrite portfolio_value_fold, Hc1, Hs, Hv. ring. }
  destruct today_signals as [|sig today_signals].
  - intros [= <- <- <-]. split; [|constructor].
    unfold _calculate_portfolio_value at 1. cbn [fold_left]. exact Hsold.
  - intros H. apply bind_Ok in H as ([[ps c] ts] & H & Hr). inversion Hr; subst.
    unfold _execute_buy_signals in H.
    pose proof (buy_loop_equity _ _ _ _ _ _ _ _ _ _ _ _ H) as Heq.
    apply buy_loop_inv in H as (? & ? & -> & _ & _ & _ & _ & _ & Hnd).
    split; [|apply Hnd; constructor].
    unfold _calculate_portfolio_value at 2 in Heq. cbn [fold_left] in Heq.
    unfold commissions at 2 in Heq. cbn [map] in Heq. rewrite sum_Q_nil in Heq.
    pose proof (commissions_app sales.*2 ts) as Happ. lra.
Qed.

Lemma update_positions_high_keys positions price_data d :
  (_update_positions_high positions price_data d).*1 = positions.*1.
Proof.
  unfold _update_positions_high.
  induction positions as [|[c pos] positions IH]; [done|].
  cbn [map fmap list_fmap] in *. rewrite IH.
  destruct (close_on price_data c d) as [p|];
    [destruct (Qlt_bool (max_price pos) p)|]; done.
Qed.

Lemma update_positions_high_value positions price_data d d' capital :
  _calculate_portfolio_value (_update_positions_high positions price_data d')
                             price_data capital d
  = _calculate_portfolio_value positions price_data capital d.
Proof.
  unfold _calculate_portfolio_value, _update_positions_high.
  revert capital. induction positions as [|[c pos] positions IH]; intros capital;
    [done|].
  cbn [map fold_left]. 
  destruct (close_on price_data c d') as [p|];
    [destruct (Qlt_bool (max_price pos) p)|]; cbn [fst snd shares]; apply IH.
Qed.

(** X1.  Trading creates and destroys no value except the commissions: the
    total value of the portfolio at the closes of the day, computed after the
    trades of the day, is its total value at the same closes before them less
    the commissions of those trades.  (A position without a bar on the day
    counts for nothing on either side.) *)
Theorem day_trades_equity_changes_by_commissions :
  ∀ (self : BacktestEngine) (signals : Signals) (price_data : PriceData)
    (positions : Positions) (capital : Q) (d : date)
    (positions' : Positions) (capital' : Q) (trades : list trade),
    NoDup positions.*1 →
    day_trades self signals price_data positions capital d
    = Ok (positions', capital', trades) →
    (_calculate_portfolio_value positions' price_data capital' d
     == _calculate_portfolio_value positions price_data capital d
        - commissions trades)%Q
    ∧ NoDup positions'.*1.
Proof.
  intros self signals price_data positions capital d positions' capital' trades
         Hnd H.
  unfold day_trades in H.
  destruct (_check_stop_loss _ _ _ _ _ _) as [[ps1 c1] ts1] eqn:Hsl.
  apply check_stop_loss_equity in Hsl as [Hv1 Hnd1];
    [|by rewrite update_positions_high_keys].
  rewrite update_positions_high_value in Hv1.
  apply bind_Ok in H as ([[ps2 c2] ts2] & Hbuy & H).
  assert ((_calculate_portfolio_value ps2 price_data c2 d
           == _calculate_portfolio_value positions price_data capital d
              - commissions ts2)%Q ∧ NoDup ps2.*1) as [Hv2 Hnd2].
  { destruct (signals !! strftime d) as [buy_signals|].
    - apply bind_Ok in Hbuy as ([[ps c] ts] & Hb & Hr). inversion Hr; subst.
      unfold _execute_buy_signals in Hb.
      pose proof (buy_loop_equity _ _ _ _ _ _ _ _ _ _ _ _ Hb) as Heq.
      apply buy_loop_inv in Hb as (? & ? & _ & _ & _ & _ & _ & _ & Hnd').
      split; [|by apply Hnd'].
      unfold commissions at 2 in Heq. cbn [map] in Heq.
      rewrite sum_Q_nil in Heq.
      pose proof (commissions_app ts1 ts) as Happ. lra.
    - by inversion Hbuy; subst. }
  destruct (rebalance_weekly self && _is_rebalance_day self d).
  - apply bind_Ok in H as ([[ps c] ts] & Hb & Hr). inversion Hr; subst.
    apply weekly_rebalance_equity in Hb as [Hv3 Hnd3]. split; [|done].
    pose proof (commissions_app ts2 ts) as Happ. lra.
  - by inversion H; subst.
Qed.

Lemma day_trades_equity_witness :
  ∃ positions' capital' trades,
    day_trades (Scenario.engine true) Scenario.two_mondays Scenario.both_priced
               [] 1000000 Scenario.monday1
    = Ok (positions', capital', trades)
    ∧ (_calculate_portfolio_value positions' Scenario.both_priced capital'
                                  Scenario.monday1
       == _calculate_portfolio_value [] Scenario.both_priced 1000000
                                     Scenario.monday1
          - commissions trades)%Q
    ∧ NoDup positions'.*1.
Proof.
  eexists _, _, _. split; [vm_compute; reflexivity|].
  apply (day_trades_equity_changes_by_commissions
           (Scenario.engine true) Scenario.two_mondays Scenario.both_priced
           [] 1000000 Scenario.monday1).
  - constructor.
  - vm_compute. reflexivity.
Defined.

(** ** The ledger and the trades the engine makes *)

Lemma update_positions_high_ok positions price_data d :
  ledger_ok positions →
  ledger_ok (_update_positions_high positions price_data d).
Proof.
  intros [Hnd Hok]. split; [by rewrite update_positions_high_keys|].
  unfold _update_positions_high. apply Forall_fmap.
  eapply Forall_impl; [exact Hok|]. intros [c pos] (Hs & Hd & Hm).
  cbn [fst snd compose] in *.
  destruct (close_on price_data c d) as [p|]; [|done].
  destruct (Qlt_bool (max_price pos) p) eqn:Hlt; [|done].
  apply Qlt_bool_iff in Hlt. repeat split; try done.
  cbn [snd avg_price max_price]. lra.
Qed.

Lemma sale_trade_ok self d date_str c pos p why net t :
  position_ok pos →
  sell_position self d date_str c pos p why = (net, t) → trade_ok self t.
Proof.
  intros (Hs & Hd & _) Hsell.
  apply sell_position_fields in Hsell
    as (_ & _ & _ & Hact & _ & Hp & Hsh & Ha & Hc & _).
  unfold trade_ok. rewrite Hsh, Hp, Hact. repeat split; try done.
Qed.

Lemma stop_loss_trades_ok self price_data d date_str positions :
  Forall (λ e : string * position, position_ok e.2) positions →
  Forall (trade_ok self)
         (omap (stop_loss_exit self price_data d date_str) positions).*2.
Proof.
  intros Hok. apply Forall_fmap, Forall_forall. intros [net t] Hin.
  apply list_elem_of_omap in Hin as (e & He & Hex).
  apply stop_loss_exit_Some in Hex as (p & _ & _ & Hsell).
  rewrite Forall_forall in Hok. eapply sale_trade_ok; eauto.
Qed.

Lemma rebalance_trades_ok self price_data d date_str positions :
  Forall (λ e : string * position, position_ok e.2) positions →
  Forall (trade_ok self)
         (omap (rebalance_exit self price_data d date_str) positions).*2.
Proof.
  intros Hok. apply Forall_fmap, Forall_forall. intros [net t] Hin.
  apply list_elem_of_omap in Hin as (e & He & Hex).
  apply rebalance_exit_Some in Hex as (p & _ & Hsell).
  rewrite Forall_forall in Hok. eapply sale_trade_ok; eauto.
Qed.

Lemma buy_loop_ok self price_data d date_str n buy_signals :
  ∀ positions capital trades positions' capital' trades',
    foldM (buy_step self price_data d date_str n) (positions, capital, trades)
          buy_signals
    = Ok (positions', capital', trades') →
    ledger_ok positions → Forall (trade_ok self) trades →
    ledger_ok positions' ∧ Forall (trade_ok self) trades'.
Proof.
  induction buy_signals as [|sig buy_signals IH];
    intros positions capital trades positions' capital' trades' H Hl Ht.
  - cbn [foldM] in H. by inversion H; subst.
  - cbn [foldM] in H.
    apply bind_Ok in H as ([[positions1 capital1] trades1] & H1 & H).
    apply buy_step_entry in H1
      as [(-> & -> & ->)|(p & lots & Hp & Hheld & Hs & _ & -> & -> & ->)];
      [by apply (IH _ _ _ _ _ _ H)|].
    apply (IH _ _ _ _ _ _ H).
    + destruct Hl as [Hnd Hok]. split.
      * rewrite fmap_app. apply NoDup_app. split; [done|].
        split; [|apply NoDup_singleton].
        intros c Hin Hc. cbn in Hc. apply list_elem_of_singleton in Hc. subst.
        by apply held_false in Hheld.
      * apply Forall_app. split; [done|]. constructor; [|constructor].
        cbn [snd]. unfold position_ok. cbn [shares avg_price max_price].
        repeat split; [done|by apply Z.divide_factor_r|lra].
    + apply Forall_app. split; [done|]. constructor; [|constructor].
      unfold trade_ok.
      cbn [t_shares amount price commission action reason pnl pnl_pct
           holding_days].
      repeat split; [done|by apply Z.divide_factor_r].
Qed.

(** The ledger and the trades of a day are as the engine makes them. *)
Lemma day_trades_ledger_ok :
  ∀ (self : BacktestEngine) (signals : Signals) (price_data : PriceData)
    (positions : Positions) (capital : Q) (d : date)
    (positions' : Positions) (capital' : Q) (trades : list trade),
    ledger_ok positions →
    day_trades self signals price_data positions capital d
    = Ok (positions', capital', trades) →
    ledger_ok positions' ∧ Forall (trade_ok self) trades.
Proof.
  intros self signals price_data positions capital d positions' capital' trades
         Hl H.
  apply (update_positions_high_ok _ price_data d) in Hl.
  unfold day_trades in H. unfold _check_stop_loss in H.
  rewrite stop_loss_fold in H. cbn [app] in H.
  rewrite fold_del_position in H.
  set (ps0 := _update_positions_high positions price_data d) in *.
  set (ps1 := filter _ ps0) in H.
  set (ts1 := (omap _ ps0).*2) in H.
  assert (ledger_ok ps1) as Hl1.
  { destruct Hl as [Hnd Hok]. split; [by apply NoDup_filter_keys|].
    apply Forall_forall. intros e [_ He]%list_elem_of_filter.
    rewrite Forall_forall in Hok. by apply Hok. }
  assert (Forall (trade_ok self) ts1) as Ht1
    by (apply stop_loss_trades_ok, Hl).
  apply bind_Ok in H as ([[ps2 c2] ts2] & Hbuy & H).
  assert (ledger_ok ps2 ∧ Forall (trade_ok self) ts2) as [Hl2 Ht2].
  { destruct (signals !! strftime d) as [buy_signals|].
    - apply bind_Ok in Hbuy as ([[ps c] ts] & Hb & Hr). inversion Hr; subst.
      unfold _execute_buy_signals in Hb.
      apply buy_loop_ok in Hb as [? ?]; [|done|constructor].
      split; [done|]. by apply Forall_app.
    - by inversion Hbuy; subst. }
  destruct (rebalance_weekly self && _is_rebalance_day self d).
  - apply bind_Ok in H as ([[ps c] ts] & Hb & Hr). inversion Hr; subst.
    unfold _execute_weekly_rebalance in Hb.
    destruct ps2 as [|e ps2].
    { inversion Hb; subst. split; [done|]. by apply Forall_app. }
    rewrite rebalance_fold in Hb. cbn [app] in Hb.
    assert (Forall (trade_ok self)
              (omap (rebalance_exit self price_data d (strftime d))
                    (e :: ps2)).*2) as Hts
      by (apply rebalance_trades_ok, Hl2).
    destruct (default [] (signals !! strftime d)) as [|sig sigs].
    + inversion Hb; subst. split; [by split; constructor|].
      by apply Forall_app.
    + apply bind_Ok in Hb as ([[ps' c'] ts'] & Hb & Hr'). inversion Hr'; subst.
      unfold _execute_buy_signals in Hb.
      apply buy_loop_ok in Hb as [? ?];
        [|by split; constructor|constructor].
      split; [done|]. apply Forall_app. split; [done|]. by apply Forall_app.
  - by inversion H; subst.
Qed.

Lemma trade_ok_rate self self' t :
  commission_rate self' = commission_rate self →
  trade_ok self t → trade_ok self' t.
Proof. unfold trade_ok. by intros ->. Qed.

Lemma day_loop_trades_ok signals price_data dates :
  ∀ self positions capital numpy r self',
    ledger_ok positions →
    day_loop self signals price_data positions capital numpy dates = (r, self') →
    ∃ trades,
      trade_history self' = trade_history self ++ trades
      ∧ Forall (trade_ok self) trades.
Proof.
  induction dates as [|d dates IH];
    intros self positions capital numpy r self' Hl H.
  - cbn [day_loop] in H. inversion H; subst. exists [].
    by rewrite app_nil_r.
  - cbn [day_loop] in H.
    destruct (day_trades self signals price_data positions capital d)
      as [[[ps1 c1] ts1]|e] eqn:Hd.
    2:{ inversion H; subst. exists []. by rewrite app_nil_r. }
    destruct (_record_daily_status _ _ _ _ _ _ _) as [self1|e] eqn:Hr.
    2:{ inversion H; subst. exists []. by rewrite app_nil_r. }
    apply day_trades_ledger_ok in Hd as [Hl1 Ht1];
      [|done].
    apply record_daily_status_Ok in Hr
      as (_ & _ & Hrate & _ & _ & _ & Hth & _).
    apply IH in H as (trades & Hth' & Hts); [|done].
    exists (ts1 ++ trades). split.
    + by rewrite Hth', Hth, <- app_assoc.
    + apply Forall_app. split; [done|].
      eapply Forall_impl; [exact Hts|]. intros t. by apply trade_ok_rate.
Qed.

(** X2.  The trades of a day keep the ledger as the engine makes it: one
    position per instrument, each a positive number of whole lots of 100
    shares with a highest price that is at least its entry price.  Every
    trade of the day is for a positive number of whole lots, has an amount of
    price times shares and a commission of amount times the commission rate,
    and, when it is a BUY, carries the reason of a selection signal, no
    profit and no holding days. *)
Theorem day_trades_keeps_ledger_well_formed :
  ∀ (self : BacktestEngine) (signals : Signals) (price_data : PriceData)
    (positions : Positions) (capital : Q) (d : date)
    (positions' : Positions) (capital' : Q) (trades : list trade),
    ledger_ok positions →
    day_trades self signals price_data positions capital d
    = Ok (positions', capital', trades) →
    ledger_ok positions' ∧ Forall (trade_ok self) trades.
Proof. intros. by eapply day_trades_ledger_ok. Qed.

Lemma day_trades_keeps_ledger_witness :
  ∃ positions' capital' trades,
    day_trades (Scenario.engine true) Scenario.two_mondays Scenario.both_priced
               [] 1000000 Scenario.monday1
    = Ok (positions', capital', trades)
    ∧ ledger_ok positions' ∧ Forall (trade_ok (Scenario.engine true)) trades.
Proof.
  eexists _, _, _. split; [vm_compute; reflexivity|].
  eapply (day_trades_keeps_ledger_well_formed
            (Scenario.engine true) Scenario.two_mondays Scenario.both_priced
           [] 1000000 Scenario.monday1).
  - split; constructor.
  - vm_compute. reflexivity.
Defined.

(** X3.  A run only appends to the trade history, whether it ends normally
    or with an exception: the trades the engine held before stay in front,
    untouched, and every trade appended is for a positive number of whole
    lots of 100 shares, has an amount of price times shares and a commission
    of amount times the commission rate, and, when it is a BUY, carries the
    reason of a selection signal, no profit and no holding days. *)
Theorem run_backtest_appends_well_formed_trades :
  ∀ (np_power : npfloat → Q → npfloat) (sqrt_pos : Q → Q)
    (self : BacktestEngine) (signals : Signals) (price_data : PriceData)
    (start_date end_date : option string),
  ∃ trades,
    trade_history (run_backtest np_power sqrt_pos self signals price_data
                                start_date end_date).2
    = trade_history self ++ trades
    ∧ Forall (trade_ok self) trades.
Proof.
  intros np_power sqrt_pos self signals price_data start_date end_date.
  assert (∃ trades, trade_history self = trade_history self ++ trades
                    ∧ Forall (trade_ok self) trades) as Hstop
    by (exists []; by rewrite app_nil_r).
  unfold run_backtest.
  destruct (if rebalance_weekly self then _ else _); [|done].
  destruct (_get_all_trading_dates _ _ _ _) as [all_dates|e]; [|done].
  destruct all_dates as [|d dates]; [done|].
  destruct (day_loop _ _ _ _ _ _ _) as [r1 self1] eqn:Hloop.
  apply day_loop_trades_ok in Hloop as (trades & Hth & Hts);
    [|by split; constructor].
  destruct r1 as [[]|e]; [|cbn [snd]; eauto].
  destruct (_calculate_results _ _ _ _) as [self2|e] eqn:Hres;
    [|cbn [snd]; eauto].
  cbn [snd]. apply calculate_results_Ok in Hres as (_ & -> & _). eauto.
Qed.

(** ** The highest price of a position *)

(** X4.  [_update_positions_high] touches nothing but the highest price: the
    ledger keeps its instruments in their order, and every position keeps its
    shares, entry price, entry date and name.  The highest price never goes
    down; for a position with a bar on the date it becomes the greater of the
    old highest price and the close, and a position without a bar is left as
    it is.  Updating a second time on the same date changes nothing. *)
Theorem update_positions_high_raises_only_max_price :
  ∀ (positions : Positions) (price_data : PriceData) (d : date),
    Forall2
      (λ e e' : string * position,
         e'.1 = e.1
         ∧ shares e'.2 = shares e.2 ∧ avg_price e'.2 = avg_price e.2
         ∧ buy_date e'.2 = buy_date e.2 ∧ pos_name e'.2 = pos_name e.2
         ∧ (max_price e.2 <= max_price e'.2)%Q
         ∧ match close_on price_data e.1 d with
           | Some p =>
               (p <= max_price e'.2)%Q
               ∧ (max_price e'.2 = p ∨ max_price e'.2 = max_price e.2)
           | None => e' = e
           end)
      positions (_update_positions_high positions price_data d)
    ∧ _update_positions_high (_update_positions_high positions price_data d)
                             price_data d
      = _update_positions_high positions price_data d.
Proof.
  intros positions price_data d. unfold _update_positions_high.
  induction positions as [|[c pos] positions [IH1 IH2]]; [by split|].
  cbn [map]. split.
  - constructor; [|exact IH1]. cbn [fst snd].
    destruct (close_on price_data c d) as [p|] eqn:Hp;
      [|cbn [fst snd]; repeat split; try done; lra].
    destruct (Qlt_bool (max_price pos) p) eqn:Hlt; cbn [fst snd max_price].
    + apply Qlt_bool_iff in Hlt. repeat split; try done; try lra. by left.
    + apply Qlt_bool_false in Hlt. repeat split; try done; try lra. by right.
  - rewrite IH2. f_equal.
    destruct (close_on price_data c d) as [p|] eqn:Hp; [|by rewrite Hp].
    destruct (Qlt_bool (max_price pos) p) eqn:Hlt; rewrite Hp.
    + cbn [max_price].
      by rewrite (proj2 (Qlt_bool_false p p)) by lra.
    + by rewrite Hlt.
Qed.

(** ** The order of the trading dates *)

#[local] Instance date_le_total : Total date_le.
Proof.
  intros a b. unfold date_le, date_leb.
  repeat case_decide; rewrite !bool_decide_eq_true; lia.
Qed.

#[local] Instance date_le_trans : Transitive date_le.
Proof.
  intros a b c. unfold date_le, date_leb.
  repeat case_decide; rewrite !bool_decide_eq_true; lia.
Qed.

#[local] Instance date_le_antisymm : AntiSymm (=) date_le.
Proof.
  intros [y1 m1 d1] [y2 m2 d2]. unfold date_le, date_leb. cbn [year month day].
  repeat case_decide; rewrite !bool_decide_eq_true; intros; f_equal; lia.
Qed.

Lemma StronglySorted_filter {A} (R : relation A) (P : A → Prop)
    `{∀ x, Decision (P x)} (l : list A) :
  StronglySorted R l → StronglySorted R (filter P l).
Proof.
  induction 1 as [|x l Hl IH Hx]; [constructor|].
  rewrite filter_cons. case_decide; [|done].
  constructor; [done|]. rewrite Forall_forall in Hx.
  apply Forall_forall. intros y [_ Hy]%list_elem_of_filter. by apply Hx.
Qed.

Lemma bound_filter_filter keep bound l l' :
  bound_filter keep bound l = Ok l' →
  l' = l ∨ ∃ dt, l' = filter (λ d, keep d dt = true) l.
Proof.
  unfold bound_filter. destruct bound as [s|]; [|intros [= <-]; by left].
  destruct s as [|a s]; [intros [= <-]; by left|].
  destruct (strptime (String a s)) as [dt|e]; [|done].
  intros [= <-]. right. by exists dt.
Qed.

Lemma StronglySorted_date_lt (l : list date) :
  StronglySorted date_le l → NoDup l → StronglySorted date_lt l.
Proof.
  induction 1 as [|x l Hl IH Hx]; [constructor|].
  intros [Hxl Hnd]%NoDup_cons. constructor; [by apply IH|].
  apply Forall_forall. intros y Hy. rewrite Forall_forall in Hx.
  split; [by apply Hx|]. by intros ->.
Qed.

(** X5.  The trading dates come out in strictly ascending order, each date
    once, whatever the bounds. *)
Theorem trading_dates_strictly_ascending :
  ∀ (signals : Signals) (price_data : PriceData)
    (start_date end_date : option string) (dates : list date),
    _get_all_trading_dates signals price_data start_date end_date = Ok dates →
    StronglySorted date_lt dates ∧ NoDup dates.
Proof.
  intros signals price_data start_date end_date dates H.
  unfold _get_all_trading_dates in H.
  apply bind_Ok in H as (l1 & H1 & H). apply bind_Ok in H as (l2 & H2 & H).
  inversion H; subst l2; clear H.
  set (l0 := merge_sort date_le
               (elements (signal_dates signals ∪ price_dates price_data))) in *.
  assert (StronglySorted date_le l0 ∧ NoDup l0) as [Hs0 Hn0].
  { split; [apply StronglySorted_merge_sort; apply _|].
    unfold l0. rewrite merge_sort_Permutation. apply NoDup_elements. }
  assert (StronglySorted date_le l1 ∧ NoDup l1) as [Hs1 Hn1].
  { apply bound_filter_filter in H1 as [->|[dt ->]]; [done|].
    split; [by apply StronglySorted_filter|by apply NoDup_filter]. }
  assert (StronglySorted date_le dates ∧ NoDup dates) as [Hs2 Hn2].
  { apply bound_filter_filter in H2 as [->|[dt ->]]; [done|].
    split; [by apply StronglySorted_filter|by apply NoDup_filter]. }
  split; [by apply StronglySorted_date_lt|done].
Qed.

Lemma trading_dates_strictly_ascending_witness :
  StronglySorted date_lt [Scenario.monday1; Scenario.monday2]
  ∧ NoDup [Scenario.monday1; Scenario.monday2].
Proof.
  apply (trading_dates_strictly_ascending
           Scenario.two_mondays Scenario.both_priced None None).
  vm_compute. reflexivity.
Defined.

(** ** Date strings *)

Lemma digit_of_digit_char (n : Z) : digit_of (digit_char n) = Some (n mod 10).
Proof.
  unfold digit_char. pose proof (Z.mod_pos_bound n 10 ltac:(lia)) as Hk.
  remember (n mod 10) as k eqn:E. clear E.
  assert (k = 0 ∨ k = 1 ∨ k = 2 ∨ k = 3 ∨ k = 4 ∨ k = 5 ∨ k = 6 ∨ k = 7
          ∨ k = 8 ∨ k = 9) as Hc by lia.
  repeat destruct Hc as [->|Hc]; try subst k; reflexivity.
Qed.

Lemma parse_month_pad2 (m : Z) (rest : string) :
  1 ≤ m ≤ 12 →
  parse_month (pad2 m +:+ "-" +:+ rest) = Some (m, rest).
Proof.
  intros Hm.
  assert (m = 1 ∨ m = 2 ∨ m = 3 ∨ m = 4 ∨ m = 5 ∨ m = 6 ∨ m = 7 ∨ m = 8
          ∨ m = 9 ∨ m = 10 ∨ m = 11 ∨ m = 12) as Hc by lia.
  repeat destruct Hc as [->|Hc]; try subst m; reflexivity.
Qed.

Lemma parse_day_pad2 (d : Z) : 1 ≤ d ≤ 31 → parse_day (pad2 d) = Some d.
Proof.
  intros Hd.
  assert (d = 1 ∨ d = 2 ∨ d = 3 ∨ d = 4 ∨ d = 5 ∨ d = 6 ∨ d = 7 ∨ d = 8
          ∨ d = 9 ∨ d = 10 ∨ d = 11 ∨ d = 12 ∨ d = 13 ∨ d = 14 ∨ d = 15
          ∨ d = 16 ∨ d = 17 ∨ d = 18 ∨ d = 19 ∨ d = 20 ∨ d = 21 ∨ d = 22
          ∨ d = 23 ∨ d = 24 ∨ d = 25 ∨ d = 26 ∨ d = 27 ∨ d = 28 ∨ d = 29
          ∨ d = 30 ∨ d = 31) as Hc by lia.
  repeat destruct Hc as [->|Hc]; try subst d; reflexivity.
Qed.

Lemma days_in_month_le (y m : Z) : _days_in_month y m ≤ 31.
Proof.
  unfold _days_in_month, _DAYS_IN_MONTH.
  destruct (_ && _); [lia|].
  destruct m as [|p|p]; try lia.
  do 4 (destruct p as [p|p|]; try lia).
Qed.

Lemma valid_ymd_bounds (y m d : Z) :
  valid_ymd y m d = true →
  1 ≤ y ≤ 9999 ∧ 1 ≤ m ≤ 12 ∧ 1 ≤ d ≤ 31.
Proof.
  unfold valid_ymd. rewrite !andb_true_iff, !Z.leb_le.
  pose proof (days_in_month_le y m). lia.
Qed.

Lemma four_digits (y : Z) :
  0 ≤ y ≤ 9999 →
  1000 * ((y / 1000) mod 10) + 100 * ((y / 100) mod 10)
  + 10 * ((y / 10) mod 10) + y mod 10 = y.
Proof.
  intros H.
  assert (y / 1000 = y / 10 / 10 / 10) as ->
    by (rewrite !Z.div_div by lia; reflexivity).
  assert (y / 100 = y / 10 / 10) as ->
    by (rewrite !Z.div_div by lia; reflexivity).
  pose proof (Z.div_mod y 10 ltac:(lia)) as E1.
  pose proof (Z.mod_pos_bound y 10 ltac:(lia)) as B1.
  set (a := y / 10) in *.
  pose proof (Z.div_mod a 10 ltac:(lia)) as E2.
  pose proof (Z.mod_pos_bound a 10 ltac:(lia)) as B2.
  set (b := a / 10) in *.
  pose proof (Z.div_mod b 10 ltac:(lia)) as E3.
  pose proof (Z.mod_pos_bound b 10 ltac:(lia)) as B3.
  set (c := b / 10) in *.
  rewrite (Z.mod_small c 10) by lia. lia.
Qed.

Lemma strftime_shape (d : date) :
  strftime d
  = String (digit_char (year d / 1000))
      (String (digit_char (year d / 100))
         (String (digit_char (year d / 10))
            (String (digit_char (year d))
               (String "-" (pad2 (month d) +:+ "-" +:+ pad2 (day d)))))).
Proof. reflexivity. Qed.

(** X6.  Writing a date as a string and reading the string back gives the
    date again, for every calendar date from the year 1000 on: the text under
    which the loop looks up the signals of a trading date parses to that
    date. *)
Theorem strptime_strftime_round_trip :
  ∀ (d : date),
    valid_ymd (year d) (month d) (day d) = true →
    1000 ≤ year d →
    strptime (strftime d) = Ok d.
Proof.
  intros [y m dd]. cbn [year month day]. intros Hv Hy.
  pose proof (valid_ymd_bounds _ _ _ Hv) as (Hy' & Hm & Hd).
  rewrite strftime_shape. cbn [year month day].
  unfold strptime. rewrite !digit_of_digit_char.
  rewrite parse_month_pad2 by done. rewrite parse_day_pad2 by done.
  rewrite four_digits by lia. by rewrite Hv.
Qed.

Lemma strptime_strftime_round_trip_witness :
  strptime (strftime Scenario.monday2) = Ok Scenario.monday2.
Proof.
  apply (strptime_strftime_round_trip Scenario.monday2);
    [vm_compute; reflexivity | vm_compute; discriminate].
Defined.

(** ** What a run reads of the signal feed *)

Lemma day_trades_signals_ext self signals signals' price_data positions capital d :
  signals !! strftime d = signals' !! strftime d →
  day_trades self signals price_data positions capital d
  = day_trades self signals' price_data positions capital d.
Proof. intros H. unfold day_trades. by rewrite H. Qed.

Lemma day_loop_signals_ext signals signals' price_data dates :
  (∀ d, d ∈ dates → signals !! strftime d = signals' !! strftime d) →
  ∀ self positions capital numpy,
    day_loop self signals price_data positions capital numpy dates
    = day_loop self signals' price_data positions capital numpy dates.
Proof.
  induction dates as [|d dates IH]; intros H self positions capital numpy;
    [done|].
  cbn [day_loop].
  rewrite (day_trades_signals_ext self signals signals')
    by (apply H; constructor).
  destruct (day_trades self signals' price_data positions capital d)
    as [[[ps c] ts]|e]; [|done].
  destruct (_record_daily_status _ _ _ _ _ _ _) as [self1|e]; [|done].
  apply IH. intros d' Hd'. apply H. by constructor.
Qed.

Lemma run_backtest_signals_ext np_power sqrt_pos self signals signals'
    price_data start_date end_date :
  signal_dates signals = signal_dates signals' →
  (∀ d, signals !! strftime d = signals' !! strftime d) →
  run_backtest np_power sqrt_pos self signals price_data start_date end_date
  = run_backtest np_power sqrt_pos self signals' price_data start_date end_date.
Proof.
  intros Hdates Hlook. unfold run_backtest, _get_all_trading_dates.
  rewrite Hdates.
  destruct (if rebalance_weekly self then _ else _); [|done].
  destruct (_ ≫= _) as [all_dates|e]; [|done].
  destruct all_dates as [|d dates]; [done|].
  by rewrite (day_loop_signals_ext signals signals') by (intros; apply Hlook).
Qed.

(** X7.  The signals of a key that is not the zero-padded text of a date,
    such as 2024-1-8, are never read: the key may still parse, and then
    makes its day a trading day, but the loop looks the signals up under
    the zero-padded text only, so that a run gives the same outcome
    whatever list stands under the key. *)
Theorem signals_under_unpadded_key_never_read :
  ∀ (np_power : npfloat → Q → npfloat) (sqrt_pos : Q → Q)
    (self : BacktestEngine) (signals : Signals) (price_data : PriceData)
    (start_date end_date : option string) (k : string)
    (sigs sigs' : list signal),
    (∀ d, strftime d ≠ k) →
    run_backtest np_power sqrt_pos self (<[k := sigs]> signals) price_data
                 start_date end_date
    = run_backtest np_power sqrt_pos self (<[k := sigs']> signals) price_data
                   start_date end_date.
Proof.
  intros np_power sqrt_pos self signals price_data start_date end_date k
         sigs sigs' Hk.
  apply run_backtest_signals_ext.
  - apply set_eq. intros d. rewrite !elem_of_signal_dates.
    split; intros (k' & v & Hl & Hd);
      (destruct (decide (k = k')) as [<-|Hne];
       [eexists k, _; split; [apply lookup_insert_eq|done]
       |exists k', v; split; [|done];
        rewrite lookup_insert_ne by done; by rewrite lookup_insert_ne in Hl]).
  - intros d. by rewrite !lookup_insert_ne by (intros ->; by apply (Hk d)).
Qed.

Lemma signals_under_unpadded_key_witness :
  run_backtest Scenario.no_power Scenario.no_sqrt (Scenario.engine false)
               (<["2024-1-8" := [Scenario.sigB]]> Scenario.first_monday_only)
               Scenario.both_priced None None
  = run_backtest Scenario.no_power Scenario.no_sqrt (Scenario.engine false)
                 (<["2024-1-8" := []]> Scenario.first_monday_only)
                 Scenario.both_priced None None.
Proof.
  apply (signals_under_unpadded_key_never_read
           Scenario.no_power Scenario.no_sqrt (Scenario.engine false)
           Scenario.first_monday_only Scenario.both_priced None None
           "2024-1-8" [Scenario.sigB] []).
  intros d H. apply (f_equal String.length) in H. vm_compute in H.
  discriminate.
Defined.

(** ** A rebalance weekday outside the week *)

Lemma weekday_range (d : date) : 0 ≤ weekday d ≤ 6.
Proof. unfold weekday. pose proof (Z.mod_pos_bound (toordinal d + 6) 7). lia. Qed.

Lemma day_trades_without_rebalance self signals price_data positions capital d :
  rebalance_day self < 0 ∨ 6 < rebalance_day self →
  day_trades (without_rebalance self) signals price_data positions capital d
  = day_trades self signals price_data positions capital d.
Proof.
  intros Hday. unfold day_trades.
  replace (rebalance_weekly self && _is_rebalance_day self d) with false.
  2:{ unfold _is_rebalance_day. pose proof (weekday_range d).
      rewrite (proj2 (Z.eqb_neq _ _)) by lia. by rewrite andb_false_r. }
  by destruct self.
Qed.

Lemma record_daily_status_without_rebalance self date_str positions capital pv
    numpy trades :
  _record_daily_status (without_rebalance self) date_str positions capital pv
                       numpy trades
  = (self1 ← _record_daily_status self date_str positions capital pv numpy
                                   trades;
     Ok (without_rebalance self1)).
Proof.
  unfold _record_daily_status. destruct self.
  cbn [without_rebalance initial_capital]. by destruct (_ && _).
Qed.

Lemma day_loop_without_rebalance signals price_data dates :
  ∀ self positions capital numpy,
    rebalance_day self < 0 ∨ 6 < rebalance_day self →
    day_loop (without_rebalance self) signals price_data positions capital
             numpy dates
    = ((day_loop self signals price_data positions capital numpy dates).1,
       without_rebalance
         (day_loop self signals price_data positions capital numpy dates).2).
Proof.
  induction dates as [|d dates IH]; intros self positions capital numpy Hday;
    [done|].
  cbn [day_loop]. rewrite day_trades_without_rebalance by done.
  destruct (day_trades self signals price_data positions capital d)
    as [[[ps c] ts]|e]; [|done].
  rewrite record_daily_status_without_rebalance.
  destruct (_record_daily_status self _ _ _ _ _ _) as [self1|e] eqn:Hr;
    [|done].
  cbn [mbind result_bind].
  apply record_daily_status_Ok in Hr as (_ & _ & _ & _ & Hrd & _).
  apply IH. by rewrite Hrd.
Qed.

Lemma calculate_results_without_rebalance np_power sqrt_pos self all_dates :
  _calculate_results np_power sqrt_pos (without_rebalance self) all_dates
  = (self1 ← _calculate_results np_power sqrt_pos self all_dates;
     Ok (without_rebalance self1)).
Proof.
  unfold _calculate_results. destruct self as [ic sl cr rw rd rs ph th].
  cbn [without_rebalance portfolio_history trade_history initial_capital].
  destruct ph as [|rec recs]; [done|].
  destruct (last all_dates), (head all_dates); try done.
  by destruct th.
Qed.

(** X8.  The engine accepts a rebalance weekday outside 0 to 6 but never
    rebalances on it.  With the weekly rebalance on, a weekday below -7 or
    above 6 makes every run stop with an [IndexError] at the start-up
    message, before any date is read.  A weekday from -7 to -1 passes the
    message (Python indexes the list of day names from its end), and the run
    then is the run of the same engine with the rebalance off: the same
    outcome, and the same histories and result in the engine. *)
Theorem rebalance_day_outside_week_never_rebalances :
  ∀ (np_power : npfloat → Q → npfloat) (sqrt_pos : Q → Q)
    (self : BacktestEngine) (signals : Signals) (price_data : PriceData)
    (start_date end_date : option string),
    (rebalance_weekly self = true →
     rebalance_day self < -7 ∨ 6 < rebalance_day self →
     run_backtest np_power sqrt_pos self signals price_data start_date end_date
     = (Raise IndexError, self))
    ∧ (-7 ≤ rebalance_day self < 0 →
       run_backtest np_power sqrt_pos (without_rebalance self) signals
                    price_data start_date end_date
       = ((run_backtest np_power sqrt_pos self signals price_data start_date
                        end_date).1,
          without_rebalance
            (run_backtest np_power sqrt_pos self signals price_data start_date
                          end_date).2)).
Proof.
  intros np_power sqrt_pos self signals price_data start_date end_date. split.
  - intros Hw Hday. unfold run_backtest, day_names_index. rewrite Hw.
    destruct (decide (rebalance_day self < -7)).
    + by rewrite (proj2 (Z.leb_gt _ _)) by lia.
    + rewrite (proj2 (Z.leb_gt (rebalance_day self) 6)) by lia.
      by rewrite andb_false_r.
  - intros Hday. unfold run_backtest.
    replace (if rebalance_weekly (without_rebalance self)
             then day_names_index (rebalance_day (without_rebalance self))
             else Ok ()) with (Ok ()) by by destruct self.
    replace (if rebalance_weekly self
             then day_names_index (rebalance_day self) else Ok ())
      with (Ok ()).
    2:{ unfold day_names_index. destruct (rebalance_weekly self); [|done].
        rewrite (proj2 (Z.leb_le (-7) _)) by lia.
        by rewrite (proj2 (Z.leb_le _ 6)) by lia. }
    destruct (_get_all_trading_dates _ _ _ _) as [all_dates|e]; [|done].
    destruct all_dates as [|d dates]; [done|].
    replace (initial_capital (without_rebalance self))
      with (initial_capital self) by by destruct self.
    rewrite day_loop_without_rebalance by lia.
    destruct (day_loop self signals price_data [] (initial_capital self) false
                       (d :: dates)) as [[[]|e] self1]; [|done].
    cbn [fst snd]. rewrite calculate_results_without_rebalance.
    destruct (_calculate_results np_power sqrt_pos self1 (d :: dates))
      as [self2|e]; [|done].
    cbn [mbind result_bind fst snd]. by destruct self2.
Qed.

Lemma rebalance_day_outside_week_witness :
  run_backtest Scenario.no_power Scenario.no_sqrt
               (without_rebalance negative_day_engine) Scenario.two_mondays
               Scenario.both_priced None None
  = ((run_backtest Scenario.no_power Scenario.no_sqrt negative_day_engine
                   Scenario.two_mondays Scenario.both_priced None None).1,
     without_rebalance
       (run_backtest Scenario.no_power Scenario.no_sqrt negative_day_engine
                     Scenario.two_mondays Scenario.both_priced None None).2).
Proof.
  apply (proj2 (rebalance_day_outside_week_never_rebalances
                  Scenario.no_power Scenario.no_sqrt negative_day_engine
                  Scenario.two_mondays Scenario.both_priced None None)).
  cbn [rebalance_day negative_day_engine]. lia.
Defined.

(** ** A run without price bars *)

Lemma buy_loop_no_bars self price_data d date_str n buy_signals st :
  (∀ c, close_on price_data c d = None) →
  foldM (buy_step self price_data d date_str n) st buy_signals = Ok st.
Proof.
  intros Hno. induction buy_signals as [|sig sigs IH]; [done|].
  destruct st as [[positions capital] trades]. cbn [foldM].
  rewrite buy_step_skip by (right; apply Hno). exact IH.
Qed.

Lemma day_trades_no_bars self signals price_data capital d :
  (∀ c, close_on price_data c d = None) →
  day_trades self signals price_data [] capital d = Ok ([], capital, []).
Proof.
  intros Hno. unfold day_trades, _update_positions_high, _check_stop_loss.
  cbn [map fold_left mbind result_bind].
  destruct (signals !! strftime d) as [buy_signals|];
    cbn [default from_option id].
  - unfold _execute_buy_signals. rewrite buy_loop_no_bars by done.
    cbn [mbind result_bind app]. by destruct (_ && _).
  - by destruct (_ && _).
Qed.

Lemma day_loop_no_bars signals price_data dates :
  (∀ c d, close_on price_data c d = None) →
  ∀ self capital r self',
    day_loop self signals price_data [] capital false dates = (r, self') →
    trade_history self' = trade_history self
    ∧ ∃ recs,
        portfolio_history self' = portfolio_history self ++ recs
        ∧ Forall (λ rec, cash rec = capital ∧ portfolio_value rec = capital
                         ∧ positions_count rec = 0%nat) recs.
Proof.
  intros Hno. induction dates as [|d dates IH]; intros self capital r self' H.
  - inversion H; subst. split; [done|]. exists []. by rewrite app_nil_r.
  - cbn [day_loop] in H. rewrite day_trades_no_bars in H by done.
    cbn [length orb negb] in H. rewrite bool_decide_eq_true_2 in H by done.
    cbn [negb] in H.
    destruct (_record_daily_status _ _ _ _ _ _ _) as [self1|e] eqn:Hr.
    2:{ inversion H; subst. split; [done|]. exists []. by rewrite app_nil_r. }
    apply record_daily_status_Ok in Hr
      as (_ & _ & _ & _ & _ & _ & Hth & rec & Hph & _ & Hc & Hn & Hv).
    apply IH in H as (Hth' & recs & Hph' & Hrecs).
    split; [by rewrite Hth', Hth, app_nil_r|].
    exists (rec :: recs). split.
    + by rewrite Hph', Hph, <- app_assoc.
    + constructor; [|done]. by rewrite Hc, Hn, Hv.
Qed.

Lemma prepare_backtest_data_lookup history (signals : Signals) k :
  fold_left (λ (signals : Signals) (entry : string * list signal),
               <[entry.1 := entry.2]> signals) history signals !! k
  = match last (filter (λ e : string * list signal, e.1 = k) history) with
    | Some e => Some e.2
    | None => signals !! k
    end.
Proof.
  revert signals. induction history as [|[k' v] history IH]; intros signals;
    [done|].
  cbn [fold_left]. rewrite IH, filter_cons.
  destruct (decide ((k', v).1 = k)) as [Hk|Hk]; cbn [fst snd] in *.
  - subst k'. rewrite last_cons.
    destruct (last (filter _ history)); [done|]. by rewrite lookup_insert_eq.
  - destruct (last (filter _ history)); [done|]. by rewrite lookup_insert_ne.
Qed.

(** X9.  [prepare_backtest_data] keeps, for each date, the stock list of the
    last entry of the history that names the date, and returns no price
    data at all.  A run on what it returns therefore makes no trade: the
    trade history is left as it was, and every snapshot the run records
    shows no position and a cash and a portfolio value equal to the initial
    capital. *)
Theorem prepare_backtest_data_run_makes_no_trade :
  ∀ (np_power : npfloat → Q → npfloat) (sqrt_pos : Q → Q)
    (self : BacktestEngine) (selected_stocks_history : list (string * list signal))
    (data_start : string) (data_end : option string)
    (start_date end_date : option string),
    let data := prepare_backtest_data selected_stocks_history data_start
                                      data_end in
    let out := run_backtest np_power sqrt_pos self data.1 data.2 start_date
                            end_date in
    (∀ k, data.1 !! k
          = snd <$> last (filter (λ e : string * list signal, e.1 = k)
                                 selected_stocks_history))
    ∧ data.2 = ∅
    ∧ trade_history out.2 = trade_history self
    ∧ ∃ recs,
        portfolio_history out.2 = portfolio_history self ++ recs
        ∧ Forall (λ rec, cash rec = initial_capital self
                         ∧ portfolio_value rec = initial_capital self
                         ∧ positions_count rec = 0%nat) recs.
Proof.
  intros np_power sqrt_pos self history data_start data_end start_date end_date
         data out.
  split; [|split; [done|]].
  { intros k. unfold data, prepare_backtest_data. cbn [fst].
    rewrite prepare_backtest_data_lookup, lookup_empty.
    by destruct (last _). }
  assert (trade_history self = trade_history self
          ∧ ∃ recs, portfolio_history self = portfolio_history self ++ recs
              ∧ Forall (λ rec, cash rec = initial_capital self
                               ∧ portfolio_value rec = initial_capital self
                               ∧ positions_count rec = 0%nat) recs) as Hstop
    by (split; [done|]; exists []; by rewrite app_nil_r).
  unfold out, run_backtest.
  destruct (if rebalance_weekly self then _ else _); [|done].
  destruct (_get_all_trading_dates _ _ _ _) as [all_dates|e]; [|done].
  destruct all_dates as [|d dates]; [done|].
  destruct (day_loop _ _ _ _ _ _ _) as [r1 self1] eqn:Hloop.
  apply day_loop_no_bars in Hloop as (Hth & recs & Hph & Hrecs).
  2:{ intros c d'. unfold close_on, data, prepare_backtest_data. cbn [snd].
      by rewrite lookup_empty. }
  destruct r1 as [[]|e]; [|cbn [snd]; eauto].
  destruct (_calculate_results _ _ _ _) as [self2|e] eqn:Hres;
    [|cbn [snd]; eauto].
  cbn [snd]. apply calculate_results_Ok in Hres as (-> & -> & _). eauto.
Qed.

(** ** The snapshots of a run *)

Lemma day_loop_dates signals price_data dates :
  ∀ self positions capital numpy r self',
    day_loop self signals price_data positions capital numpy dates = (r, self') →
    ∃ recs,
      portfolio_history self' = portfolio_history self ++ recs
      ∧ map r_date recs `prefix_of` map strftime dates
      ∧ (r = Ok () → map r_date recs = map strftime dates).
Proof.
  induction dates as [|d dates IH];
    intros self positions capital numpy r self' H.
  - inversion H; subst. exists []. by rewrite app_nil_r.
  - cbn [day_loop] in H.
    destruct (day_trades self signals price_data positions capital d)
      as [[[ps1 c1] ts1]|e] eqn:Hd.
    2:{ inversion H; subst. exists []. rewrite app_nil_r.
        split; [done|]. split; [apply prefix_nil|done]. }
    destruct (_record_daily_status _ _ _ _ _ _ _) as [self1|e] eqn:Hr.
    2:{ inversion H; subst. exists []. rewrite app_nil_r.
        split; [done|]. split; [apply prefix_nil|done]. }
    apply record_daily_status_Ok in Hr
      as (_ & _ & _ & _ & _ & _ & _ & rec & Hph & Hdate & _).
    apply IH in H as (recs & Hph' & Hpre & Hall).
    exists (rec :: recs). split; [by rewrite Hph', Hph, <- app_assoc|].
    cbn [map]. rewrite Hdate. split.
    + by apply prefix_cons.
    + intros Hok. by rewrite (Hall Hok).
Qed.

(** X10.  A run records one snapshot for each trading date, in the order of
    the dates and under the zero-padded text of the date: a run that ends
    normally has appended exactly one snapshot per trading date to the
    portfolio history, and a run that ends with an exception has appended
    the snapshots of the dates before the one that failed. *)
Theorem run_backtest_one_snapshot_per_trading_date :
  ∀ (np_power : npfloat → Q → npfloat) (sqrt_pos : Q → Q)
    (self : BacktestEngine) (signals : Signals) (price_data : PriceData)
    (start_date end_date : option string) (dates : list date),
    _get_all_trading_dates signals price_data start_date end_date = Ok dates →
    ∃ recs,
      portfolio_history
        (run_backtest np_power sqrt_pos self signals price_data start_date
                      end_date).2
      = portfolio_history self ++ recs
      ∧ map r_date recs `prefix_of` map strftime dates
      ∧ (∀ res,
           (run_backtest np_power sqrt_pos self signals price_data start_date
                         end_date).1 = Ok res →
           map r_date recs = map strftime dates).
Proof.
  intros np_power sqrt_pos self signals price_data start_date end_date dates
         Hdates.
  assert (∃ recs, portfolio_history self = portfolio_history self ++ recs
            ∧ map r_date recs `prefix_of` map strftime dates
            ∧ (∀ res : option Results,
                 @Raise (option Results) IndexError = Ok res →
                 map r_date recs = map strftime dates)) as Hstop.
  { exists []. rewrite app_nil_r. split; [done|].
    split; [apply prefix_nil|done]. }
  unfold run_backtest. rewrite Hdates.
  destruct (if rebalance_weekly self then _ else _) as [[]|e].
  2:{ exists []. rewrite app_nil_r. cbn [fst snd]. split; [done|].
      split; [apply prefix_nil|done]. }
  destruct dates as [|d dates]; [exact Hstop|].
  destruct (day_loop _ _ _ _ _ _ _) as [r1 self1] eqn:Hloop.
  apply day_loop_dates in Hloop as (recs & Hph & Hpre & Hall).
  destruct r1 as [[]|e]; [|exists recs; cbn [fst snd]; by repeat split].
  destruct (_calculate_results _ _ _ _) as [self2|e] eqn:Hres;
    [|exists recs; cbn [fst snd]; by repeat split].
  cbn [fst snd]. apply calculate_results_Ok in Hres as (-> & _ & _).
  exists recs. repeat split; [done..|]. intros _ _. by apply Hall.
Qed.

Lemma run_backtest_one_snapshot_witness :
  ∃ recs,
    portfolio_history
      (run_backtest Scenario.no_power Scenario.no_sqrt (Scenario.engine true)
                    Scenario.two_mondays Scenario.both_priced None None).2
    = portfolio_history (Scenario.engine true) ++ recs
    ∧ map r_date recs
      `prefix_of` map strftime [Scenario.monday1; Scenario.monday2]
    ∧ (∀ res,
         (run_backtest Scenario.no_power Scenario.no_sqrt (Scenario.engine true)
                       Scenario.two_mondays Scenario.both_priced None None).1
         = Ok res →
         map r_date recs = map strftime [Scenario.monday1; Scenario.monday2]).
Proof.
  apply (run_backtest_one_snapshot_per_trading_date
           Scenario.no_power Scenario.no_sqrt (Scenario.engine true)
           Scenario.two_mondays Scenario.both_priced None None
           [Scenario.monday1; Scenario.monday2]).
  vm_compute. reflexivity.
Defined.

(** ** The end of the horizon *)

Lemma filter_none {A} (P : A → Prop) `{∀ x, Decision (P x)} (l : list A) :
  Forall (λ x, ¬ P x) l → filter P l = [].
Proof.
  induction 1 as [|x l Hx _ IH]; [done|].
  by rewrite filter_cons, decide_False.
Qed.

Lemma filter_until_prefix (e : date) (l : list date) :
  StronglySorted date_le l →
  filter (λ d, date_leb d e = true) l `prefix_of` l.
Proof.
  induction 1 as [|x l Hl IH Hx]; [done|].
  rewrite filter_cons. case_decide as Hxe; [by apply prefix_cons|].
  rewrite filter_none; [apply prefix_nil|].
  rewrite Forall_forall in Hx. apply Forall_forall. intros y Hy Hye.
  apply Hxe. change (date_le x e). by trans y; [apply Hx|].
Qed.

Lemma trading_dates_end_prefix signals price_data start_date end_date dates :
  _get_all_trading_dates signals price_data start_date end_date = Ok dates →
  ∃ all_dates,
    _get_all_trading_dates signals price_data start_date None = Ok all_dates
    ∧ dates `prefix_of` all_dates.
Proof.
  unfold _get_all_trading_dates. intros H.
  apply bind_Ok in H as (l1 & H1 & H). apply bind_Ok in H as (l2 & H2 & H).
  inversion H; subst l2; clear H. rewrite H1. exists l1. split; [done|].
  apply bound_filter_filter in H2 as [->|[dt ->]]; [done|].
  apply filter_until_prefix.
  apply bound_filter_filter in H1 as [->|[dt' ->]].
  - apply StronglySorted_merge_sort; apply _.
  - apply StronglySorted_filter, StronglySorted_merge_sort; apply _.
Qed.

Lemma day_loop_prefix signals price_data dates rest :
  ∀ self positions capital numpy,
    portfolio_history
      (day_loop self signals price_data positions capital numpy dates).2
    `prefix_of`
    portfolio_history
      (day_loop self signals price_data positions capital numpy
                (dates ++ rest)).2
    ∧ trade_history
        (day_loop self signals price_data positions capital numpy dates).2
      `prefix_of`
      trade_history
        (day_loop self signals price_data positions capital numpy
                  (dates ++ rest)).2.
Proof.
  induction dates as [|d dates IH]; intros self positions capital numpy.
  - cbn [day_loop app snd].
    destruct (day_loop self signals price_data positions capital numpy rest)
      as [r self'] eqn:H.
    cbn [snd]. apply day_loop_inv in H as (recs & trades & -> & -> & _).
    split; by eexists.
  - cbn [day_loop app].
    destruct (day_trades self signals price_data positions capital d)
      as [[[ps1 c1] ts1]|e]; [|done].
    destruct (_record_daily_status _ _ _ _ _ _ _) as [self1|e]; [|done].
    apply IH.
Qed.

(** X11.  An end date only cuts a run short, it changes nothing before it:
    the snapshots and the trades in the engine after a run with an end date
    are the first snapshots and trades in the engine after the run of the
    same engine on the same data without the end date. *)
Theorem run_backtest_end_date_only_truncates :
  ∀ (np_power : npfloat → Q → npfloat) (sqrt_pos : Q → Q)
    (self : BacktestEngine) (signals : Signals) (price_data : PriceData)
    (start_date end_date : option string),
    portfolio_history
      (run_backtest np_power sqrt_pos self signals price_data start_date
                    end_date).2
    `prefix_of`
    portfolio_history
      (run_backtest np_power sqrt_pos self signals price_data start_date None).2
    ∧ trade_history
        (run_backtest np_power sqrt_pos self signals price_data start_date
                      end_date).2
      `prefix_of`
      trade_history
        (run_backtest np_power sqrt_pos self signals price_data start_date
                      None).2.
Proof.
  intros np_power sqrt_pos self signals price_data start_date end_date.
  assert (portfolio_history self
          `prefix_of`
          portfolio_history
            (run_backtest np_power sqrt_pos self signals price_data start_date
                          None).2
          ∧ trade_history self
            `prefix_of`
            trade_history
              (run_backtest np_power sqrt_pos self signals price_data
                            start_date None).2) as Hstop.
  { destruct (run_backtest_cash np_power sqrt_pos self signals price_data
                start_date None _ _ (surjective_pairing _))
      as (recs & trades & -> & -> & _).
    split; by eexists. }
  unfold run_backtest at 1 3.
  destruct (if rebalance_weekly self then _ else _) as [[]|e] eqn:Hidx;
    [|exact Hstop].
  destruct (_get_all_trading_dates signals price_data start_date end_date)
    as [dates|e] eqn:Hdates; [|exact Hstop].
  destruct dates as [|d dates]; [exact Hstop|].
  apply trading_dates_end_prefix in Hdates as (all_dates & Hall & [rest ->]).
  clear Hstop. unfold run_backtest. rewrite Hidx, Hall. cbn [app].
  pose proof (day_loop_prefix signals price_data (d :: dates) rest self []
                (initial_capital self) false) as Hpre.
  cbn [app] in Hpre.
  destruct (day_loop self signals price_data [] (initial_capital self) false
                     (d :: dates)) as [r1 self1].
  destruct (day_loop self signals price_data [] (initial_capital self) false
                     (d :: dates ++ rest)) as [r2 self2].
  cbn [snd] in Hpre.
  assert (∀ (r : result ()) (s : BacktestEngine) (l : list date),
            portfolio_history
              (match r with
               | Raise e => (Raise e, s)
               | Ok _ =>
                   match _calculate_results np_power sqrt_pos s l with
                   | Raise e => (Raise e, s)
                   | Ok s' => (Ok (results s'), s')
                   end
               end).2 = portfolio_history s
            ∧ trade_history
                (match r with
                 | Raise e => (Raise e, s)
                 | Ok _ =>
                     match _calculate_results np_power sqrt_pos s l with
                     | Raise e => (Raise e, s)
                     | Ok s' => (Ok (results s'), s')
                     end
                 end).2 = trade_history s) as Hfin.
  { intros r s l. destruct r as [[]|e]; [|done].
    destruct (_calculate_results np_power sqrt_pos s l) as [s'|e] eqn:Hres;
      [|done].
    cbn [snd]. by apply calculate_results_Ok in Hres as (-> & -> & _). }
  destruct (Hfin r1 self1 (d :: dates)) as [-> ->].
  destruct (Hfin r2 self2 (d :: dates ++ rest)) as [-> ->].
  exact Hpre.
Qed.

(** ** What a normal return hands back *)

Lemma day_loop_initial_capital signals price_data dates :
  ∀ self positions capital numpy r self',
    day_loop self signals price_data positions capital numpy dates = (r, self') →
    initial_capital self' = initial_capital self.
Proof.
  induction dates as [|d dates IH];
    intros self positions capital numpy r self' H.
  - by inversion H.
  - cbn [day_loop] in H.
    destruct (day_trades self signals price_data positions capital d)
      as [[[ps1 c1] ts1]|e]; [|by inversion H].
    destruct (_record_daily_status _ _ _ _ _ _ _) as [self1|e] eqn:Hr;
      [|by inversion H].
    apply record_daily_status_Ok in Hr as (Hic & _).
    apply IH in H. by rewrite H.
Qed.

(** X12.  A run that returns normally never hands back the empty result:
    what it returns is the result it has stored in the engine, built from at
    least one snapshot, and that result carries the portfolio history and the
    trade history of the engine and its initial capital. *)
Theorem run_backtest_normal_return_carries_result :
  ∀ (np_power : npfloat → Q → npfloat) (sqrt_pos : Q → Q)
    (self : BacktestEngine) (signals : Signals) (price_data : PriceData)
    (start_date end_date : option string)
    (res : option Results) (self' : BacktestEngine),
    run_backtest np_power sqrt_pos self signals price_data start_date end_date
    = (Ok res, self') →
    ∃ r,
      res = Some r
      ∧ results self' = Some r
      ∧ portfolio_history self' ≠ []
      ∧ res_portfolio_history r = portfolio_history self'
      ∧ res_trade_history r = trade_history self'
      ∧ res_initial_capital r = initial_capital self.
Proof.
  intros np_power sqrt_pos self signals price_data start_date end_date res self'.
  unfold run_backtest.
  destruct (if rebalance_weekly self then _ else _); [|done].
  destruct (_get_all_trading_dates _ _ _ _) as [all_dates|e]; [|done].
  destruct all_dates as [|d dates]; [done|].
  destruct (day_loop _ _ _ _ _ _ _) as [r1 self1] eqn:Hloop.
  destruct r1 as [[]|e]; [|done].
  pose proof (day_loop_initial_capital _ _ _ _ _ _ _ _ _ Hloop) as Hic.
  apply day_loop_dates in Hloop as (recs & Hph & _ & Hall).
  specialize (Hall eq_refl).
  assert (portfolio_history self1 ≠ []) as Hne.
  { rewrite Hph. destruct recs; [done|]. intros [_ ?]%app_eq_nil.
    discriminate. }
  unfold _calculate_results.
  destruct (portfolio_history self1) as [|rec recs1] eqn:Hph1; [done|].
  destruct (last (d :: dates)) as [last_date|] eqn:Hlast.
  2:{ by apply last_None in Hlast. }
  cbn [head].
  destruct (trade_history self1); intros [= <- <-]; eexists;
    (split; [reflexivity|]);
    cbn [results res_portfolio_history res_trade_history res_initial_capital
         portfolio_history trade_history]; by rewrite ?Hic.
Qed.

Lemma run_backtest_normal_return_witness :
  ∃ res self',
    run_backtest Scenario.no_power Scenario.no_sqrt (Scenario.engine true)
                 Scenario.two_mondays Scenario.both_priced None None
    = (Ok res, self')
    ∧ ∃ r,
        res = Some r
        ∧ results self' = Some r
        ∧ portfolio_history self' ≠ []
        ∧ res_portfolio_history r = portfolio_history self'
        ∧ res_trade_history r = trade_history self'
        ∧ res_initial_capital r = initial_capital (Scenario.engine true).
Proof.
  eexists _, _. split; [vm_compute; reflexivity|].
  apply (run_backtest_normal_return_carries_result
           Scenario.no_power Scenario.no_sqrt (Scenario.engine true)
           Scenario.two_mondays Scenario.both_priced None None).
  vm_compute. reflexivity.
Defined.

(** ** The exceptions of the trading-date universe *)

Lemma bound_filter_cases keep bound l :
  if bound_fails bound
  then bound_filter keep bound l = Raise ValueError
  else ∃ l', bound_filter keep bound l = Ok l'.
Proof.
  unfold bound_fails, bound_filter.
  destruct bound as [[|a s]|]; [by eexists| |by eexists].
  destruct (strptime (String a s)) as [dt|e] eqn:Hs; cbn [mbind result_bind].
  - by eexists.
  - by apply strptime_Raise in Hs as ->.
Qed.

Lemma trading_dates_cases signals price_data start_date end_date :
  if bound_fails start_date || bound_fails end_date
  then _get_all_trading_dates signals price_data start_date end_date
       = Raise ValueError
  else ∃ dates,
         _get_all_trading_dates signals price_data start_date end_date
         = Ok dates.
Proof.
  unfold _get_all_trading_dates.
  set (l0 := merge_sort date_le _).
  pose proof (bound_filter_cases (λ d start_dt, date_leb start_dt d)
                start_date l0) as H1.
  destruct (bound_fails start_date); cbn [orb].
  - by rewrite H1.
  - destruct H1 as [l1 ->]. cbn [mbind result_bind].
    pose proof (bound_filter_cases (λ d end_dt, date_leb d end_dt)
                  end_date l1) as H2.
    destruct (bound_fails end_date).
    + by rewrite H2.
    + destruct H2 as [l2 ->]. by eexists.
Qed.

(** X13.  Whether [_get_all_trading_dates] raises depends on the bounds
    alone, never on the signals or the price data: it raises a [ValueError]
    when the start date or the end date is a non-empty string that does not
    parse as a date, and returns otherwise; an empty string is no bound at
    all. *)
Theorem trading_dates_raise_only_on_unparsable_bound :
  ∀ (signals : Signals) (price_data : PriceData)
    (start_date end_date : option string),
    (if bound_fails start_date || bound_fails end_date
     then _get_all_trading_dates signals price_data start_date end_date
          = Raise ValueError
     else ∃ dates,
            _get_all_trading_dates signals price_data start_date end_date
            = Ok dates)
    ∧ _get_all_trading_dates signals price_data (Some "") end_date
      = _get_all_trading_dates signals price_data None end_date
    ∧ _get_all_trading_dates signals price_data start_date (Some "")
      = _get_all_trading_dates signals price_data start_date None.
Proof.
  intros signals price_data start_date end_date. split; [|done].
  apply trading_dates_cases.
Qed.

(** ** A run without capital *)

Lemma buy_loop_no_cash self price_data d date_str n capital buy_signals :
  (capital == 0)%Q →
  foldM (buy_step self price_data d date_str n) ([], capital, []) buy_signals
  = Ok ([], capital, [])
  ∨ foldM (buy_step self price_data d date_str n) ([], capital, []) buy_signals
    = Raise ValueError.
Proof.
  intros Hc. induction buy_signals as [|sig sigs IH]; [by left|].
  cbn [foldM].
  assert (buy_step self price_data d date_str n ([], capital, []) sig
          = Ok ([], capital, [])
          ∨ buy_step self price_data d date_str n ([], capital, []) sig
            = Raise ValueError) as [-> | ->]; [|done|by right].
  unfold buy_step.
  replace (held [] (code sig)) with false
    by (symmetry; apply bool_decide_eq_false_2; by intros ?%elem_of_nil).
  destruct (close_on price_data (code sig) d) as [p|]; [|by left].
  set (buy_value := py_min _ _).
  assert (buy_value == 0)%Q as Hbv.
  { unfold buy_value, py_min.
    assert ((if (0 <? n)%nat then capital / inject_Z (Z.of_nat n) else 0)
            == 0)%Q as Ha.
    { destruct (0 <? n)%nat; [|done]. rewrite Hc. unfold Qdiv. ring. }
    destruct (Qlt_bool _ _); [rewrite Hc; ring|done]. }
  unfold int_floordiv.
  destruct (Qeq_bool (p * 100) 0) eqn:Hp.
  - right. by rewrite (proj2 (Qeq_bool_iff buy_value 0) Hbv).
  - left. cbn [mbind result_bind].
    assert (Qfloor (buy_value / (p * 100)) = 0) as ->.
    { rewrite <- (Qfloor_Z 0). apply Qfloor_comp. rewrite Hbv.
      unfold Qdiv. ring. }
    done.
Qed.

Lemma day_trades_no_cash self signals price_data capital d :
  (capital == 0)%Q →
  day_trades self signals price_data [] capital d = Ok ([], capital, [])
  ∨ day_trades self signals price_data [] capital d = Raise ValueError.
Proof.
  intros Hc. unfold day_trades, _update_positions_high, _check_stop_loss.
  cbn [map fold_left].
  destruct (signals !! strftime d) as [buy_signals|];
    cbn [default from_option id mbind result_bind].
  - unfold _execute_buy_signals.
    destruct (buy_loop_no_cash self price_data d (strftime d)
                (length buy_signals) capital buy_signals Hc) as [-> | ->];
      [|by right].
    left. cbn [mbind result_bind app]. by destruct (_ && _).
  - left. by destruct (_ && _).
Qed.

(** X14.  An engine with an initial capital of zero never completes a run:
    every run ends with an exception and leaves the engine as it was.  The
    exception is an [IndexError] (the rebalance weekday does not index the
    day names, or there is no trading date), a [ValueError] (a bound does not
    parse, or a signalled instrument closes at zero on the first date), or
    the [ZeroDivisionError] of the first snapshot, whose return divides by
    the initial capital. *)
Theorem run_backtest_zero_capital_always_raises :
  ∀ (np_power : npfloat → Q → npfloat) (sqrt_pos : Q → Q)
    (self : BacktestEngine) (signals : Signals) (price_data : PriceData)
    (start_date end_date : option string),
    (initial_capital self == 0)%Q →
    ∃ e,
      run_backtest np_power sqrt_pos self signals price_data start_date end_date
      = (Raise e, self)
      ∧ (e = IndexError ∨ e = ValueError ∨ e = ZeroDivisionError).
Proof.
  intros np_power sqrt_pos self signals price_data start_date end_date Hic.
  unfold run_backtest.
  destruct (if rebalance_weekly self then _ else _) as [[]|e] eqn:Hidx.
  2:{ exists e. split; [done|]. left.
      destruct (rebalance_weekly self); [|done].
      by destruct (day_names_index_cases (rebalance_day self)) as [H|H];
        rewrite H in Hidx; inversion Hidx. }
  pose proof (trading_dates_cases signals price_data start_date end_date)
    as Hd.
  destruct (bound_fails start_date || bound_fails end_date).
  { rewrite Hd. eauto. }
  destruct Hd as [dates ->]. destruct dates as [|d dates]; [eauto|].
  cbn [day_loop].
  destruct (day_trades_no_cash self signals price_data (initial_capital self) d
              Hic) as [-> | ->]; [|eauto].
  cbn [length orb negb]. rewrite bool_decide_eq_true_2 by done.
  unfold _record_daily_status. cbn [negb andb].
  rewrite (proj2 (Qeq_bool_iff _ _) Hic). eauto 6.
Qed.

Lemma run_backtest_zero_capital_witness :
  ∃ e,
    run_backtest Scenario.no_power Scenario.no_sqrt penniless_engine
                 Scenario.two_mondays Scenario.both_priced None None
    = (Raise e, penniless_engine)
    ∧ (e = IndexError ∨ e = ValueError ∨ e = ZeroDivisionError).
Proof.
  apply (run_backtest_zero_capital_always_raises
           Scenario.no_power Scenario.no_sqrt penniless_engine
           Scenario.two_mondays Scenario.both_priced None None).
  reflexivity.
Defined.

(** ** The size of an entry *)

Lemma py_min_le (a b : Q) : (py_min a b <= a)%Q ∧ (py_min a b <= b)%Q.
Proof.
  unfold py_min. destruct (Qlt_bool b a) eqn:H.
  - apply Qlt_bool_iff in H. split; lra.
  - apply Qlt_bool_false in H. split; lra.
Qed.

(** One iteration of the buying loop at a positive close: the cash does not
    grow, and an entry costs, before commission, at most a fifth of the cash
    and at most the [n]-th part of it. *)
Lemma buy_step_size self price_data d date_str n positions capital trades sig
    positions' capital' trades' :
  (0 <= capital)%Q → (0 <= commission_rate self)%Q →
  (∀ c p, close_on price_data c d = Some p → (0 < p)%Q) →
  buy_step self price_data d date_str n (positions, capital, trades) sig
  = Ok (positions', capital', trades') →
  (0 <= capital')%Q ∧ (capital' <= capital)%Q
  ∧ (trades' = trades
     ∨ ∃ t, trades' = trades ++ [t]
         ∧ (0 < amount t)%Q
         ∧ (amount t <= capital * 0.2)%Q
         ∧ (amount t <= capital / inject_Z (Z.of_nat n))%Q).
Proof.
  intros Hc Hr Hpos. unfold buy_step.
  destruct (held positions (code sig));
    [intros [= <- <- <-]; repeat split; [done|lra|by left]|].
  destruct (close_on price_data (code sig) d) as [p|] eqn:Hclose;
    [|intros [= <- <- <-]; repeat split; [done|lra|by left]].
  apply Hpos in Hclose.
  set (allocation := if (0 <? n)%nat then _ else _).
  assert (allocation == capital / inject_Z (Z.of_nat n))%Q as Halloc.
  { unfold allocation. destruct n as [|n]; [|done].
    cbn [Nat.ltb Nat.leb]. change (inject_Z (Z.of_nat 0)) with 0%Q.
    unfold Qdiv. change (/ 0)%Q with 0%Q. ring. }
  destruct (py_min_le allocation (capital * 0.2)) as [Hm1 Hm2].
  set (buy_value := py_min allocation (capital * 0.2)) in *.
  unfold int_floordiv.
  assert (Qeq_bool (p * 100) 0 = false) as ->.
  { apply not_true_iff_false. intros H%Qeq_bool_iff. lra. }
  cbn [mbind result_bind].
  remember (Qfloor (buy_value / (p * 100))) as lots eqn:Hlots.
  destruct (lots * 100 <=? 0) eqn:Hs;
    [intros [= <- <- <-]; repeat split; [done|lra|by left]|].
  apply Z.leb_gt in Hs.
  destruct (Qlt_bool capital _) eqn:Hcost;
    [intros [= <- <- <-]; repeat split; [done|lra|by left]|].
  apply Qlt_bool_false in Hcost.
  assert (p * inject_Z (lots * 100) <= buy_value)%Q as Hle.
  { rewrite inject_Z_mult.
    pose proof (Qfloor_le (buy_value / (p * 100))) as Hf.
    rewrite <- Hlots in Hf.
    assert (buy_value == buy_value / (p * 100) * (p * 100))%Q as Hbv
      by (field; lra).
    change (inject_Z 100) with 100%Q.
    remember (buy_value / (p * 100))%Q as x eqn:Hx.
    assert (0 <= (x - inject_Z lots) * p)%Q
      by (apply Qmult_le_0_compat; lra).
    nra. }
  assert (0 < p * inject_Z (lots * 100))%Q as Hgt.
  { apply Qmult_lt_0_compat; [done|].
    change 0%Q with (inject_Z 0). by rewrite <- Zlt_Qlt. }
  intros [= <- <- <-]. repeat split.
  - lra.
  - nra.
  - right. eexists. split; [reflexivity|]. cbn [amount].
    repeat split; [done|lra|]. rewrite <- Halloc. lra.
Qed.

Lemma buy_loop_size self price_data d date_str n (cash0 : Q) buy_signals :
  (0 <= commission_rate self)%Q →
  (∀ c p, close_on price_data c d = Some p → (0 < p)%Q) →
  ∀ positions capital trades positions' capital' trades',
    (0 <= capital)%Q → (capital <= cash0)%Q →
    Forall (λ t, (0 < amount t)%Q ∧ (amount t <= cash0 * 0.2)%Q
                 ∧ (amount t <= cash0 / inject_Z (Z.of_nat n))%Q) trades →
    foldM (buy_step self price_data d date_str n) (positions, capital, trades)
          buy_signals
    = Ok (positions', capital', trades') →
    (0 <= capital')%Q ∧ (capital' <= capital)%Q
    ∧ Forall (λ t, (0 < amount t)%Q ∧ (amount t <= cash0 * 0.2)%Q
                   ∧ (amount t <= cash0 / inject_Z (Z.of_nat n))%Q) trades'.
Proof.
  intros Hr Hpos. induction buy_signals as [|sig sigs IH];
    intros positions capital trades positions' capital' trades' Hc Hc0 Hts H.
  - cbn [foldM] in H. inversion H; subst. repeat split; [done|lra|done].
  - cbn [foldM] in H. apply bind_Ok in H as ([[ps1 c1] ts1] & H1 & H).
    apply buy_step_size in H1 as (Hc1 & Hle1 & Ht1); [|done..].
    assert (Forall (λ t, (0 < amount t)%Q ∧ (amount t <= cash0 * 0.2)%Q
                         ∧ (amount t <= cash0 / inject_Z (Z.of_nat n))%Q) ts1)
      as Hts1.
    { destruct Ht1 as [->|(t & -> & Ht0 & Ht5 & Htn)]; [done|].
      apply Forall_app. split; [done|]. constructor; [|done].
      repeat split; [done|lra|].
      apply Qle_trans with (capital / inject_Z (Z.of_nat n))%Q; [done|].
      unfold Qdiv. apply Qmult_le_compat_r; [done|].
      apply Qinv_le_0_compat. change 0%Q with (inject_Z 0).
      rewrite <- Zle_Qle. lia. }
    apply IH in H as (Hc' & Hle' & Hts'); [|done|lra|done].
    repeat split; [done|lra|done].
Qed.

(** X15.  The size of the entries of one call of [_execute_buy_signals], for
    a non-negative cash, a non-negative commission rate and positive closes:
    every BUY of the call costs, before commission, at most a fifth of the
    cash the call started with and at most that cash divided by the number of
    signals of the call; the cash never grows and stays non-negative. *)
Theorem buy_signals_entry_at_most_a_fifth_of_cash :
  ∀ (self : BacktestEngine) (buy_signals : list signal) (positions : Positions)
    (price_data : PriceData) (capital : Q) (d : date) (date_str : string)
    (positions' : Positions) (capital' : Q) (trades : list trade),
    (0 <= capital)%Q →
    (0 <= commission_rate self)%Q →
    (∀ c p, close_on price_data c d = Some p → (0 < p)%Q) →
    _execute_buy_signals self buy_signals positions price_data capital d
                         date_str
    = Ok (positions', capital', trades) →
    (0 <= capital')%Q ∧ (capital' <= capital)%Q
    ∧ Forall (λ t, (0 < amount t)%Q
                   ∧ (amount t <= capital * 0.2)%Q
                   ∧ (amount t
                      <= capital / inject_Z (Z.of_nat (length buy_signals)))%Q)
             trades.
Proof.
  intros self buy_signals positions price_data capital d date_str positions'
         capital' trades Hc Hr Hpos H.
  unfold _execute_buy_signals in H.
  eapply (buy_loop_size self price_data d date_str (length buy_signals) capital)
    in H; [exact H|done|done|done|lra|constructor].
Qed.

Lemma both_priced_positive (d : date) :
  ∀ c p, close_on Scenario.both_priced c d = Some p → (0 < p)%Q.
Proof.
  intros c p H. unfold close_on, Scenario.both_priced in H.
  lookup_cases H; try done; unfold Scenario.flat in H; lookup_cases H;
    try done; inversion H; by vm_compute.
Qed.

Lemma buy_signals_entry_size_witness :
  ∃ positions' capital' trades,
    _execute_buy_signals (Scenario.engine false) [Scenario.sigA; Scenario.sigB]
                         [] Scenario.both_priced 1000000 Scenario.monday1
                         "2024-01-01"
    = Ok (positions', capital', trades)
    ∧ (0 <= capital')%Q ∧ (capital' <= 1000000)%Q
    ∧ Forall (λ t, (0 < amount t)%Q
                   ∧ (amount t <= 1000000 * 0.2)%Q
                   ∧ (amount t
                      <= 1000000
                         / inject_Z (Z.of_nat (length [Scenario.sigA;
                                                      Scenario.sigB])))%Q)
             trades.
Proof.
  eexists _, _, _. split; [vm_compute; reflexivity|].
  eapply (buy_signals_entry_at_most_a_fifth_of_cash
            (Scenario.engine false) [Scenario.sigA; Scenario.sigB] []
            Scenario.both_priced 1000000 Scenario.monday1 "2024-01-01").
  - vm_compute. discriminate.
  - vm_compute. discriminate.
  - apply both_priced_positive.
  - vm_compute. reflexivity.
Defined.

(** ** What a run reads of the price data *)

Lemma fold_left_ext_eq {A B} (f g : A → B → A) (l : list B) :
  (∀ a b, f a b = g a b) → ∀ a, fold_left f l a = fold_left g l a.
Proof.
  intros H. induction l as [|b l IH]; intros a; [done|].
  cbn [fold_left]. by rewrite H, IH.
Qed.

Lemma foldM_ext_eq {A S} (f g : S → A → result S) (l : list A) :
  (∀ st x, f st x = g st x) → ∀ st, foldM f st l = foldM g st l.
Proof.
  intros H. induction l as [|x l IH]; intros st; [done|].
  cbn [foldM]. rewrite H. destruct (g st x); [apply IH|done].
Qed.

Section SameCloses.

Variables (price_data price_data' : PriceData) (d : date).
Hypothesis same : ∀ c, close_on price_data c d = close_on price_data' c d.

Lemma update_positions_high_closes positions :
  _update_positions_high positions price_data d
  = _update_positions_high positions price_data' d.
Proof.
  unfold _update_positions_high. apply map_ext. intros [c pos].
  by rewrite same.
Qed.

Lemma check_stop_loss_closes self positions capital date_str :
  _check_stop_loss self positions price_data capital d date_str
  = _check_stop_loss self positions price_data' capital d date_str.
Proof.
  unfold _check_stop_loss.
  rewrite (fold_left_ext_eq
             (stop_loss_step self price_data d date_str)
             (stop_loss_step self price_data' d date_str)); [done|].
  intros [[c0 ts] rm] [c pos]. unfold stop_loss_step. by rewrite same.
Qed.

Lemma execute_buy_signals_closes self buy_signals positions capital date_str :
  _execute_buy_signals self buy_signals positions price_data capital d date_str
  = _execute_buy_signals self buy_signals positions price_data' capital d
                         date_str.
Proof.
  unfold _execute_buy_signals. apply foldM_ext_eq.
  intros [[ps c] ts] sig. unfold buy_step. by rewrite same.
Qed.

Lemma execute_weekly_rebalance_closes self positions capital date_str
    today_signals :
  _execute_weekly_rebalance self positions price_data capital d date_str
                            today_signals
  = _execute_weekly_rebalance self positions price_data' capital d date_str
                              today_signals.
Proof.
  unfold _execute_weekly_rebalance. destruct positions as [|e positions];
    [done|].
  rewrite (fold_left_ext_eq
             (rebalance_sell_step self price_data d date_str)
             (rebalance_sell_step self price_data' d date_str)).
  2:{ intros [c0 ts] [c pos]. unfold rebalance_sell_step. by rewrite same. }
  destruct (fold_left _ _ _) as [c1 ts1].
  destruct today_signals as [|sig sigs]; [done|].
  by rewrite execute_buy_signals_closes.
Qed.

Lemma calculate_portfolio_value_closes positions capital :
  _calculate_portfolio_value positions price_data capital d
  = _calculate_portfolio_value positions price_data' capital d.
Proof.
  unfold _calculate_portfolio_value. apply fold_left_ext_eq.
  intros pv [c pos]. cbn [fst snd]. by rewrite same.
Qed.

Lemma day_trades_closes self signals positions capital :
  day_trades self signals price_data positions capital d
  = day_trades self signals price_data' positions capital d.
Proof.
  unfold day_trades.
  rewrite update_positions_high_closes, check_stop_loss_closes.
  destruct (_check_stop_loss _ _ _ _ _ _) as [[ps1 c1] ts1].
  assert (match signals !! strftime d with
          | Some buy_signals =>
              '(positions, capital, new_trades) ←
                _execute_buy_signals self buy_signals ps1 price_data c1 d
                                     (strftime d);
              Ok (positions, capital, ts1 ++ new_trades)
          | None => Ok (ps1, c1, ts1)
          end
          = match signals !! strftime d with
            | Some buy_signals =>
                '(positions, capital, new_trades) ←
                  _execute_buy_signals self buy_signals ps1 price_data' c1 d
                                       (strftime d);
                Ok (positions, capital, ts1 ++ new_trades)
            | None => Ok (ps1, c1, ts1)
            end) as ->.
  { destruct (signals !! strftime d); [|done].
    by rewrite execute_buy_signals_closes. }
  destruct (match signals !! strftime d with Some _ => _ | None => _ end)
    as [[[ps2 c2] ts2]|e]; [|done].
  cbn [mbind result_bind].
  destruct (rebalance_weekly self && _is_rebalance_day self d); [|done].
  by rewrite execute_weekly_rebalance_closes.
Qed.

End SameCloses.

Lemma day_loop_closes signals price_data price_data' dates :
  (∀ c d, d ∈ dates → close_on price_data c d = close_on price_data' c d) →
  ∀ self positions capital numpy,
    day_loop self signals price_data positions capital numpy dates
    = day_loop self signals price_data' positions capital numpy dates.
Proof.
  induction dates as [|d dates IH]; intros H self positions capital numpy;
    [done|].
  cbn [day_loop].
  rewrite (day_trades_closes price_data price_data' d)
    by (intros c; apply H; constructor).
  destruct (day_trades self signals price_data' positions capital d)
    as [[[ps1 c1] ts1]|e]; [|done].
  rewrite (calculate_portfolio_value_closes price_data price_data' d)
    by (intros c; apply H; constructor).
  destruct (_record_daily_status _ _ _ _ _ _ _) as [self1|e]; [|done].
  apply IH. intros c d' Hd'. apply H. by constructor.
Qed.

(** X16.  A run reads of the price data only the trading dates they give and
    the closes on those dates: two price stores that give the same trading
    dates and the same closes on each of them give the same run, whatever
    they hold on other dates, before the start or after the end of the
    horizon.  Within a day, the trades and the portfolio value depend on the
    closes of that day alone. *)
Theorem run_backtest_reads_only_closes_of_trading_dates :
  ∀ (np_power : npfloat → Q → npfloat) (sqrt_pos : Q → Q)
    (self : BacktestEngine) (signals : Signals)
    (price_data price_data' : PriceData)
    (start_date end_date : option string) (dates : list date),
    _get_all_trading_dates signals price_data start_date end_date = Ok dates →
    _get_all_trading_dates signals price_data' start_date end_date = Ok dates →
    (∀ c d, d ∈ dates → close_on price_data c d = close_on price_data' c d) →
    run_backtest np_power sqrt_pos self signals price_data start_date end_date
    = run_backtest np_power sqrt_pos self signals price_data' start_date
                   end_date
    ∧ ∀ d positions capital,
        d ∈ dates →
        day_trades self signals price_data positions capital d
        = day_trades self signals price_data' positions capital d
        ∧ _calculate_portfolio_value positions price_data capital d
          = _calculate_portfolio_value positions price_data' capital d.
Proof.
  intros np_power sqrt_pos self signals price_data price_data' start_date
         end_date dates H1 H2 Hsame.
  split.
  - unfold run_backtest. rewrite H1, H2.
    by rewrite (day_loop_closes signals price_data price_data' dates Hsame).
  - intros d positions capital Hd. split.
    + apply day_trades_closes. intros c. by apply Hsame.
    + apply calculate_portfolio_value_closes. intros c. by apply Hsame.
Qed.

Lemma later_prices_same_closes :
  ∀ c d, d ∈ [Scenario.monday1; Scenario.monday2] →
         close_on Scenario.both_priced c d = close_on later_prices c d.
Proof.
  intros c d Hd. unfold close_on, later_prices.
  destruct (decide (c = "A")) as [->|Hne].
  - rewrite lookup_insert_eq. unfold Scenario.both_priced.
    rewrite lookup_insert_eq.
    apply elem_of_cons in Hd as [->|Hd];
      [|apply list_elem_of_singleton in Hd as ->]; by vm_compute.
  - by rewrite lookup_insert_ne by done.
Qed.

Lemma run_backtest_reads_only_closes_witness :
  run_backtest Scenario.no_power Scenario.no_sqrt (Scenario.engine true)
               Scenario.two_mondays Scenario.both_priced None
               (Some "2024-01-08")
  = run_backtest Scenario.no_power Scenario.no_sqrt (Scenario.engine true)
                 Scenario.two_mondays later_prices None (Some "2024-01-08")
  ∧ ∀ d positions capital,
      d ∈ [Scenario.monday1; Scenario.monday2] →
      day_trades (Scenario.engine true) Scenario.two_mondays
                 Scenario.both_priced positions capital d
      = day_trades (Scenario.engine true) Scenario.two_mondays later_prices
                   positions capital d
      ∧ _calculate_portfolio_value positions Scenario.both_priced capital d
        = _calculate_portfolio_value positions later_prices capital d.
Proof.
  apply (run_backtest_reads_only_closes_of_trading_dates
           Scenario.no_power Scenario.no_sqrt (Scenario.engine true)
           Scenario.two_mondays Scenario.both_priced later_prices None
           (Some "2024-01-08") [Scenario.monday1; Scenario.monday2]).
  - vm_compute. reflexivity.
  - vm_compute. reflexivity.
  - exact later_prices_same_closes.
Defined.

(** ** The metrics of a result *)

Lemma cummax_from_bounds (l : list Q) :
  ∀ m, (0 < m)%Q → Forall (λ v, (0 < v)%Q) l →
       Forall (λ vc : Q * Q, (0 < vc.1)%Q ∧ (vc.1 <= vc.2)%Q)
              (zip l (cummax_from m l)).
Proof.
  induction l as [|v l IH]; intros m Hm Hl; [constructor|].
  apply Forall_cons in Hl as [Hv Hl]. cbn [cummax_from zip zip_with].
  destruct (Qlt_bool m v) eqn:Hlt.
  - constructor; [cbn [fst snd]; split; [done|lra]|]. by apply IH.
  - apply Qlt_bool_false in Hlt.
    constructor; [cbn [fst snd]; by split|]. by apply IH.
Qed.

Lemma cummax_bounds (l : list Q) :
  Forall (λ v, (0 < v)%Q) l →
  Forall (λ vc : Q * Q, (0 < vc.1)%Q ∧ (vc.1 <= vc.2)%Q) (zip l (cummax l)).
Proof.
  destruct l as [|v l]; [constructor|]. intros [Hv Hl]%Forall_cons.
  cbn [cummax zip zip_with].
  constructor; [cbn [fst snd]; split; [done|lra]|].
  by apply cummax_from_bounds.
Qed.

Lemma filter_Forall {A} (P : A → Prop) `{∀ x, Decision (P x)} (l : list A) :
  Forall P l → filter P l = l.
Proof.
  induction 1 as [|x l Hx _ IH]; [done|].
  rewrite filter_cons_True by done. by rewrite IH.
Qed.

Lemma series_min_Fin (P : Q → Prop) (l : list npfloat) :
  l ≠ [] → Forall (λ x, ∃ q, x = Fin q ∧ P q) l →
  ∃ q, series_min l = Fin q ∧ P q.
Proof.
  intros Hne Hl. unfold series_min, dropna.
  rewrite filter_Forall.
  2:{ eapply Forall_impl; [exact Hl|]. by intros x (q & -> & _). }
  destruct l as [|x l]; [done|]. apply Forall_cons in Hl as [Hx Hl].
  clear Hne. revert x Hx. induction Hl as [|y l Hy Hl IH]; intros x Hx;
    [exact Hx|].
  cbn [fold_left]. apply IH. by destruct (np_leb y x).
Qed.

Lemma last_default_last {A} (l : list A) (d : A) :
  l ≠ [] → Some (List.last l d) = last l.
Proof.
  induction l as [|x l IH]; [done|]. intros _.
  destruct l as [|y l]; [done|].
  rewrite last_cons_cons. rewrite <- IH by done. done.
Qed.

Lemma length_filter_le {A} (P : A → Prop) `{∀ x, Decision (P x)} (l : list A) :
  (length (filter P l) ≤ length l)%nat.
Proof.
  induction l as [|x l IH]; [done|]. rewrite filter_cons.
  case_decide; cbn [length]; lia.
Qed.

Lemma length_buys_sells (l : list trade) :
  (length (filter (λ t, action t = BUY) l)
   + length (filter (λ t, action t = SELL) l))%nat = length l.
Proof.
  induction l as [|t l IH]; [done|]. rewrite !filter_cons.
  destruct (action t) eqn:E.
  - rewrite decide_True, decide_False by done. cbn [length]. lia.
  - rewrite decide_False, decide_True by done. cbn [length]. lia.
Qed.

Lemma drawdown_range (values : list Q) :
  values ≠ [] → Forall (λ v, (0 < v)%Q) values →
  ∃ q, series_min
         (map (λ vc : Q * Q, np_mul (np_div (vc.1 - vc.2) vc.2) (Fin 100))
              (zip values (cummax values))) = Fin q
       ∧ (-100 < q)%Q ∧ (q <= 0)%Q.
Proof.
  intros Hne Hpos. apply (series_min_Fin (λ q, (-100 < q)%Q ∧ (q <= 0)%Q)).
  { destruct values as [|v l]; [done|]. by cbn [cummax zip zip_with map]. }
  apply Forall_fmap. eapply Forall_impl; [apply cummax_bounds, Hpos|].
  intros [v c] [Hv Hc]. cbn [fst snd compose] in *.
  unfold np_div.
  assert (Qeq_bool c 0 = false) as ->.
  { apply not_true_iff_false. intros H%Qeq_bool_iff. lra. }
  cbn [np_mul]. eexists. split; [reflexivity|].
  assert ((v - c) / c * c == v - c)%Q as Hx by (field; lra).
  remember ((v - c) / c)%Q as x eqn:Ex. clear Ex.
  split; nra.
Qed.

Lemma win_rate_range (w s : nat) :
  (w ≤ s)%nat → (0 < s)%nat →
  (0 <= inject_Z (Z.of_nat w) / inject_Z (Z.of_nat s) * 100)%Q
  ∧ (inject_Z (Z.of_nat w) / inject_Z (Z.of_nat s) * 100 <= 100)%Q.
Proof.
  intros Hws Hs.
  assert (0 <= inject_Z (Z.of_nat w))%Q as Hw0
    by (change 0%Q with (inject_Z 0); rewrite <- Zle_Qle; lia).
  assert (0 < inject_Z (Z.of_nat s))%Q as Hs0
    by (change 0%Q with (inject_Z 0); rewrite <- Zlt_Qlt; lia).
  assert (inject_Z (Z.of_nat w) <= inject_Z (Z.of_nat s))%Q as Hle
    by (rewrite <- Zle_Qle; lia).
  assert (inject_Z (Z.of_nat w) / inject_Z (Z.of_nat s)
          * inject_Z (Z.of_nat s) == inject_Z (Z.of_nat w))%Q as Hx
    by (field; lra).
  remember (inject_Z (Z.of_nat w) / inject_Z (Z.of_nat s))%Q as x eqn:Ex.
  clear Ex. split; nra.
Qed.

(** X17.  The metrics [_calculate_results] stores, for an engine that holds
    at least one snapshot: the final value is the portfolio value of the
    last snapshot; the number of trades is the length of the trade history;
    the win rate lies between 0 and 100; and when every snapshot has a
    positive portfolio value, the maximum drawdown is a finite percentage
    above -100 and at most 0. *)
Theorem calculate_results_metrics_in_range :
  ∀ (np_power : npfloat → Q → npfloat) (sqrt_pos : Q → Q)
    (self : BacktestEngine) (all_dates : list date) (self' : BacktestEngine),
    portfolio_history self ≠ [] →
    _calculate_results np_power sqrt_pos self all_dates = Ok self' →
    ∃ r,
      results self' = Some r
      ∧ Some (final_value r)
        = portfolio_value <$> last (portfolio_history self)
      ∧ total_trades r = length (trade_history self)
      ∧ (0 <= win_rate_pct r)%Q ∧ (win_rate_pct r <= 100)%Q
      ∧ (Forall (λ rec, (0 < portfolio_value rec)%Q) (portfolio_history self) →
         ∃ q, max_drawdown_pct r = Fin q ∧ (-100 < q)%Q ∧ (q <= 0)%Q).
Proof.
  intros np_power sqrt_pos self all_dates self' Hne H.
  unfold _calculate_results in H.
  destruct (portfolio_history self) as [|rec recs] eqn:Hph; [done|].
  destruct (last all_dates) as [last_date|]; [|done].
  destruct (head all_dates) as [first_date|]; [|done].
  assert (Some (List.last (map portfolio_value (rec :: recs))
                          (portfolio_value rec))
          = portfolio_value <$> last (rec :: recs)) as Hfinal.
  { rewrite last_default_last by done. by rewrite fmap_last. }
  assert (Forall (λ rec, (0 < portfolio_value rec)%Q) (rec :: recs) →
          ∃ q, series_min
                 (map (λ vc : Q * Q,
                         np_mul (np_div (vc.1 - vc.2) vc.2) (Fin 100))
                      (zip (map portfolio_value (rec :: recs))
                           (cummax (map portfolio_value (rec :: recs)))))
               = Fin q
               ∧ (-100 < q)%Q ∧ (q <= 0)%Q) as Hdd.
  { intros Hpos. apply drawdown_range; [done|]. by apply Forall_fmap. }
  destruct (trade_history self) as [|t trades] eqn:Hth.
  - inversion H; subst; clear H. eexists. split; [reflexivity|].
    cbn [final_value total_trades win_rate_pct max_drawdown_pct].
    split; [done|]. split; [done|]. split; [done|]. split; [done|done].
  - inversion H; subst; clear H. eexists. split; [reflexivity|].
    cbn [final_value total_trades win_rate_pct max_drawdown_pct].
    split; [done|]. split; [apply length_buys_sells|].
    split; [|split; [|done]].
    + destruct (0 <? _)%nat eqn:Hs; [|lra].
      apply Nat.ltb_lt in Hs. by apply win_rate_range; [apply length_filter_le|].
    + destruct (0 <? _)%nat eqn:Hs; [|lra].
      apply Nat.ltb_lt in Hs. by apply win_rate_range; [apply length_filter_le|].
Qed.

Lemma calculate_results_metrics_witness :
  ∃ self',
    _calculate_results Scenario.no_power Scenario.no_sqrt
                       Scenario.single_day_engine [Scenario.monday1]
    = Ok self'
    ∧ ∃ r,
        results self' = Some r
        ∧ Some (final_value r)
          = portfolio_value
              <$> last (portfolio_history Scenario.single_day_engine)
        ∧ total_trades r = length (trade_history Scenario.single_day_engine)
        ∧ (0 <= win_rate_pct r)%Q ∧ (win_rate_pct r <= 100)%Q
        ∧ (Forall (λ rec, (0 < portfolio_value rec)%Q)
                  (portfolio_history Scenario.single_day_engine) →
           ∃ q, max_drawdown_pct r = Fin q ∧ (-100 < q)%Q ∧ (q <= 0)%Q).
Proof.
  eexists. split; [vm_compute; reflexivity|].
  apply (calculate_results_metrics_in_range
           Scenario.no_power Scenario.no_sqrt Scenario.single_day_engine
           [Scenario.monday1]).
  - discriminate.
  - vm_compute. reflexivity.
Defined.

(** ** The ledger at the end of a day *)

Lemma update_positions_high_close_le positions price_data d :
  Forall (λ e : string * position,
            ∀ p, close_on price_data e.1 d = Some p → (p <= max_price e.2)%Q)
         (_update_positions_high positions price_data d).
Proof.
  unfold _update_positions_high. apply Forall_fmap, Forall_forall.
  intros [c pos] _ p. cbn [compose].
  destruct (close_on price_data c d) as [p'|] eqn:Hp'.
  - destruct (Qlt_bool (max_price pos) p') eqn:Hlt; cbn [fst snd max_price];
      rewrite Hp'; intros [= <-]; [lra|by apply Qlt_bool_false].
  - cbn [fst]. by rewrite Hp'.
Qed.

(** A position that the stop-loss rule keeps, and whose highest price is up
    to date, is clear of its stop. *)
Lemma kept_below_stop self price_data d e :
  triggered self price_data d e = false →
  (∀ p, close_on price_data e.1 d = Some p → (p <= max_price e.2)%Q) →
  below_stop self price_data d e.
Proof.
  rewrite triggered_stop_loss_due. intros Hdue Hle p Hp.
  specialize (Hle p Hp).
  destruct (stop_loss_due_Some self price_data d e p Hp) as [Hfin Hzero].
  split; [done|]. split; intros Hmax.
  - destruct (Hfin Hmax) as [Hiff _]. apply Qnot_le_lt. intros H.
    apply Hiff in H. congruence.
  - destruct (Hzero Hmax) as [Hiff _].
    assert (¬ (p < 0)%Q) by (intros H; apply Hiff in H; congruence). lra.
Qed.

Lemma buy_step_below_stop self price_data d date_str n positions capital
    trades sig positions' capital' trades' :
  (0 < stop_loss_pct self)%Q →
  Forall (below_stop self price_data d) positions →
  buy_step self price_data d date_str n (positions, capital, trades) sig
  = Ok (positions', capital', trades') →
  Forall (below_stop self price_data d) positions'.
Proof.
  intros Hstop Hps H. pose proof H as H'. apply buy_step_entry in H'
    as [(-> & _ & _)|(p & lots & Hp & _ & _ & _ & -> & _ & _)]; [done|].
  apply Forall_app. split; [done|]. constructor; [|constructor].
  assert (¬ (p == 0)%Q) as Hne.
  { intros H0. unfold buy_step in H.
    destruct (held positions (code sig)); [|rewrite Hp in H].
    - inversion H as [[Hps' Hc' Hts']].
      apply (f_equal length) in Hps'. rewrite length_app in Hps'.
      cbn [length] in Hps'. lia.
    - unfold int_floordiv in H.
      assert (Qeq_bool (p * 100) 0 = true) as Hz
        by (apply Qeq_bool_iff; rewrite H0; ring).
      rewrite Hz in H. by destruct (Qeq_bool _ 0). }
  intros p'. cbn [fst snd max_price]. rewrite Hp. intros [= <-].
  split; [lra|]. split; [|done]. intros _.
  assert ((p - p) / p == 0)%Q as H0 by (field; done). lra.
Qed.

Lemma buy_loop_below_stop self price_data d date_str n buy_signals :
  (0 < stop_loss_pct self)%Q →
  ∀ positions capital trades positions' capital' trades',
    Forall (below_stop self price_data d) positions →
    foldM (buy_step self price_data d date_str n) (positions, capital, trades)
          buy_signals
    = Ok (positions', capital', trades') →
    Forall (below_stop self price_data d) positions'.
Proof.
  intros Hstop. induction buy_signals as [|sig sigs IH];
    intros positions capital trades positions' capital' trades' Hps H.
  - cbn [foldM] in H. by inversion H; subst.
  - cbn [foldM] in H. apply bind_Ok in H as ([[ps1 c1] ts1] & H1 & H).
    apply buy_step_below_stop in H1; [|done..].
    by apply (IH _ _ _ _ _ _ H1 H).
Qed.

(** X18.  With a positive stop-loss threshold, no position is held over a
    night at or beyond its stop: when the steps of a day are done, every
    position of the ledger that has a bar on the day closes at or below its
    highest price, and its drawdown from the highest price,
    [(max_price - close) / max_price], is below the threshold.  (A highest
    price of zero, at which the drawdown is no number, is only left with a
    close of zero.) *)
Theorem day_trades_leaves_no_position_at_its_stop :
  ∀ (self : BacktestEngine) (signals : Signals) (price_data : PriceData)
    (positions : Positions) (capital : Q) (d : date)
    (positions' : Positions) (capital' : Q) (trades : list trade),
    (0 < stop_loss_pct self)%Q →
    NoDup positions.*1 →
    day_trades self signals price_data positions capital d
    = Ok (positions', capital', trades) →
    Forall (λ e : string * position,
              ∀ p, close_on price_data e.1 d = Some p →
                   (p <= max_price e.2)%Q
                   ∧ (¬ (max_price e.2 == 0)%Q →
                      ((max_price e.2 - p) / max_price e.2
                       < stop_loss_pct self)%Q)
                   ∧ ((max_price e.2 == 0)%Q → (p == 0)%Q))
           positions'.
Proof.
  intros self signals price_data positions capital d positions' capital' trades
         Hstop Hnd H.
  change (Forall (below_stop self price_data d) positions').
  unfold day_trades, _check_stop_loss in H.
  rewrite stop_loss_fold in H. cbn [app] in H.
  rewrite (del_selected (triggered self price_data d)) in H
    by (by rewrite update_positions_high_keys).
  set (ps1 := filter _ (_update_positions_high positions price_data d)) in H.
  assert (Forall (below_stop self price_data d) ps1) as H1.
  { pose proof (update_positions_high_close_le positions price_data d) as Hle.
    rewrite Forall_forall in Hle. apply Forall_forall.
    intros e [He Hin]%list_elem_of_filter.
    apply kept_below_stop; [done|]. by apply Hle. }
  apply bind_Ok in H as ([[ps2 c2] ts2] & Hbuy & H).
  assert (Forall (below_stop self price_data d) ps2) as H2.
  { destruct (signals !! strftime d) as [buy_signals|].
    - apply bind_Ok in Hbuy as ([[ps c] ts] & Hb & Hr). inversion Hr; subst.
      unfold _execute_buy_signals in Hb.
      by apply (buy_loop_below_stop _ _ _ _ _ _ Hstop _ _ _ _ _ _ H1 Hb).
    - by inversion Hbuy; subst. }
  destruct (rebalance_weekly self && _is_rebalance_day self d).
  - apply bind_Ok in H as ([[ps c] ts] & Hb & Hr). inversion Hr; subst.
    unfold _execute_weekly_rebalance in Hb.
    destruct ps2 as [|e ps2]; [by inversion Hb; subst|].
    destruct (fold_left _ (e :: ps2) (c2, [])) as [c3 ts3].
    destruct (default [] (signals !! strftime d)) as [|sig sigs].
    + inversion Hb; subst. constructor.
    + apply bind_Ok in Hb as ([[ps' c'] ts'] & Hb & Hr'). inversion Hr'; subst.
      unfold _execute_buy_signals in Hb.
      eapply (buy_loop_below_stop _ _ _ _ _ _ Hstop); [|exact Hb].
      constructor.
  - by inversion H; subst.
Qed.

Lemma day_trades_leaves_no_position_witness :
  ∃ positions' capital' trades,
    day_trades (Scenario.engine false) Scenario.two_mondays
               Scenario.both_priced
               [("A", mkPosition 100 10.5 10.5 Scenario.monday1 "Alpha");
                ("B", mkPosition 100 10 10 Scenario.monday1 "Beta")] 1000000
               Scenario.monday2
    = Ok (positions', capital', trades)
    ∧ length positions' = 1%nat
    ∧ Forall (λ e : string * position,
                ∀ p, close_on Scenario.both_priced e.1 Scenario.monday2
                     = Some p →
                     (p <= max_price e.2)%Q
                     ∧ (¬ (max_price e.2 == 0)%Q →
                        ((max_price e.2 - p) / max_price e.2
                         < stop_loss_pct (Scenario.engine false))%Q)
                     ∧ ((max_price e.2 == 0)%Q → (p == 0)%Q))
             positions'.
Proof.
  eexists _, _, _. split; [vm_compute; reflexivity|].
  split; [reflexivity|].
  eapply (day_trades_leaves_no_position_at_its_stop
            (Scenario.engine false) Scenario.two_mondays
            Scenario.both_priced
            [("A", mkPosition 100 10.5 10.5 Scenario.monday1 "Alpha");
             ("B", mkPosition 100 10 10 Scenario.monday1 "Beta")] 1000000
            Scenario.monday2).
  - vm_compute. reflexivity.
  - apply (bool_decide_unpack _). vm_compute. exact I.
  - vm_compute. reflexivity.
Defined.

(** ** The price and the date of a trade *)

Lemma stop_loss_trades_at_close self price_data d positions :
  Forall (at_close price_data d)
         (omap (stop_loss_exit self price_data d (strftime d)) positions).*2.
Proof.
  apply Forall_fmap, Forall_forall. intros [net t] Hin.
  apply list_elem_of_omap in Hin as (e & He & Hex).
  apply stop_loss_exit_Some in Hex as (p & Hp & _ & Hsell).
  apply sell_position_fields in Hsell as (_ & Hd & Hc & _ & _ & Hpr & _).
  unfold at_close. cbn [snd compose]. by rewrite Hd, Hc, Hpr.
Qed.

Lemma rebalance_trades_at_close self price_data d positions :
  Forall (at_close price_data d)
         (omap (rebalance_exit self price_data d (strftime d)) positions).*2.
Proof.
  apply Forall_fmap, Forall_forall. intros [net t] Hin.
  apply list_elem_of_omap in Hin as (e & He & Hex).
  apply rebalance_exit_Some in Hex as (p & Hp & Hsell).
  apply sell_position_fields in Hsell as (_ & Hd & Hc & _ & _ & Hpr & _).
  unfold at_close. cbn [snd compose]. by rewrite Hd, Hc, Hpr.
Qed.

Lemma buy_loop_at_close self price_data d n buy_signals :
  ∀ positions capital trades positions' capital' trades',
    foldM (buy_step self price_data d (strftime d) n)
          (positions, capital, trades) buy_signals
    = Ok (positions', capital', trades') →
    Forall (at_close price_data d) trades →
    Forall (at_close price_data d) trades'.
Proof.
  induction buy_signals as [|sig sigs IH];
    intros positions capital trades positions' capital' trades' H Ht.
  - cbn [foldM] in H. by inversion H; subst.
  - cbn [foldM] in H. apply bind_Ok in H as ([[ps1 c1] ts1] & H1 & H).
    apply (IH _ _ _ _ _ _ H).
    apply buy_step_entry in H1
      as [(_ & _ & ->)|(p & lots & Hp & _ & _ & _ & _ & _ & ->)]; [done|].
    apply Forall_app. split; [done|]. constructor; [|constructor].
    by split.
Qed.

Lemma day_trades_at_close self signals price_data positions capital d
    positions' capital' trades :
  day_trades self signals price_data positions capital d
  = Ok (positions', capital', trades) →
  Forall (at_close price_data d) trades.
Proof.
  intros H. unfold day_trades, _check_stop_loss in H.
  rewrite stop_loss_fold in H. cbn [app] in H.
  pose proof (stop_loss_trades_at_close self price_data d
                (_update_positions_high positions price_data d)) as Ht1.
  set (ts1 := (omap _ (_update_positions_high positions price_data d)).*2) in *.
  apply bind_Ok in H as ([[ps2 c2] ts2] & Hbuy & H).
  assert (Forall (at_close price_data d) ts2) as Ht2.
  { destruct (signals !! strftime d) as [buy_signals|].
    - apply bind_Ok in Hbuy as ([[ps c] ts] & Hb & Hr). inversion Hr; subst.
      unfold _execute_buy_signals in Hb.
      apply buy_loop_at_close in Hb; [|constructor]. by apply Forall_app.
    - by inversion Hbuy; subst. }
  destruct (rebalance_weekly self && _is_rebalance_day self d);
    [|by inversion H; subst].
  apply bind_Ok in H as ([[ps c] ts] & Hb & Hr). inversion Hr; subst.
  apply Forall_app. split; [done|].
  unfold _execute_weekly_rebalance in Hb.
  destruct ps2 as [|e ps2]; [inversion Hb; subst; constructor|].
  rewrite rebalance_fold in Hb. cbn [app] in Hb.
  pose proof (rebalance_trades_at_close self price_data d (e :: ps2)) as Ht3.
  destruct (default [] (signals !! strftime d)) as [|sig sigs];
    [by inversion Hb; subst|].
  apply bind_Ok in Hb as ([[ps' c'] ts'] & Hb & Hr'). inversion Hr'; subst.
  unfold _execute_buy_signals in Hb.
  apply buy_loop_at_close in Hb; [|constructor]. by apply Forall_app.
Qed.

Lemma day_loop_at_close signals price_data dates :
  ∀ self positions capital numpy r self',
    day_loop self signals price_data positions capital numpy dates = (r, self') →
    ∃ trades,
      trade_history self' = trade_history self ++ trades
      ∧ Forall (λ t, ∃ d, d ∈ dates ∧ at_close price_data d t) trades.
Proof.
  induction dates as [|d dates IH];
    intros self positions capital numpy r self' H.
  - inversion H; subst. exists []. by rewrite app_nil_r.
  - cbn [day_loop] in H.
    destruct (day_trades self signals price_data positions capital d)
      as [[[ps1 c1] ts1]|e] eqn:Hd.
    2:{ inversion H; subst. exists []. by rewrite app_nil_r. }
    destruct (_record_daily_status _ _ _ _ _ _ _) as [self1|e] eqn:Hr.
    2:{ inversion H; subst. exists []. by rewrite app_nil_r. }
    apply day_trades_at_close in Hd.
    apply record_daily_status_Ok in Hr as (_ & _ & _ & _ & _ & _ & Hth & _).
    apply IH in H as (trades & Hth' & Hts).
    exists (ts1 ++ trades). split; [by rewrite Hth', Hth, <- app_assoc|].
    apply Forall_app. split.
    + eapply Forall_impl; [exact Hd|]. intros t Ht. exists d.
      split; [constructor|done].
    + eapply Forall_impl; [exact Hts|]. intros t (d' & Hd' & Ht). exists d'.
      split; [by constructor|done].
Qed.

(** X19.  Every trade is made on a trading date at the close of its
    instrument on that date: each trade a run appends to the trade history
    carries the zero-padded text of a trading date, and its price is the
    close that the price data hold for its instrument on that date. *)
Theorem run_backtest_trades_at_the_close_of_a_trading_date :
  ∀ (np_power : npfloat → Q → npfloat) (sqrt_pos : Q → Q)
    (self : BacktestEngine) (signals : Signals) (price_data : PriceData)
    (start_date end_date : option string) (dates : list date),
    _get_all_trading_dates signals price_data start_date end_date = Ok dates →
    ∃ trades,
      trade_history
        (run_backtest np_power sqrt_pos self signals price_data start_date
                      end_date).2
      = trade_history self ++ trades
      ∧ Forall (λ t, ∃ d, d ∈ dates ∧ at_close price_data d t) trades.
Proof.
  intros np_power sqrt_pos self signals price_data start_date end_date dates
         Hdates.
  assert (∃ trades, trade_history self = trade_history self ++ trades
            ∧ Forall (λ t, ∃ d, d ∈ dates ∧ at_close price_data d t) trades)
    as Hstop by (exists []; by rewrite app_nil_r).
  unfold run_backtest. rewrite Hdates.
  destruct (if rebalance_weekly self then _ else _); [|done].
  destruct dates as [|d dates]; [done|].
  destruct (day_loop _ _ _ _ _ _ _) as [r1 self1] eqn:Hloop.
  apply day_loop_at_close in Hloop as (trades & Hth & Hts).
  destruct r1 as [[]|e]; [|cbn [snd]; eauto].
  destruct (_calculate_results _ _ _ _) as [self2|e] eqn:Hres;
    [|cbn [snd]; eauto].
  cbn [snd]. apply calculate_results_Ok in Hres as (_ & -> & _). eauto.
Qed.

Lemma run_backtest_trades_at_the_close_witness :
  ∃ trades,
    trade_history
      (run_backtest Scenario.no_power Scenario.no_sqrt (Scenario.engine true)
                    Scenario.two_mondays Scenario.both_priced None None).2
    = trade_history (Scenario.engine true) ++ trades
    ∧ Forall (λ t, ∃ d, d ∈ [Scenario.monday1; Scenario.monday2]
                        ∧ at_close Scenario.both_priced d t) trades.
Proof.
  apply (run_backtest_trades_at_the_close_of_a_trading_date
           Scenario.no_power Scenario.no_sqrt (Scenario.engine true)
           Scenario.two_mondays Scenario.both_priced None None
           [Scenario.monday1; Scenario.monday2]).
  vm_compute. reflexivity.
Defined.

(** ** The ledger after a weekly rebalance *)

Lemma buy_loop_entered_today self price_data d date_str n all_signals
    buy_signals :
  (∀ sig, sig ∈ buy_signals → sig ∈ all_signals) →
  ∀ positions capital trades positions' capital' trades',
    Forall (entered_today price_data d all_signals) positions →
    foldM (buy_step self price_data d date_str n) (positions, capital, trades)
          buy_signals
    = Ok (positions', capital', trades') →
    Forall (entered_today price_data d all_signals) positions'.
Proof.
  induction buy_signals as [|sig sigs IH];
    intros Hsub positions capital trades positions' capital' trades' Hps H.
  - cbn [foldM] in H. by inversion H; subst.
  - cbn [foldM] in H. apply bind_Ok in H as ([[ps1 c1] ts1] & H1 & H).
    apply (IH ltac:(intros s Hs; apply Hsub; by constructor)
              _ _ _ _ _ _) in H; [done|].
    apply buy_step_entry in H1
      as [(-> & _ & _)|(p & lots & Hp & _ & _ & _ & -> & _ & _)]; [done|].
    apply Forall_app. split; [done|]. constructor; [|constructor].
    unfold entered_today. cbn [fst snd buy_date max_price avg_price].
    repeat split; [|done]. apply list_elem_of_fmap_2, Hsub. constructor.
Qed.

(** X20.  A weekly rebalance leaves only entries of the day: when the steps
    of a rebalance day are done, every position of the ledger is for an
    instrument that the feed signals on that day, was entered on that day,
    and has the close of the day as its entry price and as its highest
    price.  Whatever was held before is gone. *)
Theorem rebalance_day_leaves_only_entries_of_the_day :
  ∀ (self : BacktestEngine) (signals : Signals) (price_data : PriceData)
    (positions : Positions) (capital : Q) (d : date)
    (positions' : Positions) (capital' : Q) (trades : list trade),
    rebalance_weekly self = true →
    weekday d = rebalance_day self →
    day_trades self signals price_data positions capital d
    = Ok (positions', capital', trades) →
    Forall (entered_today price_data d (default [] (signals !! strftime d)))
           positions'.
Proof.
  intros self signals price_data positions capital d positions' capital' trades
         Hw Hday H.
  unfold day_trades in H.
  destruct (_check_stop_loss _ _ _ _ _ _) as [[ps1 c1] ts1].
  apply bind_Ok in H as ([[ps2 c2] ts2] & Hbuy & H).
  unfold _is_rebalance_day in H. rewrite Hw, Hday, Z.eqb_refl in H.
  cbn [andb] in H.
  apply bind_Ok in H as ([[ps c] ts] & Hb & Hr). inversion Hr; subst.
  unfold _execute_weekly_rebalance in Hb.
  destruct ps2 as [|e ps2]; [inversion Hb; subst; constructor|].
  destruct (fold_left _ (e :: ps2) (c2, [])) as [c3 ts3].
  destruct (default [] (signals !! strftime d)) as [|sig sigs] eqn:Hsig;
    [inversion Hb; subst; constructor|].
  apply bind_Ok in Hb as ([[ps' c'] ts'] & Hb & Hr'). inversion Hr'; subst.
  unfold _execute_buy_signals in Hb.
  by apply (buy_loop_entered_today _ _ _ _ _ (sig :: sigs)) in Hb;
    [|done|constructor].
Qed.

Lemma rebalance_day_leaves_only_entries_witness :
  ∃ positions' capital' trades,
    day_trades (Scenario.engine true) Scenario.two_mondays Scenario.both_priced
               [("A", mkPosition 100 10 10 Scenario.monday1 "Alpha")] 1000000
               Scenario.monday2
    = Ok (positions', capital', trades)
    ∧ Forall (entered_today Scenario.both_priced Scenario.monday2
                (default [] (Scenario.two_mondays
                               !! strftime Scenario.monday2)))
             positions'.
Proof.
  eexists _, _, _. split; [vm_compute; reflexivity|].
  eapply (rebalance_day_leaves_only_entries_of_the_day
            (Scenario.engine true) Scenario.two_mondays Scenario.both_priced
            [("A", mkPosition 100 10 10 Scenario.monday1 "Alpha")] 1000000
            Scenario.monday2).
  - reflexivity.
  - vm_compute. reflexivity.
  - vm_compute. reflexivity.
Defined.
